(** * Verification of the survey normalisation engine

    A shallow embedding of [preprocess_survey_data]
    (src/preprocessing/automate_kenny.py) together with the pandas
    operations it calls, the properties of the engine that the
    specification states, and further properties of the code: where it
    raises, which steps are idle, what the output holds.

    Modelling choices.
    - A scalar is missing ([NaN]), a finite number ([Num], an exact
      rational standing for the float or integer held by pandas), or text
      ([Str]).  Infinities and rounding are outside the model.
    - A label or a text is the string of its characters, each a code
      point below 256; characters beyond are outside the model.
    - A column ([Series]) is the list of its scalars in row order; its
      dtype is the one pandas infers from the contents: [object] when the
      column holds text, [int64]/[float64] otherwise.
    - A table ([DataFrame]) is the list of its labelled columns in column
      order.  Column labels are assumed pairwise distinct after line 17,
      as pandas requires for [df[col]] to denote a Series; the statements
      of when the engine returns on a table carry this as a hypothesis.
    - [astype(int)] is modelled as the truncation of a number whose
      integer part is an [int64]; beyond that range numpy returns a value
      that depends on the platform.  Only in the binary columns can the
      cast meet such a number, and the statement of their values carries
      the hypothesis [fits_int64].
    - A Python exception is a value [Raise e] of the [result] monad.
    - Three behaviours belong to pandas and not to the engine, and are
      parameters of the development: the finite number that
      [pd.to_numeric] reads in a text, the texts that it reads as an
      infinity (outside the model: the statement of when the engine
      returns assumes there is none, [finite_reading]), and what
      [Series.median] does on an [object] column holding text (a
      [TypeError] in pandas 2, a conversion attempt in older releases). *)

From Stdlib Require Import String Ascii List Bool Arith ZArith QArith Qround Lia Lqa.
From Stdlib Require Import Sorted Permutation.
Import ListNotations.

Local Open Scope string_scope.
Local Open Scope list_scope.

(** ** Exceptions *)

Inductive exn : Type :=
| KeyError     (* [s[0]] on an empty Series *)
| TypeError    (* arithmetic or comparison on text *)
| ValueError.  (* a cast that cannot be done, e.g. NaN to integer *)

Inductive result (A : Type) : Type :=
| Ok (a : A)
| Raise (e : exn).

Arguments Ok {A} a.
Arguments Raise {A} e.

Definition bind {A B : Type} (r : result A) (k : A -> result B) : result B :=
  match r with
  | Ok a => k a
  | Raise e => Raise e
  end.

Notation "x <- c ;; k" := (bind c (fun x => k))
  (at level 61, c at next level, right associativity).

Fixpoint mapM {A B : Type} (f : A -> result B) (l : list A) : result (list B) :=
  match l with
  | [] => Ok []
  | a :: l' => b <- f a ;; bs <- mapM f l' ;; Ok (b :: bs)
  end.

(** ** Scalars, columns, tables *)

Inductive cell : Type :=
| NaN
| Num (q : Q)
| Str (s : string).

Definition Series : Type := list cell.
Definition DataFrame : Type := list (string * Series).

Definition int (z : Z) : cell := Num (inject_Z z).

Definition isnull (c : cell) : bool :=
  match c with NaN => true | _ => false end.

Definition notnull (c : cell) : bool := negb (isnull c).

Definition is_text (c : cell) : bool :=
  match c with Str _ => true | _ => false end.

Definition Qltb (a b : Q) : bool := negb (Qle_bool b a).

(** Equality of scalars as pandas hashes them: numbers by value, text by
    characters, and a missing value equal to a missing value (the
    convention of [duplicated], [mode] and [dict] lookup never meets a
    missing key here). *)
Definition cell_eqb (a b : cell) : bool :=
  match a, b with
  | NaN, NaN => true
  | Num p, Num q => Qeq_bool p q
  | Str s, Str t => String.eqb s t
  | _, _ => false
  end.

Inductive dtype : Type := int64 | float64 | object.

Definition is_integral (c : cell) : bool :=
  match c with
  | Num q => Qeq_bool q (inject_Z (Qfloor q))
  | _ => false
  end.

Definition dtype_of (s : Series) : dtype :=
  if existsb is_text s then object
  else if forallb is_integral s then int64
  else float64.

(** [s.dtype in ['int64', 'float64']] *)
Definition dtype_in_int64_float64 (s : Series) : bool :=
  match dtype_of s with
  | object => false
  | _ => true
  end.

(** ** The pandas operations used by the engine *)

Module pd.

Definition fillna (v : cell) (s : Series) : Series :=
  map (fun c => if isnull c then v else c) s.

Definition isnull_all (s : Series) : bool := forallb isnull s.
Definition isnull_any (s : Series) : bool := existsb isnull s.

(** *** median *)

Fixpoint insert (q : Q) (l : list Q) : list Q :=
  match l with
  | [] => [q]
  | x :: r => if Qle_bool q x then q :: l else x :: insert q r
  end.

Definition sort (l : list Q) : list Q := fold_right insert [] l.

Definition numbers (s : Series) : list Q :=
  flat_map (fun c => match c with Num q => [q] | _ => [] end) s.

(** [np.nanmedian] of the non-missing numbers: the middle one, or the
    mean of the two middle ones; NaN when there is none. *)
Definition nanmedian (l : list Q) : cell :=
  let v := sort l in
  let n := length v in
  if (n =? 0)%nat then NaN
  else if Nat.odd n then Num (nth (n / 2) v 0%Q)
  else Num (Qred ((nth (n / 2 - 1) v 0%Q + nth (n / 2) v 0%Q) / 2)).

(** *** mode *)

Definition count (c : cell) (s : Series) : nat :=
  length (filter (cell_eqb c) s).

(** Distinct values in order of first appearance. *)
Fixpoint unique_from (seen : list cell) (s : Series) : list cell :=
  match s with
  | [] => []
  | c :: s' =>
      if existsb (cell_eqb c) seen then unique_from seen s'
      else c :: unique_from (c :: seen) s'
  end.

Definition unique (s : Series) : list cell := unique_from [] s.

Definition max_count (vals : Series) : nat :=
  fold_right Nat.max 0%nat (map (fun c => count c vals) vals).

(** The most frequent non-missing values, in order of first appearance. *)
Definition modes (s : Series) : list cell :=
  let vals := filter notnull s in
  filter (fun c => (count c vals =? max_count vals)%nat) (unique vals).

(** Python's [<=] where it is defined: between numbers and between
    strings (by code point). *)
Definition cell_leb (a b : cell) : bool :=
  match a, b with
  | Num p, Num q => Qle_bool p q
  | Str s, Str t => String.leb s t
  | _, _ => false
  end.

Fixpoint insert_cell (c : cell) (l : list cell) : list cell :=
  match l with
  | [] => [c]
  | x :: r => if cell_leb c x then c :: l else x :: insert_cell c r
  end.

Definition is_num (c : cell) : bool :=
  match c with Num _ => true | _ => false end.

(** [Series.mode()]: the modes in ascending order; when numbers and text
    are both among the modes the sort raises inside pandas, which then
    keeps the order of first appearance. *)
Definition mode (s : Series) : Series :=
  let m := modes s in
  if forallb is_num m || forallb is_text m
  then fold_right insert_cell [] m
  else m.

(** [s[0]] on the freshly indexed result of [mode()]. *)
Definition first (s : Series) : result cell :=
  match s with
  | [] => Raise KeyError
  | c :: _ => Ok c
  end.

(** *** casts *)

(** Truncation towards zero, as [astype(int)] does on floats whose
    integer part is an [int64]. *)
Definition Qtrunc (q : Q) : Z := Z.quot (Qnum q) (Zpos (Qden q)).

(** What the cast makes of a number. *)
Definition truncate (c : cell) : cell :=
  match c with Num q => int (Qtrunc q) | _ => c end.

Definition astype_int (s : Series) : result Series :=
  mapM (fun c =>
          match c with
          | Num q => Ok (int (Qtrunc q))
          | NaN => Raise ValueError
          | Str _ => Raise ValueError
          end) s.

(** *** comparisons and clipping *)

Definition between (lo hi : Q) (s : Series) : list bool :=
  map (fun c =>
         match c with
         | Num q => Qle_bool lo q && Qle_bool q hi
         | _ => false
         end) s.

Definition all (l : list bool) : bool := forallb (fun b => b) l.

Definition clip (lo hi : Q) (s : Series) : Series :=
  map (fun c =>
         match c with
         | Num q => if Qltb q lo then Num lo
                    else if Qltb hi q then Num hi
                    else Num q
         | _ => c
         end) s.

(** *** Series.map with a dict *)

Definition dict : Type := list (cell * Z).

Fixpoint lookup (d : dict) (k : cell) : option Z :=
  match d with
  | [] => None
  | (k', v) :: d' => if cell_eqb k' k then Some v else lookup d' k
  end.

Definition map_dict (d : dict) (s : Series) : Series :=
  map (fun c => match lookup d c with Some v => int v | None => NaN end) s.

(** *** pd.cut(..., right=False, include_lowest=True) with explicit labels *)

Inductive edge : Type := Fin (q : Q) | Inf.

Definition edge_leb (e : edge) (x : Q) : bool :=
  match e with Fin b => Qle_bool b x | Inf => false end.

Definition edge_eqb (e : edge) (x : Q) : bool :=
  match e with Fin b => Qeq_bool b x | Inf => false end.

(** [bins.searchsorted(x, side='right')] on increasing [bins]: the number
    of edges that are at most [x]. *)
Definition searchsorted_right (bins : list edge) (x : Q) : nat :=
  length (filter (fun e => edge_leb e x) bins).

Definition cut_value (bins : list edge) (labels : list Z) (x : Q) : cell :=
  let ids := searchsorted_right bins x in
  let ids := match bins with
             | b0 :: _ => if edge_eqb b0 x then 1%nat else ids
             | [] => ids
             end in
  if (ids =? length bins)%nat || (ids =? 0)%nat then NaN
  else match nth_error labels (ids - 1) with
       | Some l => int l
       | None => NaN
       end.

(** The categorical result, read back as the numbers of its labels. *)
Definition cut (bins : list edge) (labels : list Z) (s : Series) : Series :=
  map (fun c => match c with Num x => cut_value bins labels x | _ => NaN end) s.

(** *** drop_duplicates *)

Definition row : Type := list cell.

Fixpoint row_eqb (r1 r2 : row) : bool :=
  match r1, r2 with
  | [], [] => true
  | a :: r1', b :: r2' => cell_eqb a b && row_eqb r1' r2'
  | _, _ => false
  end.

Definition nrows (df : DataFrame) : nat :=
  match df with
  | [] => 0%nat
  | (_, s) :: _ => length s
  end.

Fixpoint transpose (n : nat) (cols : list Series) : list row :=
  match n with
  | O => []
  | S n' => map (hd NaN) cols :: transpose n' (map (@tl cell) cols)
  end.

Definition rows (df : DataFrame) : list row :=
  transpose (nrows df) (map snd df).

(** [duplicated(keep='first')]: a row is marked when an equal row came
    before it. *)
Fixpoint duplicated_from (seen : list row) (rs : list row) : list bool :=
  match rs with
  | [] => []
  | r :: rs' => existsb (row_eqb r) seen :: duplicated_from (r :: seen) rs'
  end.

Definition duplicated (df : DataFrame) : list bool :=
  duplicated_from [] (rows df).

(** Keep the entries whose mark is [false]. *)
Fixpoint drop {A : Type} (marks : list bool) (l : list A) : list A :=
  match marks, l with
  | b :: m, a :: l' => if b then drop m l' else a :: drop m l'
  | _, _ => []
  end.

(** [drop_duplicates] followed by [reset_index(drop=True)]: positions in
    the lists are the new row labels. *)
Definition drop_duplicates (df : DataFrame) : DataFrame :=
  let marks := duplicated df in
  map (fun '(c, s) => (c, drop marks s)) df.

End pd.

(** ** Tables as rows *)

(** All columns have one entry per row. *)
Definition rectangular (df : DataFrame) : Prop :=
  Forall (fun p => length (snd p) = pd.nrows df) df.

(** Step 3 in the words of the specification: a row stays, and the exact
    duplicates of it further down are removed. *)
Fixpoint keep_first_occurrences (rs : list pd.row) : list pd.row :=
  match rs with
  | [] => []
  | r :: rs' =>
      r :: filter (fun x => negb (pd.row_eqb x r)) (keep_first_occurrences rs')
  end.

(** No row is an exact duplicate of an earlier one. *)
Fixpoint distinct_rows (rs : list pd.row) : Prop :=
  match rs with
  | [] => True
  | r :: rs' => (forall x, In x rs' -> pd.row_eqb x r = false) /\ distinct_rows rs'
  end.

(** ** The engine *)

(** What the engine takes from the installed pandas. *)
Class Pandas : Type := {
  (** the number that [pd.to_numeric] reads in a piece of text, if any *)
  to_float : string -> option Q;
  (** [Series.median()] on a column that holds text: an exception, or the
      median (a number, or nothing) that this pandas computes *)
  object_median : Series -> result (option Q);
  (** whether [pd.to_numeric] reads the text as an infinity ("inf",
      "-Infinity", a numeral too large for a float), a value that the
      model does not hold *)
  reads_infinity : string -> bool
}.

Section Engine.

Context {P : Pandas}.

Definition of_option (o : option Q) : cell :=
  match o with Some q => Num q | None => NaN end.

(** [pd.to_numeric(s, errors='coerce')] *)
Definition coerce (c : cell) : cell :=
  match c with
  | Str t => of_option (to_float t)
  | _ => c
  end.

Definition to_numeric_coerce (s : Series) : Series := map coerce s.

(** [pd.to_numeric(s)], which raises on text that is not a number. *)
Definition to_numeric (s : Series) : result Series :=
  mapM (fun c =>
          match c with
          | Str t => match to_float t with
                     | Some q => Ok (Num q)
                     | None => Raise ValueError
                     end
          | _ => Ok c
          end) s.

Definition median (s : Series) : result cell :=
  if existsb is_text s
  then m <- object_median s ;; Ok (of_option m)
  else Ok (pd.nanmedian (pd.numbers s)).

(** *** Line 17: column labels *)

(** The characters below code point 256 for which [str.isspace] holds:
    tab to carriage return (9-13), the separators 28-31, the space (32),
    the next-line control (133) and the no-break space (160). *)
Definition is_space (a : ascii) : bool :=
  let n := nat_of_ascii a in
  ((9 <=? n) && (n <=? 13) || (28 <=? n) && (n <=? 32)
   || (n =? 133) || (n =? 160))%nat.

Fixpoint lstrip (s : string) : string :=
  match s with
  | EmptyString => EmptyString
  | String a s' => if is_space a then lstrip s' else s
  end.

Fixpoint rstrip (s : string) : string :=
  match s with
  | EmptyString => EmptyString
  | String a s' =>
      match rstrip s' with
      | EmptyString => if is_space a then EmptyString else String a EmptyString
      | r => String a r
      end
  end.

Definition strip (s : string) : string := rstrip (lstrip s).

Fixpoint replace_space (s : string) : string :=
  match s with
  | EmptyString => EmptyString
  | String a s' => String (if Ascii.eqb a " " then "_"%char else a) (replace_space s')
  end.

(** [label.strip().replace(' ', '_')] *)
Definition canonical_label (c : string) : string := replace_space (strip c).

Definition rename_columns (df : DataFrame) : DataFrame :=
  map (fun '(c, s) => (canonical_label c, s)) df.

(** *** The column classes *)

Definition continuous_cols : list string := ["BMI"; "MentHlth"; "PhysHlth"].

Definition binary_cols : list string :=
  ["Diabetes_binary"; "HighBP"; "HighChol"; "CholCheck"; "Smoker";
   "Stroke"; "HeartDiseaseorAttack"; "PhysActivity"; "Fruits";
   "Veggies"; "HvyAlcoholConsump"; "AnyHealthcare"; "NoDocbcCost";
   "DiffWalk"; "Sex"].

Definition ordinal_cols : list string := ["GenHlth"; "Age"; "Education"; "Income"].

(** The list of line 24. *)
Definition coded_cols : list string := binary_cols ++ ordinal_cols.

Definition mem (c : string) (l : list string) : bool := existsb (String.eqb c) l.

(** [for col in df.columns: df[col] = f(col, df[col])] *)
Definition for_each_column (f : string -> Series -> result Series)
    (df : DataFrame) : result DataFrame :=
  mapM (fun '(c, s) => s' <- f c s ;; Ok (c, s')) df.

(** [if col in df.columns: df[col] = f(df[col])] *)
Definition update (col : string) (f : Series -> result Series)
    (df : DataFrame) : result DataFrame :=
  for_each_column (fun c s => if String.eqb c col then f s else Ok s) df.

(** [for col in cols: if col in df.columns: df[col] = h(df[col])] *)
Definition update_all (h : Series -> result Series) (cols : list string)
    (r : result DataFrame) : result DataFrame :=
  fold_left (fun acc col => d <- acc ;; update col h d) cols r.

(** *** Lines 21-28: first imputation *)

Definition impute_column (col : string) (s : Series) : result Series :=
  if mem col continuous_cols then
    m <- median s ;; Ok (pd.fillna m s)
  else if mem col coded_cols then
    m <- pd.first (pd.mode s) ;; Ok (pd.fillna m s)
  else Ok s.

(** *** Lines 59-63: binary columns *)

(** [lambda x: 1 if x > 0 else 0] *)
Definition one_if_positive (c : cell) : result cell :=
  match c with
  | Num x => Ok (if Qltb 0 x then int 1 else int 0)
  | NaN => Ok (int 0)
  | Str _ => Raise TypeError
  end.

Definition to_binary (s : Series) : result Series :=
  s1 <- pd.astype_int (pd.fillna (int 0) (to_numeric_coerce s)) ;;
  mapM one_if_positive s1.

(** *** Lines 67-97: GenHlth and Education *)

Definition genhlth_mapping : pd.dict :=
  [(int 1, 1%Z); (Str "excellent", 1%Z);
   (int 2, 2%Z); (Str "very good", 2%Z);
   (int 3, 3%Z); (Str "good", 3%Z);
   (int 4, 4%Z); (Str "fair", 4%Z);
   (int 5, 5%Z); (Str "poor", 5%Z)].

Definition education_mapping : pd.dict :=
  [(int 1, 1%Z); (Str "never attended school or only kindergarten", 1%Z);
   (int 2, 2%Z); (Str "elementary", 2%Z);
   (int 3, 3%Z); (Str "middle school", 3%Z);
   (int 4, 4%Z); (Str "high school", 4%Z);
   (int 5, 5%Z); (Str "less than 4 years college", 5%Z);
   (int 6, 6%Z); (Str "4 years college or more", 6%Z)].

(** [s.dtype in ['int64', 'float64'] and s.between(lo, hi).all()] *)
Definition in_expected_range (lo hi : Q) (s : Series) : bool :=
  dtype_in_int64_float64 s && pd.all (pd.between lo hi s).

Definition remap (mapping : pd.dict) (s : Series) : result Series :=
  let mapped := pd.map_dict mapping s in
  m <- pd.first (pd.mode mapped) ;;
  pd.astype_int (pd.fillna m (to_numeric_coerce mapped)).

Definition handle_GenHlth (s : Series) : result Series :=
  s1 <- (if negb (in_expected_range 1 5 s) then remap genhlth_mapping s else Ok s) ;;
  Ok (pd.clip 1 5 s1).

Definition handle_Education (s : Series) : result Series :=
  s1 <- (if negb (in_expected_range 1 6 s) then remap education_mapping s else Ok s) ;;
  Ok (pd.clip 1 6 s1).

(** *** Lines 103-127: Age and Income *)

Definition age_bins : list pd.edge :=
  map pd.Fin [18; 25; 30; 35; 40; 45; 50; 55; 60; 65; 70; 75; 80]%Q ++ [pd.Inf].
Definition age_labels : list Z := [1; 2; 3; 4; 5; 6; 7; 8; 9; 10; 11; 12; 13]%Z.

Definition income_bins : list pd.edge :=
  map pd.Fin [0; 10000; 15000; 20000; 25000; 35000; 50000; 75000]%Q ++ [pd.Inf].
Definition income_labels : list Z := [1; 2; 3; 4; 5; 6; 7; 8]%Z.

(** [labels[len(labels)//2 - 1]] *)
Definition middle_label (labels : list Z) : cell :=
  int (nth (length labels / 2 - 1) labels 0%Z).

(** Lines 110-113 (and 124-126): coerce, impute, bucket. *)
Definition impute_for_binning (labels : list Z) (s : Series) : result Series :=
  let s1 := to_numeric_coerce s in
  fill <- (if negb (pd.isnull_all s1) then median s1 else Ok (middle_label labels)) ;;
  Ok (pd.fillna fill s1).

Definition bin (bins : list pd.edge) (labels : list Z) (s : Series) : result Series :=
  s1 <- impute_for_binning labels s ;;
  Ok (pd.cut bins labels s1).

Definition handle_Age (s : Series) : result Series :=
  s1 <- (if negb (in_expected_range 1 13 s) then bin age_bins age_labels s else Ok s) ;;
  to_numeric s1.

Definition handle_Income (s : Series) : result Series :=
  s1 <- (if negb (in_expected_range 1 8 s) then bin income_bins income_labels s else Ok s) ;;
  to_numeric s1.

(** *** Lines 130-136: MentHlth and PhysHlth *)

Definition handle_days (s : Series) : result Series :=
  m <- median s ;;
  pd.astype_int (pd.clip 0 30 (pd.fillna m (to_numeric_coerce s))).

(** *** Lines 141-148: final enforcement *)

Definition enforce_numeric (col : string) (s : Series) : result Series :=
  let s1 := to_numeric_coerce s in
  if pd.isnull_any s1 then
    if mem col binary_cols || mem col ["GenHlth"; "Age"; "Education"; "Income"] then
      m <- pd.first (pd.mode s1) ;; Ok (pd.fillna m s1)
    else
      m <- median s1 ;; Ok (pd.fillna m s1)
  else Ok s1.

(** *** The whole function *)

(** Lines 17-35: labels, first imputation, deduplication. *)
Definition impute_and_deduplicate (df : DataFrame) : result DataFrame :=
  df1 <- for_each_column impute_column (rename_columns df) ;;
  Ok (pd.drop_duplicates df1).

(** Lines 55-148: the per-column rules and the final enforcement. *)
Definition encode_and_enforce (df : DataFrame) : result DataFrame :=
  df <- update_all to_binary binary_cols (Ok df) ;;
  df <- update "GenHlth" handle_GenHlth df ;;
  df <- update "Education" handle_Education df ;;
  df <- update "Age" handle_Age df ;;
  df <- update "Income" handle_Income df ;;
  df <- update "MentHlth" handle_days df ;;
  df <- update "PhysHlth" handle_days df ;;
  for_each_column enforce_numeric df.

Definition preprocess_survey_data (df : DataFrame) : result DataFrame :=
  df1 <- impute_and_deduplicate df ;;
  encode_and_enforce df1.

(** *** Passes seen column by column *)

(** The relation between a labelled column and what a pass [f] makes of it. *)
Definition pass_rel (f : string -> Series -> result Series)
    (x y : string * Series) : Prop :=
  fst y = fst x /\ f (fst x) (snd x) = Ok (snd y).

(** What a loop over [cols] does to the column labelled [c]. *)
Fixpoint apply_if_named (h : Series -> result Series) (cols : list string)
    (c : string) (s : Series) : result Series :=
  match cols with
  | [] => Ok s
  | col :: cols' =>
      s1 <- (if String.eqb c col then h s else Ok s) ;;
      apply_if_named h cols' c s1
  end.

(** *** What the rules compute, value by value *)

(** Lines 62-63 on one value: coerce, missing to 0, truncate, test the
    sign.  The truncated value is positive exactly from 1 upwards. *)
Definition binary_value (c : cell) : cell :=
  match coerce c with
  | Num q => if Qle_bool 1 q then int 1 else int 0
  | _ => int 0
  end.

(** Step 4 in the words of the specification: a value that fails coercion
    becomes 0, any strictly positive number becomes 1, everything else 0. *)
Definition stated_binary_value (c : cell) : cell :=
  match coerce c with
  | Num q => if Qltb 0 q then int 1 else int 0
  | _ => int 0
  end.

(** The integers of an [int64] column. *)
Definition int64_min : Z := (- 2 ^ 63)%Z.
Definition int64_max : Z := (2 ^ 63 - 1)%Z.

(** A value that, once coerced, is cast by [astype(int)] as the model
    says: missing, or a number whose integer part is an [int64].  Beyond
    that range the cast of numpy returns a value that depends on the
    platform. *)
Definition fits_int64 (c : cell) : Prop :=
  match coerce c with
  | Num q => (int64_min <= pd.Qtrunc q <= int64_max)%Z
  | _ => True
  end.

(** A value that the model reads as pandas does: a number, a missing
    entry, or text that pandas does not read as an infinity. *)
Definition finite_reading (c : cell) : Prop :=
  match c with
  | Str t => reads_infinity t = false
  | _ => True
  end.

(** A number within the closed range [lo, hi]. *)
Definition in_range (lo hi : Q) (c : cell) : Prop :=
  exists q, c = Num q /\ lo <= q /\ q <= hi.

(** A whole number. *)
Definition is_integer (c : cell) : Prop := exists z, c = int z.

(** Lines 77-78 seen value by value: a key of the dict becomes its code,
    anything else the mode [m] of the mapped column. *)
Definition remapped (d : pd.dict) (s s' : Series) : Prop :=
  exists m,
    pd.first (pd.mode (pd.map_dict d s)) = Ok m /\
    s' = map (fun v => match pd.lookup d v with
                       | Some k => int k
                       | None => m
                       end) s.

(** The outcome of an ordinal column: within its range, and either passed
    through untouched or made of whole numbers. *)
Definition ordinal_closure (lo hi : Q) (s s' : Series) : Prop :=
  Forall (in_range lo hi) s' /\
  (in_expected_range lo hi s = true /\ s' = s \/
   in_expected_range lo hi s = false /\ Forall is_integer s').

Definition range_closure (c : string) (s s' : Series) : Prop :=
  (c = "GenHlth" -> ordinal_closure 1 5 s s') /\
  (c = "Education" -> ordinal_closure 1 6 s s') /\
  (c = "Age" -> ordinal_closure 1 13 s s') /\
  (c = "Income" -> ordinal_closure 1 8 s s') /\
  (c = "MentHlth" \/ c = "PhysHlth" ->
   Forall (in_range 0 30) s' /\ Forall is_integer s').

(** Lines 110-113 on one value: coerce, take [fill] when missing, bucket. *)
Definition binned_value (bins : list pd.edge) (labels : list Z) (fill : cell)
    (c : cell) : cell :=
  match (if isnull (coerce c) then fill else coerce c) with
  | Num x => pd.cut_value bins labels x
  | _ => NaN
  end.

(** *** The rule of one column

    What lines 55-148 do to the column labelled [col]: its own handler,
    then the final enforcement. *)

Definition column_handler (col : string) (s : Series) : result Series :=
  if mem col binary_cols then to_binary s
  else if String.eqb col "GenHlth" then handle_GenHlth s
  else if String.eqb col "Education" then handle_Education s
  else if String.eqb col "Age" then handle_Age s
  else if String.eqb col "Income" then handle_Income s
  else if String.eqb col "MentHlth" then handle_days s
  else if String.eqb col "PhysHlth" then handle_days s
  else Ok s.

Definition column_rule (col : string) (s : Series) : result Series :=
  s1 <- column_handler col s ;; enforce_numeric col s1.

(** *** Clean tables (the invariants of section 3) *)

(** A whole number, whatever its representation. *)
Definition whole (c : cell) : Prop :=
  exists q z, c = Num q /\ q == inject_Z z.

Definition bit (c : cell) : Prop :=
  exists q, c = Num q /\ (q == 0 \/ q == 1).

Definition clean_column (c : string) (s : Series) : Prop :=
  forallb pd.is_num s = true /\
  (mem c binary_cols = true -> Forall bit s) /\
  (c = "GenHlth" -> Forall (fun v => in_range 1 5 v /\ whole v) s) /\
  (c = "Education" -> Forall (fun v => in_range 1 6 v /\ whole v) s) /\
  (c = "Age" -> Forall (fun v => in_range 1 13 v /\ whole v) s) /\
  (c = "Income" -> Forall (fun v => in_range 1 8 v /\ whole v) s) /\
  (c = "MentHlth" \/ c = "PhysHlth" ->
   Forall (fun v => in_range 0 30 v /\ whole v) s).

(** Fully numeric, every column in its domain, no duplicate rows; the
    columns are identified by their labels as line 17 reads them. *)
Definition clean (df : DataFrame) : Prop :=
  rectangular (rename_columns df) /\
  Forall (fun p => clean_column (fst p) (snd p)) (rename_columns df) /\
  distinct_rows (pd.rows (rename_columns df)).

(** What the engine makes of a clean column: the casts of lines 62 and
    132 rewrite the numbers of the binary and day-count columns as
    integers; every other column is returned as it is. *)
Definition settle (c : string) (s : Series) : Series :=
  if mem c binary_cols then map binary_value s
  else if String.eqb c "MentHlth" || String.eqb c "PhysHlth"
       then map pd.truncate s
       else s.

Definition settle_table (df : DataFrame) : DataFrame :=
  map (fun p => (fst p, settle (fst p) (snd p))) df.

(** *** Tables the engine accepts *)

(** Some value of the column is a key of the dict. *)
Definition has_key (d : pd.dict) (s : Series) : Prop :=
  exists v k, In v s /\ pd.lookup d v = Some k.

(** Some value of the column coerces to a number that is at least [edge]. *)
Definition reaches (edge : Q) (s : Series) : Prop :=
  exists v q, In v s /\ coerce v = Num q /\ edge <= q.

(** Numeric, not entirely missing, within [lo, hi] wherever present. *)
Definition within (lo hi : Q) (s : Series) : Prop :=
  existsb is_text s = false /\
  existsb notnull s = true /\
  Forall (fun v => v = NaN \/ in_range lo hi v) s.

(** What a labelled column must offer for no step to raise on it: text
    nowhere in a continuous column and a number somewhere in a day count;
    a value somewhere in a binary column; in GenHlth and Education a key of
    the dict, in Age a value of at least 18 and in Income a value of at
    least 0, unless the column is numeric and within its range. *)
Definition processable (c : string) (s : Series) : Prop :=
  (mem c continuous_cols = true -> existsb is_text s = false) /\
  (c = "MentHlth" \/ c = "PhysHlth" -> existsb pd.is_num s = true) /\
  (mem c binary_cols = true -> existsb notnull s = true) /\
  (c = "GenHlth" -> within 1 5 s \/ has_key genhlth_mapping s) /\
  (c = "Education" -> within 1 6 s \/ has_key education_mapping s) /\
  (c = "Age" -> within 1 13 s \/ reaches 18 s) /\
  (c = "Income" -> within 1 8 s \/ reaches 0 s).

(** What the first imputation and the deduplication leave of it. *)
Definition ready (c : string) (s : Series) : Prop :=
  (c = "MentHlth" \/ c = "PhysHlth" -> forallb pd.is_num s = true) /\
  (c = "GenHlth" -> Forall (in_range 1 5) s \/ has_key genhlth_mapping s) /\
  (c = "Education" -> Forall (in_range 1 6) s \/ has_key education_mapping s) /\
  (c = "Age" -> Forall (in_range 1 13) s \/ reaches 18 s) /\
  (c = "Income" -> Forall (in_range 1 8) s \/ reaches 0 s).

End Engine.

(** ** A concrete pandas for the examples

    Text is read as a plain decimal literal (an optional minus sign, digits,
    an optional fractional part), a fragment of what [pd.to_numeric] reads
    (no exponent, no leading plus sign, no padding); the median of a column
    holding text raises, as in pandas 2. *)

Definition digit (a : ascii) : option Z :=
  let n := nat_of_ascii a in
  if ((48 <=? n) && (n <=? 57))%nat then Some (Z.of_nat (n - 48)) else None.

Fixpoint decimal_from (s : string) (dot : bool) (n : Z) (d : positive)
    (any : bool) : option Q :=
  match s with
  | EmptyString => if any then Some (Qred (n # d)) else None
  | String a s' =>
      match digit a with
      | Some k => decimal_from s' dot (10 * n + k) (if dot then 10 * d else d)%positive true
      | None => if Ascii.eqb a "." && negb dot
                then decimal_from s' true n d any
                else None
      end
  end.

Definition decimal (s : string) : option Q :=
  match s with
  | String "-" s' => option_map Qopp (decimal_from s' false 0 1 false)
  | _ => decimal_from s false 0 1 false
  end.

Definition lower (a : ascii) : ascii :=
  let n := nat_of_ascii a in
  if ((65 <=? n) && (n <=? 90))%nat then ascii_of_nat (n + 32) else a.

Fixpoint lowercase (s : string) : string :=
  match s with
  | EmptyString => EmptyString
  | String a s' => String (lower a) (lowercase s')
  end.

(** The spellings of an infinity: "inf" or "infinity" in any casing, with
    an optional sign. *)
Definition infinity_literal (s : string) : bool :=
  let t := lowercase s in
  let u := match t with
           | String "-" r => r
           | String "+" r => r
           | _ => t
           end in
  String.eqb u "inf" || String.eqb u "infinity".

Definition pandas2 : Pandas :=
  {| to_float := decimal;
     object_median := fun _ => Raise TypeError;
     reads_infinity := infinity_literal |}.

(** The engine on the concrete pandas. *)
Definition run (df : DataFrame) : result DataFrame :=
  @preprocess_survey_data pandas2 df.

(** Two labelled columns with the same number of entries. *)
Definition same_length (x y : string * Series) : Prop :=
  length (snd y) = length (snd x).

(** ** The text labels of the two dicts *)

Definition genhlth_labels : list (string * Z) :=
  [("excellent", 1); ("very good", 2); ("good", 3); ("fair", 4); ("poor", 5)]%Z.

Definition education_labels : list (string * Z) :=
  [("never attended school or only kindergarten", 1); ("elementary", 2);
   ("middle school", 3); ("high school", 4);
   ("less than 4 years college", 5); ("4 years college or more", 6)]%Z.

(** ** The bins as the specification lists them (label, interval) *)

Definition bounded (l : Z) (lo hi : Q) : Z * Q * option Q := (l, lo, Some hi).
Definition unbounded (l : Z) (lo : Q) : Z * Q * option Q := (l, lo, None).

Definition age_intervals : list (Z * Q * option Q) :=
  [bounded 1 18 25; bounded 2 25 30; bounded 3 30 35; bounded 4 35 40;
   bounded 5 40 45; bounded 6 45 50; bounded 7 50 55; bounded 8 55 60;
   bounded 9 60 65; bounded 10 65 70; bounded 11 70 75; bounded 12 75 80;
   unbounded 13 80].

Definition income_intervals : list (Z * Q * option Q) :=
  [bounded 1 0 10000; bounded 2 10000 15000; bounded 3 15000 20000;
   bounded 4 20000 25000; bounded 5 25000 35000; bounded 6 35000 50000;
   bounded 7 50000 75000; unbounded 8 75000].

(** Left-inclusive, right-exclusive; no upper end means infinity. *)
Definition in_interval (lo : Q) (hi : option Q) (q : Q) : Prop :=
  lo <= q /\ match hi with Some h => q < h | None => True end.

(** ** Further notions *)

(** The call ended in an exception. *)
Definition raises {A : Type} (r : result A) : Prop := exists e, r = Raise e.

(** How many of the numbers are at most, and at least, a given one. *)
Definition at_or_below (q : Q) (l : list Q) : nat :=
  length (filter (fun x => Qle_bool x q) l).

Definition at_or_above (q : Q) (l : list Q) : nat :=
  length (filter (fun x => Qle_bool q x) l).

(** A day count brought into [0, 30]: the integer part, at least 0 and at
    most 30. *)
Definition day_value (c : cell) : cell :=
  match c with
  | Num q => int (Z.max 0 (Z.min 30 (pd.Qtrunc q)))
  | _ => c
  end.

(** A value that is present and is not a number within [lo, hi]. *)
Definition outside (lo hi : Q) (v : cell) : Prop :=
  match v with
  | NaN => False
  | Num q => q < lo \/ hi < q
  | Str _ => True
  end.

(** What a column of the output looks like: numbers within the domain of
    its label, or, outside the coded columns and the day counts, nothing
    but missing entries. *)
Definition settled (c : string) (s : Series) : Prop :=
  (forallb pd.is_num s = true \/
   mem c coded_cols = false /\ c <> "MentHlth" /\ c <> "PhysHlth" /\
   Forall (fun v => v = NaN) s) /\
  (mem c binary_cols = true -> Forall (fun v => v = int 0 \/ v = int 1) s) /\
  (c = "GenHlth" -> Forall (in_range 1 5) s) /\
  (c = "Education" -> Forall (in_range 1 6) s) /\
  (c = "Age" -> Forall (in_range 1 13) s) /\
  (c = "Income" -> Forall (in_range 1 8) s) /\
  (c = "MentHlth" \/ c = "PhysHlth" ->
   Forall (fun v => in_range 0 30 v /\ is_integer v) s).

(** * Properties *)

(** ** The result monad *)

Lemma bind_Ok_inv {A B : Type} (r : result A) (k : A -> result B) (b : B) :
  (x <- r ;; k x) = Ok b -> exists a, r = Ok a /\ k a = Ok b.
Proof.
  destruct r as [a | e]; simpl; intros H.
  - exists a; split; [reflexivity | exact H].
  - discriminate H.
Qed.

Lemma bind_Ok_iff {A B : Type} (r : result A) (k : A -> result B) (b : B) :
  (x <- r ;; k x) = Ok b <-> exists a, r = Ok a /\ k a = Ok b.
Proof.
  split.
  - apply bind_Ok_inv.
  - intros [a [-> H]]; exact H.
Qed.

Lemma bind_assoc {A B C : Type} (r : result A) (f : A -> result B)
    (g : B -> result C) :
  (y <- (x <- r ;; f x) ;; g y) = (x <- r ;; y <- f x ;; g y).
Proof. destruct r; reflexivity. Qed.

Lemma mapM_Ok_iff {A B : Type} (f : A -> result B) (l : list A) (l' : list B) :
  mapM f l = Ok l' <-> Forall2 (fun a b => f a = Ok b) l l'.
Proof.
  revert l'; induction l as [| a l IH]; intros l'; simpl.
  - split; intros H.
    + injection H as <-; constructor.
    + inversion H; reflexivity.
  - split; intros H.
    + apply bind_Ok_inv in H as [b [Hb H]].
      apply bind_Ok_inv in H as [bs [Hbs H]].
      injection H as <-.
      constructor; [exact Hb | apply IH; exact Hbs].
    + inversion H as [| a0 b l0 bs Hb Hbs]; subst.
      rewrite Hb; simpl.
      apply IH in Hbs; rewrite Hbs; reflexivity.
Qed.

Lemma mapM_length {A B : Type} (f : A -> result B) (l : list A) (l' : list B) :
  mapM f l = Ok l' -> length l' = length l.
Proof.
  intros H; apply mapM_Ok_iff in H.
  induction H; simpl; congruence.
Qed.

Lemma mapM_total {A B : Type} (f : A -> result B) (g : A -> B) (l : list A) :
  Forall (fun a => f a = Ok (g a)) l -> mapM f l = Ok (map g l).
Proof.
  induction 1 as [| a l Ha _ IH]; simpl.
  - reflexivity.
  - rewrite Ha; simpl; rewrite IH; reflexivity.
Qed.

Lemma mapM_map {A B C : Type} (f : B -> result C) (h : A -> B) (l : list A) :
  mapM f (map h l) = mapM (fun a => f (h a)) l.
Proof.
  induction l as [| a l IH]; simpl; [reflexivity | rewrite IH; reflexivity].
Qed.

Section Columns.

Context {P : Pandas}.

(** ** Column-wise passes *)

Lemma for_each_column_Ok (f : string -> Series -> result Series)
    (df df' : DataFrame) :
  for_each_column f df = Ok df' <-> Forall2 (pass_rel f) df df'.
Proof.
  unfold for_each_column.
  etransitivity; [apply mapM_Ok_iff |].
  split; intros H; induction H as [| [c s] [c' s'] l l' Hx _ IH];
    constructor; try exact IH.
  - apply bind_Ok_inv in Hx as [s1 [Hs1 Hx]].
    injection Hx as <- <-; split; [reflexivity | exact Hs1].
  - destruct Hx as [Hc Hs]; simpl in Hc, Hs; subst c'.
    rewrite Hs; reflexivity.
Qed.

Lemma for_each_column_ext (f g : string -> Series -> result Series)
    (df : DataFrame) :
  (forall c s, f c s = g c s) ->
  for_each_column f df = for_each_column g df.
Proof.
  intros E; unfold for_each_column.
  induction df as [| [c s] df IH]; simpl.
  - reflexivity.
  - rewrite E, IH; reflexivity.
Qed.

(** Two passes in a row succeed exactly when the pass that chains the two
    rules column by column does, with the same table. *)
Lemma for_each_column_bind (f g : string -> Series -> result Series)
    (df df'' : DataFrame) :
  (d <- for_each_column f df ;; for_each_column g d) = Ok df'' <->
  for_each_column (fun c s => s1 <- f c s ;; g c s1) df = Ok df''.
Proof.
  rewrite bind_Ok_iff.
  setoid_rewrite for_each_column_Ok.
  revert df''; induction df as [| [c s] df IH]; intros df''.
  - split.
    + intros [d [H1 H2]]; inversion H1; subst; inversion H2; constructor.
    + intros H; inversion H; exists []; split; constructor.
  - split.
    + intros [d [H1 H2]].
      inversion H1 as [| x1 [c1 s1] l1 d1 [Hc1 Hs1] Hd1]; subst.
      inversion H2 as [| x2 [c2 s2] l2 d2 [Hc2 Hs2] Hd2]; subst.
      simpl in *; subst.
      constructor.
      * split; simpl; [reflexivity |].
        rewrite Hs1; exact Hs2.
      * apply IH; exists d1; split; assumption.
    + intros H.
      inversion H as [| x1 [c2 s2] l1 d2 [Hc Hs] Hd]; subst.
      simpl in Hc, Hs; subst c2.
      apply bind_Ok_inv in Hs as [s1 [Hs1 Hs2]].
      apply IH in Hd as [d1 [Hd1 Hd2]].
      exists ((c, s1) :: d1); split; constructor; try assumption;
        split; simpl; auto.
Qed.

Lemma chain_pass (f G : string -> Series -> result Series)
    (k : DataFrame -> result DataFrame) :
  (forall d d', k d = Ok d' <-> for_each_column G d = Ok d') ->
  forall df df',
    (d <- for_each_column f df ;; k d) = Ok df' <->
    for_each_column (fun c s => s1 <- f c s ;; G c s1) df = Ok df'.
Proof.
  intros Hk df df'.
  rewrite <- for_each_column_bind, !bind_Ok_iff.
  split; intros [d [H1 H2]]; exists d; split; try exact H1; apply Hk; exact H2.
Qed.

Lemma update_all_Raise h cols e : update_all h cols (Raise e) = Raise e.
Proof. induction cols as [| col cols IH]; simpl; [reflexivity | exact IH]. Qed.

Lemma for_each_column_id (df : DataFrame) :
  for_each_column (fun _ s => Ok s) df = Ok df.
Proof.
  apply for_each_column_Ok.
  induction df as [| [c s] df IH]; constructor; [split; reflexivity | exact IH].
Qed.

Lemma update_all_columns h cols :
  forall df df',
    update_all h cols (Ok df) = Ok df' <->
    for_each_column (apply_if_named h cols) df = Ok df'.
Proof.
  induction cols as [| col cols IH]; intros df df'.
  - simpl. rewrite for_each_column_id. reflexivity.
  - simpl. unfold update at 1. 
    destruct (for_each_column (fun c s => if String.eqb c col then h s else Ok s) df)
      as [d |e] eqn:E.
    + rewrite IH.
      rewrite <- for_each_column_bind.
      unfold update in E |- *. 
      rewrite E; simpl. reflexivity.
    + fold (update_all h cols (Raise e)). rewrite update_all_Raise.
      rewrite <- for_each_column_bind.
      rewrite E; simpl. reflexivity.
Qed.

End Columns.

Section Factorisation.

Context {P : Pandas}.

(** ** Lines 55-148, column by column *)

Ltac eval_labels :=
  cbv beta iota fix delta [String.eqb Ascii.eqb Bool.eqb orb bind].

Ltac split_label c x h :=
  destruct (String.eqb_spec c x) as [-> | ?];
  [ eval_labels; destruct h; reflexivity | ].

Ltac other_label c :=
  repeat match goal with
         | H : c <> ?x |- _ =>
             rewrite (proj2 (String.eqb_neq c x) H); clear H
         end.

(** The chain of updates, followed along one column, is that column's
    rule. *)
Lemma column_rule_chain (c : string) (s : Series) :
  (s1 <- apply_if_named to_binary binary_cols c s ;;
   s2 <- (if String.eqb c "GenHlth" then handle_GenHlth s1 else Ok s1) ;;
   s3 <- (if String.eqb c "Education" then handle_Education s2 else Ok s2) ;;
   s4 <- (if String.eqb c "Age" then handle_Age s3 else Ok s3) ;;
   s5 <- (if String.eqb c "Income" then handle_Income s4 else Ok s4) ;;
   s6 <- (if String.eqb c "MentHlth" then handle_days s5 else Ok s5) ;;
   s7 <- (if String.eqb c "PhysHlth" then handle_days s6 else Ok s6) ;;
   enforce_numeric c s7)
  = column_rule c s.
Proof.
  unfold column_rule, column_handler, mem, binary_cols.
  cbn [apply_if_named existsb].
  split_label c "Diabetes_binary" (to_binary s).
  split_label c "HighBP" (to_binary s).
  split_label c "HighChol" (to_binary s).
  split_label c "CholCheck" (to_binary s).
  split_label c "Smoker" (to_binary s).
  split_label c "Stroke" (to_binary s).
  split_label c "HeartDiseaseorAttack" (to_binary s).
  split_label c "PhysActivity" (to_binary s).
  split_label c "Fruits" (to_binary s).
  split_label c "Veggies" (to_binary s).
  split_label c "HvyAlcoholConsump" (to_binary s).
  split_label c "AnyHealthcare" (to_binary s).
  split_label c "NoDocbcCost" (to_binary s).
  split_label c "DiffWalk" (to_binary s).
  split_label c "Sex" (to_binary s).
  split_label c "GenHlth" (handle_GenHlth s).
  split_label c "Education" (handle_Education s).
  split_label c "Age" (handle_Age s).
  split_label c "Income" (handle_Income s).
  split_label c "MentHlth" (handle_days s).
  split_label c "PhysHlth" (handle_days s).
  other_label c.
  reflexivity.
Qed.

Theorem encode_and_enforce_columns (df df' : DataFrame) :
  encode_and_enforce df = Ok df' <-> for_each_column column_rule df = Ok df'.
Proof.
  rewrite <- (for_each_column_ext _ _ df column_rule_chain).
  unfold encode_and_enforce.
  rewrite bind_Ok_iff.
  setoid_rewrite update_all_columns.
  rewrite <- bind_Ok_iff.
  apply chain_pass. intros d1 d1'.
  unfold update at 1. apply chain_pass. intros d2 d2'.
  unfold update at 1. apply chain_pass. intros d3 d3'.
  unfold update at 1. apply chain_pass. intros d4 d4'.
  unfold update at 1. apply chain_pass. intros d5 d5'.
  unfold update at 1. apply chain_pass. intros d6 d6'.
  unfold update at 1. apply chain_pass. intros d7 d7'.
  reflexivity.
Qed.

End Factorisation.

(** ** Facts about the pandas operations *)

Lemma cell_eqb_refl (a : cell) : cell_eqb a a = true.
Proof.
  destruct a; simpl; auto using Qeq_bool_refl, String.eqb_refl.
Qed.

Lemma cell_eqb_sym (a b : cell) : cell_eqb a b = cell_eqb b a.
Proof.
  destruct a, b; simpl; auto using Qeq_bool_comm, String.eqb_sym.
Qed.

Lemma cell_eqb_trans (a b c : cell) :
  cell_eqb a b = true -> cell_eqb b c = true -> cell_eqb a c = true.
Proof.
  destruct a, b, c; simpl; try discriminate; auto.
  - apply Qeq_bool_trans.
  - rewrite !String.eqb_eq; congruence.
Qed.

Lemma cell_eqb_congr (a b c : cell) :
  cell_eqb a b = true -> cell_eqb a c = cell_eqb b c.
Proof.
  intros H.
  destruct (cell_eqb b c) eqn:E.
  - eapply cell_eqb_trans; eassumption.
  - destruct (cell_eqb a c) eqn:E'; [| reflexivity].
    rewrite cell_eqb_sym in H.
    rewrite <- E; symmetry; eapply cell_eqb_trans; eassumption.
Qed.

Lemma fillna_length v s : length (pd.fillna v s) = length s.
Proof. apply length_map. Qed.

Lemma fillna_no_null v s :
  pd.isnull_any s = false -> pd.fillna v s = s.
Proof.
  unfold pd.isnull_any, pd.fillna; induction s as [| c s IH]; simpl.
  - reflexivity.
  - intros H; apply orb_false_elim in H as [Hc Hs].
    rewrite Hc, IH by exact Hs; reflexivity.
Qed.

(** *** mode *)

Lemma count_congr (a b : cell) (s : Series) :
  cell_eqb a b = true -> pd.count a s = pd.count b s.
Proof.
  intros H; unfold pd.count.
  induction s as [| c s IH]; simpl; [reflexivity |].
  rewrite (cell_eqb_congr a b c H).
  destruct (cell_eqb b c); simpl; congruence.
Qed.

Lemma unique_from_In seen s x :
  In x (pd.unique_from seen s) -> In x s.
Proof.
  revert seen; induction s as [| c s IH]; intros seen; simpl; [tauto |].
  destruct (existsb (cell_eqb c) seen); simpl.
  - intros H; right; eapply IH; exact H.
  - intros [-> | H]; [left; reflexivity | right; eapply IH; exact H].
Qed.

Lemma unique_from_covers seen s v :
  In v s ->
  existsb (cell_eqb v) seen = true \/
  exists u, In u (pd.unique_from seen s) /\ cell_eqb u v = true.
Proof.
  revert seen; induction s as [| c s IH]; intros seen; simpl; [tauto |].
  intros [-> | H].
  - destruct (existsb (cell_eqb v) seen) eqn:E; [left; reflexivity |].
    right; exists v; split; [left; reflexivity | apply cell_eqb_refl].
  - destruct (existsb (cell_eqb c) seen) eqn:E.
    + apply IH; exact H.
    + destruct (IH (c :: seen) H) as [Hs | [u [Hu Huv]]].
      * simpl in Hs; apply orb_true_iff in Hs as [Hs | Hs].
        -- right; exists c; split; [left; reflexivity |].
           rewrite cell_eqb_sym; exact Hs.
        -- left; exact Hs.
      * right; exists u; split; [right; exact Hu | exact Huv].
Qed.

Lemma unique_covers s v :
  In v s -> exists u, In u (pd.unique s) /\ cell_eqb u v = true.
Proof.
  intros H; destruct (unique_from_covers [] s v H) as [E | E];
    [discriminate E | exact E].
Qed.

Lemma max_attained {A : Type} (f : A -> nat) (l : list A) :
  l <> [] -> exists x, In x l /\ f x = fold_right Nat.max 0%nat (map f l).
Proof.
  induction l as [| a l IH]; [congruence | intros _].
  destruct l as [| b l].
  - exists a; split; [left; reflexivity | simpl; lia].
  - destruct IH as [x [Hx Hfx]]; [discriminate |].
    change (fold_right Nat.max 0%nat (map f (a :: b :: l)))
      with (Nat.max (f a) (fold_right Nat.max 0%nat (map f (b :: l)))).
    destruct (Nat.max_spec (f a) (fold_right Nat.max 0%nat (map f (b :: l))))
      as [[_ E] | [_ E]]; rewrite E.
    + exists x; split; [right; exact Hx | exact Hfx].
    + exists a; split; [left; reflexivity | reflexivity].
Qed.

Lemma modes_In s x : In x (pd.modes s) -> In x s /\ notnull x = true.
Proof.
  unfold pd.modes; intros H.
  apply filter_In in H as [H _].
  apply unique_from_In in H.
  apply filter_In in H; exact H.
Qed.

Lemma modes_nonempty s : existsb notnull s = true -> pd.modes s <> [].
Proof.
  intros H.
  apply existsb_exists in H as [v [Hv Hn]].
  assert (Hin : In v (filter notnull s)) by (apply filter_In; auto).
  assert (Hne : filter notnull s <> []) by (intros E; rewrite E in Hin; exact Hin).
  destruct (max_attained (fun c => pd.count c (filter notnull s)) _ Hne)
    as [w [Hw Hmax]].
  destruct (unique_covers _ w Hw) as [u [Hu Huw]].
  assert (Hm : In u (pd.modes s)).
  { unfold pd.modes; apply filter_In; split; [exact Hu |].
    apply Nat.eqb_eq; unfold pd.max_count; rewrite <- Hmax.
    apply count_congr; exact Huw. }
  intros E; rewrite E in Hm; exact Hm.
Qed.

Lemma insert_cell_In c l x : In x (pd.insert_cell c l) <-> x = c \/ In x l.
Proof.
  induction l as [| a l IH]; simpl.
  - intuition congruence.
  - destruct (pd.cell_leb c a); simpl; [intuition congruence |].
    rewrite IH; intuition congruence.
Qed.

Lemma sort_cells_In l x : In x (fold_right pd.insert_cell [] l) <-> In x l.
Proof.
  induction l as [| a l IH]; simpl; [tauto |].
  rewrite insert_cell_In, IH; intuition congruence.
Qed.

Lemma mode_In s x : In x (pd.mode s) -> In x s /\ notnull x = true.
Proof.
  unfold pd.mode; intros H; apply modes_In.
  destruct (_ || _); [apply sort_cells_In |]; exact H.
Qed.

Lemma mode_nonempty s : existsb notnull s = true -> pd.mode s <> [].
Proof.
  intros H; apply modes_nonempty in H.
  unfold pd.mode.
  destruct (pd.modes s) as [| m ms] eqn:E; [congruence |].
  destruct (_ || _); [| discriminate].
  intros E'.
  assert (Hin : In m (fold_right pd.insert_cell [] (m :: ms)))
    by (apply sort_cells_In; left; reflexivity).
  rewrite E' in Hin; exact Hin.
Qed.

Lemma first_mode_Ok s :
  existsb notnull s = true -> exists m, pd.first (pd.mode s) = Ok m.
Proof.
  intros H; apply mode_nonempty in H.
  destruct (pd.mode s) as [| m ms]; [congruence | exists m; reflexivity].
Qed.

Lemma first_mode_inv s m :
  pd.first (pd.mode s) = Ok m -> In m s /\ notnull m = true.
Proof.
  intros H; apply mode_In.
  destruct (pd.mode s) as [| m' ms]; [discriminate |].
  injection H as ->; left; reflexivity.
Qed.

(** *** casts and coercion *)

Lemma Qtrunc_inject_Z (z : Z) : pd.Qtrunc (inject_Z z) = z.
Proof. unfold pd.Qtrunc; simpl; apply Z.quot_1_r. Qed.

Lemma Qtrunc_positive (q : Q) : (0 < pd.Qtrunc q)%Z <-> 1 <= q.
Proof.
  destruct q as [n d]; unfold pd.Qtrunc, Qle; simpl.
  rewrite Z.mul_1_r.
  split; intros H.
  - destruct (Z.lt_ge_cases n (Z.pos d)) as [Hlt | Hge]; [| exact Hge].
    destruct (Z.lt_ge_cases n 0) as [Hneg | Hpos].
    + assert (n ÷ Z.pos d <= 0)%Z; [| lia].
      apply Z.quot_le_upper_bound; lia.
    + rewrite Z.quot_small in H by lia; lia.
  - apply Z.lt_le_trans with (m := 1%Z); [lia |].
    apply Z.quot_le_lower_bound; lia.
Qed.

Lemma Qltb_lt (a b : Q) : Qltb a b = true <-> a < b.
Proof.
  unfold Qltb; rewrite negb_true_iff.
  split; intros H.
  - apply Qnot_le_lt; intros Hle.
    apply Qle_bool_iff in Hle; congruence.
  - destruct (Qle_bool b a) eqn:E; [| reflexivity].
    apply Qle_bool_iff in E; apply Qle_not_lt in E; contradiction.
Qed.

Lemma Qltb_inject_Z (a b : Z) : Qltb (inject_Z a) (inject_Z b) = (a <? b)%Z.
Proof.
  apply eq_true_iff_eq; rewrite Qltb_lt, Z.ltb_lt, <- Zlt_Qlt; reflexivity.
Qed.

Lemma forallb_Forall {A : Type} (p : A -> bool) (l : list A) :
  forallb p l = true <-> Forall (fun a => p a = true) l.
Proof.
  rewrite forallb_forall, Forall_forall; reflexivity.
Qed.

Lemma existsb_false_Forall {A : Type} (p : A -> bool) (l : list A) :
  existsb p l = false <-> Forall (fun a => p a = false) l.
Proof.
  induction l as [| a l IH]; simpl.
  - split; [constructor | reflexivity].
  - rewrite orb_false_iff, IH; split.
    + intros [H1 H2]; constructor; assumption.
    + intros H; inversion H; auto.
Qed.

Lemma astype_int_nums (s : Series) :
  forallb pd.is_num s = true ->
  pd.astype_int s =
  Ok (map (fun c => match c with Num q => int (pd.Qtrunc q) | _ => c end) s).
Proof.
  intros H; apply forallb_Forall in H.
  unfold pd.astype_int; apply mapM_total.
  eapply Forall_impl; [| exact H].
  intros [| q | t]; simpl; try discriminate; reflexivity.
Qed.

Lemma astype_int_inv (s s' : Series) :
  pd.astype_int s = Ok s' ->
  forallb pd.is_num s = true /\
  s' = map (fun c => match c with Num q => int (pd.Qtrunc q) | _ => c end) s.
Proof.
  intros H.
  assert (Hn : forallb pd.is_num s = true).
  { apply mapM_Ok_iff in H; apply forallb_Forall.
    induction H as [| c c' l l' Hc _ IH]; constructor; [| exact IH].
    destruct c; simpl in *; try discriminate; reflexivity. }
  split; [exact Hn |].
  rewrite (astype_int_nums s Hn) in H; congruence.
Qed.

Section Coercion.

Context {P : Pandas}.

Lemma coerce_not_text (c : cell) : is_text (coerce c) = false.
Proof.
  destruct c as [| q | t]; simpl; try reflexivity.
  destruct (to_float t); reflexivity.
Qed.

Lemma coerce_id (c : cell) : is_text c = false -> coerce c = c.
Proof. destruct c; simpl; [reflexivity | reflexivity | discriminate]. Qed.

Lemma to_numeric_coerce_no_text (s : Series) :
  existsb is_text (to_numeric_coerce s) = false.
Proof.
  apply existsb_false_Forall; unfold to_numeric_coerce.
  apply Forall_map, Forall_forall; intros c _; apply coerce_not_text.
Qed.

Lemma to_numeric_coerce_id (s : Series) :
  existsb is_text s = false -> to_numeric_coerce s = s.
Proof.
  intros H; apply existsb_false_Forall in H.
  unfold to_numeric_coerce.
  induction H as [| c s Hc _ IH]; simpl; [reflexivity |].
  rewrite coerce_id, IH by exact Hc; reflexivity.
Qed.

Lemma to_numeric_id (s : Series) :
  existsb is_text s = false -> to_numeric s = Ok s.
Proof.
  intros H; apply existsb_false_Forall in H.
  unfold to_numeric.
  rewrite <- (map_id s) at 2.
  apply mapM_total.
  eapply Forall_impl; [| exact H].
  intros [| q | t]; simpl; try discriminate; reflexivity.
Qed.

Lemma median_no_text (s : Series) :
  existsb is_text s = false -> median s = Ok (pd.nanmedian (pd.numbers s)).
Proof. unfold median; intros ->; reflexivity. Qed.

Lemma nums_no_text (s : Series) :
  forallb pd.is_num s = true -> existsb is_text s = false.
Proof.
  rewrite forallb_Forall, existsb_false_Forall.
  apply Forall_impl; intros [| q | t]; simpl; try discriminate; reflexivity.
Qed.

Lemma nums_no_null (s : Series) :
  forallb pd.is_num s = true -> pd.isnull_any s = false.
Proof.
  unfold pd.isnull_any; rewrite forallb_Forall, existsb_false_Forall.
  apply Forall_impl; intros [| q | t]; simpl; try discriminate; reflexivity.
Qed.

(** The final pass leaves a column of numbers as it is. *)
Lemma enforce_numeric_nums (c : string) (s : Series) :
  forallb pd.is_num s = true -> enforce_numeric c s = Ok s.
Proof.
  intros H; unfold enforce_numeric.
  rewrite (to_numeric_coerce_id s (nums_no_text s H)).
  rewrite (nums_no_null s H); reflexivity.
Qed.

(** *** Binary columns *)

Lemma binary_value_bit (c : cell) :
  binary_value c = int 0 \/ binary_value c = int 1.
Proof.
  unfold binary_value; destruct (coerce c); auto.
  destruct (Qle_bool 1 q); auto.
Qed.

Lemma to_binary_values (s : Series) : to_binary s = Ok (map binary_value s).
Proof.
  unfold to_binary.
  assert (Hn : forallb pd.is_num (pd.fillna (int 0) (to_numeric_coerce s)) = true).
  { apply forallb_Forall; unfold pd.fillna, to_numeric_coerce.
    rewrite map_map; apply Forall_map, Forall_forall; intros c _.
    pose proof (coerce_not_text c) as Ht.
    destruct (coerce c); simpl in *; congruence. }
  rewrite (astype_int_nums _ Hn); simpl.
  unfold pd.fillna, to_numeric_coerce; rewrite !map_map, mapM_map.
  apply mapM_total, Forall_forall; intros c _.
  unfold binary_value.
  pose proof (coerce_not_text c) as Ht.
  destruct (coerce c) as [| q | t]; simpl in *; try discriminate.
  - reflexivity.
  - f_equal.
    change 0%Q with (inject_Z 0); rewrite Qltb_inject_Z.
    destruct (Qle_bool 1 q) eqn:E.
    + apply Qle_bool_iff, Qtrunc_positive, Z.ltb_lt in E; rewrite E; reflexivity.
    + destruct (0 <? pd.Qtrunc q)%Z eqn:E'; [| reflexivity].
      apply Z.ltb_lt, Qtrunc_positive, Qle_bool_iff in E'; congruence.
Qed.

Lemma binary_values_nums (s : Series) :
  forallb pd.is_num (map binary_value s) = true.
Proof.
  apply forallb_Forall, Forall_map, Forall_forall; intros c _.
  destruct (binary_value_bit c) as [-> | ->]; reflexivity.
Qed.

Lemma column_rule_binary (c : string) (s : Series) :
  mem c binary_cols = true -> column_rule c s = Ok (map binary_value s).
Proof.
  intros H; unfold column_rule, column_handler; rewrite H.
  rewrite to_binary_values; simpl.
  apply enforce_numeric_nums, binary_values_nums.
Qed.

End Coercion.

(** ** The bins *)

Lemma Qle_bool_true (a b : Q) : a <= b -> Qle_bool a b = true.
Proof. apply Qle_bool_iff. Qed.

Lemma Qle_bool_false (a b : Q) : b < a -> Qle_bool a b = false.
Proof.
  intros H; destruct (Qle_bool a b) eqn:E; [| reflexivity].
  apply Qle_bool_iff, Qle_not_lt in E; contradiction.
Qed.

Ltac decide_edges q :=
  repeat match goal with
         | |- context [Qle_bool ?e q] =>
             first [ rewrite (Qle_bool_true e q) by lra
                   | rewrite (Qle_bool_false e q) by lra ]
         end.

Ltac bucket q :=
  unfold pd.cut_value, pd.searchsorted_right, pd.edge_eqb, pd.edge_leb;
  cbn [age_bins income_bins map app filter hd_error];
  decide_edges q; cbn [filter length];
  let E := fresh "E" in
  destruct (Qeq_bool _ q) eqn:E;
  [ apply Qeq_bool_iff in E; first [reflexivity | lra] | reflexivity ].

Lemma age_bucket (q : Q) (l : Z) (lo : Q) (hi : option Q) :
  In (l, lo, hi) age_intervals -> in_interval lo hi q ->
  pd.cut_value age_bins age_labels q = int l.
Proof.
  unfold age_intervals, in_interval, bounded, unbounded; cbn [In]; intros H [Hlo Hhi].
  repeat (destruct H as [H | H];
          [injection H as <- <- <-; bucket q |]).
  contradiction.
Qed.

Lemma income_bucket (q : Q) (l : Z) (lo : Q) (hi : option Q) :
  In (l, lo, hi) income_intervals -> in_interval lo hi q ->
  pd.cut_value income_bins income_labels q = int l.
Proof.
  unfold income_intervals, in_interval, bounded, unbounded; cbn [In]; intros H [Hlo Hhi].
  repeat (destruct H as [H | H];
          [injection H as <- <- <-; bucket q |]).
  contradiction.
Qed.

Lemma age_below_first_edge (q : Q) :
  q < 18 -> pd.cut_value age_bins age_labels q = NaN.
Proof.
  intros H.
  unfold pd.cut_value, pd.searchsorted_right, pd.edge_eqb, pd.edge_leb;
  cbn [age_bins map app filter].
  decide_edges q; cbn [filter length].
  destruct (Qeq_bool 18 q) eqn:E; [| reflexivity].
  apply Qeq_bool_iff in E; lra.
Qed.

(** ** The engine as a whole *)

Section Whole.

Context {P : Pandas}.

(** A successful run, split at the deduplication: the table that reaches
    step 4, and each output column as the rule of its label applied to the
    column of that table. *)
Lemma preprocess_inv (df df' : DataFrame) :
  preprocess_survey_data df = Ok df' ->
  exists df1, impute_and_deduplicate df = Ok df1 /\
              Forall2 (pass_rel column_rule) df1 df'.
Proof.
  unfold preprocess_survey_data; intros H.
  apply bind_Ok_inv in H as [df1 [H1 H2]].
  exists df1; split; [exact H1 |].
  apply for_each_column_Ok, encode_and_enforce_columns; exact H2.
Qed.

Lemma preprocess_columnwise (df df' : DataFrame) (R : string -> Series -> Series -> Prop) :
  (forall c s s', column_rule c s = Ok s' -> R c s s') ->
  preprocess_survey_data df = Ok df' ->
  exists df1, impute_and_deduplicate df = Ok df1 /\
              Forall2 (fun x y => fst y = fst x /\ R (fst x) (snd x) (snd y)) df1 df'.
Proof.
  intros HR H; apply preprocess_inv in H as [df1 [H1 H2]].
  exists df1; split; [exact H1 |].
  eapply Forall2_impl; [| exact H2].
  intros x y [Hc Hs]; split; [exact Hc | apply HR; exact Hs].
Qed.

(** C4 (binary closure), as the code has it.  Whenever the engine
    returns, every binary column of the output holds only 0 and 1.  Where
    the integer part of every number of the column that reached step 4 is
    an [int64], each value is coerced to a number, a value that fails
    coercion counts as 0, the number is truncated to an integer, and the
    result is 1 when that integer is positive, that is when the number is
    at least 1, and 0 otherwise (negatives and positive fractions below 1
    included). *)
Theorem binary_columns_hold_bits (df df' : DataFrame) :
  preprocess_survey_data df = Ok df' ->
  exists df1,
    impute_and_deduplicate df = Ok df1 /\
    Forall2 (fun x y =>
               fst y = fst x /\
               (mem (fst x) binary_cols = true ->
                Forall (fun v => v = int 0 \/ v = int 1) (snd y) /\
                (Forall fits_int64 (snd x) ->
                 snd y = map binary_value (snd x))))
            df1 df'.
Proof.
  apply (preprocess_columnwise df df'
           (fun c s s' =>
              mem c binary_cols = true ->
              Forall (fun v => v = int 0 \/ v = int 1) s' /\
              (Forall fits_int64 s -> s' = map binary_value s))).
  intros c s s' H Hb.
  rewrite (column_rule_binary c s Hb) in H; injection H as <-.
  split; [| reflexivity].
  apply Forall_map, Forall_forall; intros v _; apply binary_value_bit.
Qed.

End Whole.

(** C4, witness: a binary column with a fraction, a larger value, a
    negative value, text and a missing entry. *)
Lemma binary_columns_hold_bits_witness :
  exists df1,
    @impute_and_deduplicate pandas2
      [("HighBP", [Num (1 # 2); int 2; int (-3); Str "x"; NaN; Str "1"])] = Ok df1 /\
    Forall2 (fun x y =>
               fst y = fst x /\
               (mem (fst x) binary_cols = true ->
                Forall (fun v => v = int 0 \/ v = int 1) (snd y) /\
                (Forall (@fits_int64 pandas2) (snd x) ->
                 snd y = map (@binary_value pandas2) (snd x))))
            df1 [("HighBP", [int 0; int 1; int 0; int 0; int 1])].
Proof.
  apply (@binary_columns_hold_bits pandas2
           [("HighBP", [Num (1 # 2); int 2; int (-3); Str "x"; NaN; Str "1"])]).
  vm_compute; reflexivity.
Defined.

(** C4, counterexample to the claim as stated: one half is strictly
    positive, so the stated rule gives 1, and the engine returns 0. *)
Lemma positive_fraction_becomes_zero :
  run [("HighBP", [Num (1 # 2)])] = Ok [("HighBP", [int 0])] /\
  @stated_binary_value pandas2 (Num (1 # 2)) = int 1.
Proof. split; vm_compute; reflexivity. Qed.

(** C7 (binning examples).  The buckets of Age and Income are the
    left-inclusive, right-exclusive intervals of the specification, the
    last one unbounded: a value in the interval of label [l] is bucketed to
    [l].  In particular a raw Age of 42 goes to bin 5 and 81 to bin 13, a
    raw Income of 12000 to bin 2 and 80000 to bin 8, through the bucketing
    alone and through the whole engine. *)
Theorem binning_follows_the_intervals :
  (forall q l lo hi,
      In (l, lo, hi) age_intervals -> in_interval lo hi q ->
      pd.cut_value age_bins age_labels q = int l) /\
  (forall q l lo hi,
      In (l, lo, hi) income_intervals -> in_interval lo hi q ->
      pd.cut_value income_bins income_labels q = int l) /\
  pd.cut_value age_bins age_labels 42 = int 5 /\
  pd.cut_value age_bins age_labels 81 = int 13 /\
  pd.cut_value income_bins income_labels 12000 = int 2 /\
  pd.cut_value income_bins income_labels 80000 = int 8 /\
  (forall P : Pandas,
      preprocess_survey_data
        [("Age", [int 42; int 81]); ("Income", [int 12000; int 80000])]
      = Ok [("Age", [int 5; int 13]); ("Income", [int 2; int 8])]).
Proof.
  split; [exact age_bucket |].
  split; [exact income_bucket |].
  repeat split; intros; vm_compute; reflexivity.
Qed.

(** C7, witness: 44.5 lies in [40, 45), the interval of label 5. *)
Lemma binning_follows_the_intervals_witness :
  pd.cut_value age_bins age_labels (89 # 2) = int 5.
Proof.
  apply (proj1 binning_follows_the_intervals (89 # 2) 5%Z 40 (Some 45)).
  - unfold age_intervals, bounded; simpl; tauto.
  - unfold in_interval, Qle, Qlt; simpl; lia.
Defined.

(** C6 (fallback of the binning step), evaluated.  For a column that is
    entirely missing after coercion the imputed value is
    [labels[len(labels)//2 - 1]]: label 6 for the thirteen Age labels, not
    the middle label 7, and label 4 for the eight Income labels.  The
    imputed 6 is then bucketed as an age of six years, below the first
    edge, so the whole column is missing again and the final pass raises. *)
Theorem age_fallback_is_label_6 :
  middle_label age_labels = int 6 /\
  middle_label income_labels = int 4 /\
  (forall P : Pandas,
      to_float "abc" = None -> to_float "old" = None ->
      impute_for_binning age_labels [Str "abc"; Str "old"] = Ok [int 6; int 6]) /\
  @impute_for_binning pandas2 age_labels [Str "abc"; Str "old"] = Ok [int 6; int 6] /\
  run [("Age", [Str "abc"; Str "old"])] = Raise KeyError.
Proof.
  repeat split; try (vm_compute; reflexivity).
  intros P H1 H2.
  unfold impute_for_binning, to_numeric_coerce; simpl; rewrite H1, H2.
  reflexivity.
Qed.

(** C2 (no missing values), evaluated.  A BMI column that is entirely
    missing comes out entirely missing: its median is itself missing, so
    neither the first imputation nor the final pass fills anything. *)
Theorem all_missing_bmi_stays_missing :
  forall P : Pandas,
    preprocess_survey_data
      [("BMI", [NaN; NaN]); ("HighBP", [int 1; int 0])]
    = Ok [("BMI", [NaN; NaN]); ("HighBP", [int 1; int 0])].
Proof. intros P; vm_compute; reflexivity. Qed.

(** C1 (totality), evaluated.  On a table whose HighBP column is entirely
    missing the engine returns no table: the column has no mode, and
    [mode()[0]] at line 28 raises KeyError, with any pandas. *)
Theorem entirely_missing_binary_column_raises :
  forall P : Pandas,
    preprocess_survey_data
      [("BMI", [int 20; int 30]); ("HighBP", [NaN; NaN])]
    = Raise KeyError.
Proof. intros P; vm_compute; reflexivity. Qed.

(** C3, counterexample: columns that are numeric and within range are
    passed through, fractions included. *)
Lemma in_range_fractions_are_kept :
  run [("GenHlth", [Num (5 # 2)]); ("Age", [Num (37 # 10)])]
  = Ok [("GenHlth", [Num (5 # 2)]); ("Age", [Num (37 # 10)])] /\
  is_integral (Num (5 # 2)) = false /\
  is_integral (Num (37 # 10)) = false.
Proof. repeat split; vm_compute; reflexivity. Qed.

(** C5, counterexample: the label map is keyed by the lower-case labels
    only; "Poor" is not a key, is filled with the mode of the mapped column
    (3, from "good") and does not come out as 5. *)
Lemma capitalised_label_is_not_mapped :
  run [("GenHlth", [Str "Poor"; Str "good"])] = Ok [("GenHlth", [int 3; int 3])] /\
  pd.lookup genhlth_mapping (Str "Poor") = None /\
  pd.lookup genhlth_mapping (Str "poor") = Some 5%Z.
Proof. repeat split; vm_compute; reflexivity. Qed.

(** ** The ordinal columns *)

Lemma lookup_In (d : pd.dict) (v : cell) (k : Z) :
  pd.lookup d v = Some k -> In k (map snd d).
Proof.
  induction d as [| [k' v'] d IH]; simpl; [discriminate |].
  destruct (cell_eqb k' v).
  - intros H; injection H as ->; left; reflexivity.
  - intros H; right; apply IH; exact H.
Qed.

Lemma lookup_congr (d : pd.dict) (a b : cell) :
  cell_eqb a b = true -> pd.lookup d a = pd.lookup d b.
Proof.
  intros H; induction d as [| [k v] d IH]; simpl; [reflexivity |].
  rewrite (cell_eqb_sym k a), (cell_eqb_sym k b), (cell_eqb_congr a b k H).
  rewrite IH; reflexivity.
Qed.

Lemma in_range_int (lo hi z : Z) :
  (lo <= z <= hi)%Z -> in_range (inject_Z lo) (inject_Z hi) (int z).
Proof.
  intros [H1 H2]; exists (inject_Z z); split; [reflexivity |].
  rewrite <- !Zle_Qle; split; assumption.
Qed.

Lemma between_all_inv (lo hi : Q) (s : Series) :
  pd.all (pd.between lo hi s) = true -> Forall (in_range lo hi) s.
Proof.
  unfold pd.all, pd.between; rewrite forallb_Forall.
  intros H; apply Forall_map in H.
  eapply Forall_impl; [| exact H].
  intros [| q | t] Hc; simpl in Hc; try discriminate.
  apply andb_true_iff in Hc as [H1 H2].
  exists q; split; [reflexivity |].
  split; apply Qle_bool_iff; assumption.
Qed.

Lemma in_range_nums (lo hi : Q) (s : Series) :
  Forall (in_range lo hi) s -> forallb pd.is_num s = true.
Proof.
  intros H; apply forallb_Forall.
  eapply Forall_impl; [| exact H].
  intros c [q [-> _]]; reflexivity.
Qed.

Lemma integers_nums (s : Series) :
  Forall is_integer s -> forallb pd.is_num s = true.
Proof.
  intros H; apply forallb_Forall.
  eapply Forall_impl; [| exact H].
  intros c [z ->]; reflexivity.
Qed.

Lemma clip_in_range (lo hi : Q) (s : Series) :
  Forall (in_range lo hi) s -> pd.clip lo hi s = s.
Proof.
  unfold pd.clip; induction 1 as [| c s [q [-> [H1 H2]]] _ IH]; simpl.
  - reflexivity.
  - rewrite IH.
    destruct (Qltb q lo) eqn:E1; [apply Qltb_lt in E1; lra |].
    destruct (Qltb hi q) eqn:E2; [apply Qltb_lt in E2; lra |].
    reflexivity.
Qed.

Lemma clip_closes (lo hi : Q) (s : Series) :
  lo <= hi -> forallb pd.is_num s = true ->
  Forall (in_range lo hi) (pd.clip lo hi s).
Proof.
  intros Hlh H; apply forallb_Forall in H.
  unfold pd.clip; apply Forall_map.
  eapply Forall_impl; [| exact H].
  intros [| q | t] Hc; simpl in Hc; try discriminate.
  destruct (Qltb q lo) eqn:E1.
  { exists lo; split; [reflexivity | lra]. }
  destruct (Qltb hi q) eqn:E2.
  { exists hi; split; [reflexivity | lra]. }
  exists q; split; [reflexivity |].
  split.
  - destruct (Qlt_le_dec q lo) as [H1 | H1]; [| exact H1].
    apply Qltb_lt in H1; congruence.
  - destruct (Qlt_le_dec hi q) as [H1 | H1]; [| exact H1].
    apply Qltb_lt in H1; congruence.
Qed.

Section Ordinal.

Context {P : Pandas}.

Lemma in_expected_range_inv (lo hi : Q) (s : Series) :
  in_expected_range lo hi s = true -> Forall (in_range lo hi) s.
Proof.
  unfold in_expected_range; intros H.
  apply andb_true_iff in H as [_ H]; apply between_all_inv; exact H.
Qed.

Lemma map_dict_no_text (d : pd.dict) (s : Series) :
  existsb is_text (pd.map_dict d s) = false.
Proof.
  apply existsb_false_Forall, Forall_map, Forall_forall; intros c _.
  destruct (pd.lookup d c); reflexivity.
Qed.

(** The remap, value by value. *)
Lemma remap_values (d : pd.dict) (s s1 : Series) :
  remap d s = Ok s1 ->
  exists m k,
    pd.first (pd.mode (pd.map_dict d s)) = Ok m /\
    m = int k /\ In k (map snd d) /\
    s1 = map (fun v => match pd.lookup d v with
                       | Some j => int j
                       | None => m
                       end) s.
Proof.
  unfold remap; intros H.
  apply bind_Ok_inv in H as [m [Hm H]].
  rewrite (to_numeric_coerce_id _ (map_dict_no_text d s)) in H.
  destruct (first_mode_inv _ _ Hm) as [Hin Hnn].
  unfold pd.map_dict in Hin; apply in_map_iff in Hin as [v [Hv _]].
  destruct (pd.lookup d v) as [k |] eqn:Ek; [| subst m; discriminate Hnn].
  exists m, k; repeat split; auto.
  { eapply lookup_In; exact Ek. }
  apply astype_int_inv in H as [_ ->].
  unfold pd.fillna, pd.map_dict; rewrite !map_map.
  apply map_ext; intros c.
  destruct (pd.lookup d c) as [j |]; simpl.
  - unfold int; rewrite Qtrunc_inject_Z; reflexivity.
  - subst m; unfold int; rewrite Qtrunc_inject_Z; reflexivity.
Qed.

Lemma remapped_codes (d : pd.dict) (lo hi : Z) (s s1 : Series) :
  (forall k, In k (map snd d) -> (lo <= k <= hi)%Z) ->
  remap d s = Ok s1 ->
  remapped d s s1 /\
  Forall (in_range (inject_Z lo) (inject_Z hi)) s1 /\
  Forall is_integer s1.
Proof.
  intros Hd H; apply remap_values in H as [m [k [Hm [-> [Hk ->]]]]].
  split; [exists (int k); split; [exact Hm | reflexivity] |].
  split; apply Forall_map, Forall_forall; intros v _.
  - destruct (pd.lookup d v) as [j |] eqn:Ej; apply in_range_int.
    + apply Hd; eapply lookup_In; exact Ej.
    + apply Hd; exact Hk.
  - destruct (pd.lookup d v) as [j |]; eexists; reflexivity.
Qed.

Lemma genhlth_codes (k : Z) : In k (map snd genhlth_mapping) -> (1 <= k <= 5)%Z.
Proof. simpl; intros H; repeat (destruct H as [<- | H]; [lia |]); contradiction. Qed.

Lemma education_codes (k : Z) : In k (map snd education_mapping) -> (1 <= k <= 6)%Z.
Proof. simpl; intros H; repeat (destruct H as [<- | H]; [lia |]); contradiction. Qed.

(** A coded column: passed through when numeric and within range,
    remapped otherwise. *)
Lemma coded_rule (d : pd.dict) (lo hi : Z) (c : string) (s s' : Series) :
  (forall k, In k (map snd d) -> (lo <= k <= hi)%Z) ->
  (s1 <- (if negb (in_expected_range (inject_Z lo) (inject_Z hi) s)
          then remap d s else Ok s) ;;
   s2 <- Ok (pd.clip (inject_Z lo) (inject_Z hi) s1) ;;
   enforce_numeric c s2) = Ok s' ->
  ordinal_closure (inject_Z lo) (inject_Z hi) s s' /\
  (in_expected_range (inject_Z lo) (inject_Z hi) s = false -> remapped d s s').
Proof.
  intros Hd H.
  apply bind_Ok_inv in H as [s1 [H1 H]]; simpl in H.
  destruct (in_expected_range (inject_Z lo) (inject_Z hi) s) eqn:E; simpl in H1.
  - injection H1 as <-.
    pose proof (in_expected_range_inv _ _ _ E) as Hr.
    rewrite (clip_in_range _ _ _ Hr) in H.
    rewrite (enforce_numeric_nums c s (in_range_nums _ _ _ Hr)) in H.
    injection H as <-.
    split; [split; [exact Hr | left; auto] | discriminate].
  - destruct (remapped_codes d lo hi s s1 Hd H1) as [Hm [Hr Hi]].
    rewrite (clip_in_range _ _ _ Hr) in H.
    rewrite (enforce_numeric_nums c s1 (in_range_nums _ _ _ Hr)) in H.
    injection H as <-.
    split; [split; [exact Hr | right; auto] | intros _; exact Hm].
Qed.

Lemma column_rule_GenHlth (s s' : Series) :
  column_rule "GenHlth" s = Ok s' ->
  ordinal_closure 1 5 s s' /\
  (in_expected_range 1 5 s = false -> remapped genhlth_mapping s s').
Proof.
  intros H; apply (coded_rule genhlth_mapping 1 5 "GenHlth" s s' genhlth_codes).
  revert H; unfold column_rule.
  change (column_handler "GenHlth" s) with (handle_GenHlth s).
  unfold handle_GenHlth; rewrite bind_assoc; exact (fun H => H).
Qed.

Lemma column_rule_Education (s s' : Series) :
  column_rule "Education" s = Ok s' ->
  ordinal_closure 1 6 s s' /\
  (in_expected_range 1 6 s = false -> remapped education_mapping s s').
Proof.
  intros H; apply (coded_rule education_mapping 1 6 "Education" s s' education_codes).
  revert H; unfold column_rule.
  change (column_handler "Education" s) with (handle_Education s).
  unfold handle_Education; rewrite bind_assoc; exact (fun H => H).
Qed.

End Ordinal.

(** ** The day counts *)

Lemma Qtrunc_bounds (q : Q) (hi : Z) :
  0 <= q -> q <= inject_Z hi -> (0 <= pd.Qtrunc q <= hi)%Z.
Proof.
  destruct q as [n d]; unfold pd.Qtrunc, Qle; simpl.
  rewrite !Z.mul_1_r; intros H0 H1; split.
  - apply Z.quot_pos; lia.
  - apply Z.quot_le_upper_bound; lia.
Qed.

Lemma clip_nums_inv (lo hi : Q) (s : Series) :
  forallb pd.is_num (pd.clip lo hi s) = true -> forallb pd.is_num s = true.
Proof.
  rewrite !forallb_Forall; unfold pd.clip; intros H.
  apply Forall_map in H.
  eapply Forall_impl; [| exact H].
  intros [| q | t]; simpl; auto.
Qed.

Section Days.

Context {P : Pandas}.

Lemma handle_days_closes (s s1 : Series) :
  handle_days s = Ok s1 ->
  Forall (in_range 0 30) s1 /\ Forall is_integer s1.
Proof.
  unfold handle_days; intros H.
  apply bind_Ok_inv in H as [m [_ H]].
  apply astype_int_inv in H as [Hn ->].
  pose proof (clip_closes 0 30 _ ltac:(lra) (clip_nums_inv _ _ _ Hn)) as Hr.
  split; apply Forall_map; (eapply Forall_impl; [| exact Hr]);
    intros c [q [-> [H0 H30]]].
  - apply (in_range_int 0 30), Qtrunc_bounds; assumption.
  - eexists; reflexivity.
Qed.

Lemma column_rule_days (c : string) (s s' : Series) :
  c = "MentHlth" \/ c = "PhysHlth" ->
  column_rule c s = Ok s' ->
  Forall (in_range 0 30) s' /\ Forall is_integer s'.
Proof.
  intros Hc H; unfold column_rule in H.
  apply bind_Ok_inv in H as [s1 [H1 H]].
  assert (Hd : handle_days s = Ok s1) by (destruct Hc; subst c; exact H1).
  apply handle_days_closes in Hd as [Hr Hi].
  rewrite (enforce_numeric_nums c s1 (integers_nums _ Hi)) in H.
  injection H as <-; split; assumption.
Qed.

End Days.

(** ** The binned columns *)

Lemma cut_value_label (bins : list pd.edge) (labels : list Z) (x : Q) :
  pd.cut_value bins labels x = NaN \/
  exists l, In l labels /\ pd.cut_value bins labels x = int l.
Proof.
  unfold pd.cut_value.
  match goal with |- context [if ?b then NaN else _] => destruct b end;
    [left; reflexivity |].
  match goal with |- context [nth_error labels ?i] =>
    destruct (nth_error labels i) as [l |] eqn:E end.
  - right; exists l; split; [eapply nth_error_In; exact E | reflexivity].
  - left; reflexivity.
Qed.

Lemma age_label_range (l : Z) : In l age_labels -> (1 <= l <= 13)%Z.
Proof. simpl; intros H; repeat (destruct H as [<- | H]; [lia |]); contradiction. Qed.

Lemma income_label_range (l : Z) : In l income_labels -> (1 <= l <= 8)%Z.
Proof. simpl; intros H; repeat (destruct H as [<- | H]; [lia |]); contradiction. Qed.

Section Binned.

Context {P : Pandas}.

Lemma bin_values (bins : list pd.edge) (labels : list Z) (s : Series) :
  exists fill,
    bin bins labels s = Ok (map (binned_value bins labels fill) s).
Proof.
  unfold bin, impute_for_binning.
  rewrite (median_no_text _ (to_numeric_coerce_no_text s)).
  match goal with
  | |- context [if ?b then Ok ?m else Ok ?d] =>
      exists (if b then m else d); destruct b
  end; simpl;
    unfold pd.cut, pd.fillna, to_numeric_coerce; rewrite !map_map; reflexivity.
Qed.

Lemma binned_value_label bins labels fill c :
  binned_value bins labels fill c = NaN \/
  exists l, In l labels /\ binned_value bins labels fill c = int l.
Proof.
  unfold binned_value.
  destruct (if isnull (coerce c) then fill else coerce c);
    auto using cut_value_label.
Qed.

(** The final pass on a coded column that holds no text. *)
Lemma enforce_coded_inv (c : string) (s s' : Series) :
  existsb is_text s = false ->
  mem c binary_cols || mem c ["GenHlth"; "Age"; "Education"; "Income"] = true ->
  enforce_numeric c s = Ok s' ->
  pd.isnull_any s = false /\ s' = s \/
  pd.isnull_any s = true /\
  exists m, pd.first (pd.mode s) = Ok m /\ s' = pd.fillna m s.
Proof.
  intros Ht Hc; unfold enforce_numeric.
  rewrite (to_numeric_coerce_id s Ht), Hc.
  destruct (pd.isnull_any s).
  - intros H; apply bind_Ok_inv in H as [m [Hm H]].
    injection H as <-; right; split; [reflexivity |].
    exists m; split; [exact Hm | reflexivity].
  - intros H; injection H as <-; left; split; reflexivity.
Qed.

Lemma fillna_Forall (Q : cell -> Prop) (m : cell) (s : Series) :
  Q m -> Forall (fun v => v = NaN \/ Q v) s -> Forall Q (pd.fillna m s).
Proof.
  intros Hm H; unfold pd.fillna; apply Forall_map.
  eapply Forall_impl; [| exact H].
  intros v [-> | Hv]; simpl; [exact Hm |].
  destruct (isnull v); assumption.
Qed.

Lemma no_null_Forall (Q : cell -> Prop) (s : Series) :
  pd.isnull_any s = false -> Forall (fun v => v = NaN \/ Q v) s -> Forall Q s.
Proof.
  unfold pd.isnull_any; rewrite existsb_false_Forall; intros Hn H.
  rewrite Forall_forall in *; intros v Hv.
  destruct (H v Hv) as [-> | Hq]; [| exact Hq].
  specialize (Hn NaN Hv); discriminate Hn.
Qed.

(** A binned column: passed through when numeric and within range,
    bucketed as a whole otherwise, its missing buckets then filled with
    the mode of the bucketed column. *)
Lemma binned_rule (bins : list pd.edge) (labels : list Z) (lo hi : Z)
    (c : string) (s s' : Series) :
  (forall l, In l labels -> (lo <= l <= hi)%Z) ->
  mem c binary_cols || mem c ["GenHlth"; "Age"; "Education"; "Income"] = true ->
  (s1 <- (s0 <- (if negb (in_expected_range (inject_Z lo) (inject_Z hi) s)
                 then bin bins labels s else Ok s) ;;
          to_numeric s0) ;;
   enforce_numeric c s1) = Ok s' ->
  ordinal_closure (inject_Z lo) (inject_Z hi) s s' /\
  (in_expected_range (inject_Z lo) (inject_Z hi) s = false ->
   exists fill binned,
     bin bins labels s = Ok binned /\
     binned = map (binned_value bins labels fill) s /\
     enforce_numeric c binned = Ok s' /\
     (pd.isnull_any binned = false /\ s' = binned \/
      pd.isnull_any binned = true /\
      exists m, pd.first (pd.mode binned) = Ok m /\ s' = pd.fillna m binned)).
Proof.
  intros Hl Hc H.
  apply bind_Ok_inv in H as [s1 [H1 H]].
  apply bind_Ok_inv in H1 as [s0 [H0 H1]].
  destruct (in_expected_range (inject_Z lo) (inject_Z hi) s) eqn:E; simpl in H0.
  - injection H0 as <-.
    pose proof (in_expected_range_inv _ _ _ E) as Hr.
    pose proof (in_range_nums _ _ _ Hr) as Hn.
    rewrite (to_numeric_id s (nums_no_text s Hn)) in H1; injection H1 as <-.
    rewrite (enforce_numeric_nums c s Hn) in H; injection H as <-.
    split; [split; [exact Hr | left; auto] | discriminate].
  - destruct (bin_values bins labels s) as [fill Hb].
    rewrite Hb in H0; injection H0 as <-.
    set (binned := map (binned_value bins labels fill) s) in *.
    assert (Ht : existsb is_text binned = false).
    { apply existsb_false_Forall, Forall_map, Forall_forall; intros v _.
      destruct (binned_value_label bins labels fill v) as [-> | [l [_ ->]]];
        reflexivity. }
    rewrite (to_numeric_id binned Ht) in H1; injection H1 as <-.
    assert (Hq : Forall (fun v => v = NaN \/
                  (in_range (inject_Z lo) (inject_Z hi) v /\ is_integer v)) binned).
    { apply Forall_map, Forall_forall; intros v _.
      destruct (binned_value_label bins labels fill v) as [-> | [l [Hin ->]]];
        [left; reflexivity | right].
      split; [apply in_range_int, Hl, Hin | eexists; reflexivity]. }
    pose proof (enforce_coded_inv c binned s' Ht Hc H) as Hs'.
    assert (Hout : Forall (fun v => in_range (inject_Z lo) (inject_Z hi) v /\
                                    is_integer v) s').
    { destruct Hs' as [[Hn ->] | [_ [m [Hm ->]]]].
      - apply no_null_Forall; assumption.
      - apply fillna_Forall; [| exact Hq].
        destruct (first_mode_inv _ _ Hm) as [Hin Hnn].
        rewrite Forall_forall in Hq.
        destruct (Hq m Hin) as [-> | Hqm]; [discriminate Hnn | exact Hqm]. }
    split.
    + split.
      * eapply Forall_impl; [| exact Hout]; intros v [Hv _]; exact Hv.
      * right; split; [exact E |].
        eapply Forall_impl; [| exact Hout]; intros v [_ Hv]; exact Hv.
    + intros _; exists fill, binned; repeat split; auto.
Qed.

Lemma column_rule_Age (s s' : Series) :
  column_rule "Age" s = Ok s' ->
  ordinal_closure 1 13 s s' /\
  (in_expected_range 1 13 s = false ->
   exists fill binned,
     bin age_bins age_labels s = Ok binned /\
     binned = map (binned_value age_bins age_labels fill) s /\
     enforce_numeric "Age" binned = Ok s' /\
     (pd.isnull_any binned = false /\ s' = binned \/
      pd.isnull_any binned = true /\
      exists m, pd.first (pd.mode binned) = Ok m /\ s' = pd.fillna m binned)).
Proof.
  intros H.
  apply (binned_rule age_bins age_labels 1 13 "Age" s s' age_label_range eq_refl).
  exact H.
Qed.

Lemma column_rule_Income (s s' : Series) :
  column_rule "Income" s = Ok s' ->
  ordinal_closure 1 8 s s' /\
  (in_expected_range 1 8 s = false ->
   exists fill binned,
     bin income_bins income_labels s = Ok binned /\
     binned = map (binned_value income_bins income_labels fill) s /\
     enforce_numeric "Income" binned = Ok s' /\
     (pd.isnull_any binned = false /\ s' = binned \/
      pd.isnull_any binned = true /\
      exists m, pd.first (pd.mode binned) = Ok m /\ s' = pd.fillna m binned)).
Proof.
  intros H.
  apply (binned_rule income_bins income_labels 1 8 "Income" s s'
           income_label_range eq_refl).
  exact H.
Qed.

End Binned.

(** ** Range closure, label remap, all-or-nothing binning *)

Lemma genhlth_text_keys (t : string) (k : Z) :
  pd.lookup genhlth_mapping (Str t) = Some k <-> In (t, k) genhlth_labels.
Proof.
  unfold genhlth_mapping, genhlth_labels; cbn [pd.lookup cell_eqb int In].
  split.
  - repeat match goal with
           | |- context [String.eqb ?a t] =>
               destruct (String.eqb_spec a t) as [<- | ?];
               [intros H; injection H as <-; auto 10 |]
           end.
    discriminate.
  - intros H.
    repeat (destruct H as [H | H];
            [injection H as <- <-; reflexivity |]).
    contradiction.
Qed.

Lemma education_text_keys (t : string) (k : Z) :
  pd.lookup education_mapping (Str t) = Some k <-> In (t, k) education_labels.
Proof.
  unfold education_mapping, education_labels; cbn [pd.lookup cell_eqb int In].
  split.
  - repeat match goal with
           | |- context [String.eqb ?a t] =>
               destruct (String.eqb_spec a t) as [<- | ?];
               [intros H; injection H as <-; auto 10 |]
           end.
    discriminate.
  - intros H.
    repeat (destruct H as [H | H];
            [injection H as <- <-; reflexivity |]).
    contradiction.
Qed.

Section Closure.

Context {P : Pandas}.

Lemma column_rule_range_closure (c : string) (s s' : Series) :
  column_rule c s = Ok s' -> range_closure c s s'.
Proof.
  intros H; unfold range_closure.
  split; [intros -> | split; [intros -> | split; [intros -> | split; [intros -> |]]]].
  - apply column_rule_GenHlth; exact H.
  - apply column_rule_Education; exact H.
  - apply column_rule_Age; exact H.
  - apply column_rule_Income; exact H.
  - intros Hc; eapply column_rule_days; eassumption.
Qed.

(** C3 (range closure), as the code has it.  Whenever the engine returns:
    GenHlth lies in [1,5], Education in [1,6], Age in [1,13], Income in
    [1,8], MentHlth and PhysHlth in [0,30]; MentHlth and PhysHlth are whole
    numbers; each of GenHlth, Education, Age and Income is made of whole
    numbers when the column that reached its step was remapped or
    bucketed, and is that column unchanged when it was already numeric and
    within range (so a 2.5 or a 3.7 in it is kept). *)
Theorem ranges_are_closed (df df' : DataFrame) :
  preprocess_survey_data df = Ok df' ->
  exists df1,
    impute_and_deduplicate df = Ok df1 /\
    Forall2 (fun x y => fst y = fst x /\ range_closure (fst x) (snd x) (snd y))
            df1 df'.
Proof.
  apply (preprocess_columnwise df df' range_closure).
  exact column_rule_range_closure.
Qed.

(** C5 (label remap), as the code has it.  The text keys of the two dicts
    are exactly the lower-case labels, matched character by character:
    "excellent" is 1 and "poor" is 5 for GenHlth, and likewise the six
    Education labels.  Whenever the engine returns and the column that
    reached step 5 was not already numeric and within range, every value
    that is a key comes out as its code and every other value, any other
    casing of a label included, comes out as the mode of the mapped
    column. *)
Theorem labels_map_by_exact_match (df df' : DataFrame) :
  preprocess_survey_data df = Ok df' ->
  (forall t k, pd.lookup genhlth_mapping (Str t) = Some k <-> In (t, k) genhlth_labels) /\
  (forall t k, pd.lookup education_mapping (Str t) = Some k <-> In (t, k) education_labels) /\
  exists df1,
    impute_and_deduplicate df = Ok df1 /\
    Forall2 (fun x y =>
               fst y = fst x /\
               (fst x = "GenHlth" -> in_expected_range 1 5 (snd x) = false ->
                remapped genhlth_mapping (snd x) (snd y)) /\
               (fst x = "Education" -> in_expected_range 1 6 (snd x) = false ->
                remapped education_mapping (snd x) (snd y)))
            df1 df'.
Proof.
  intros H.
  split; [exact genhlth_text_keys |].
  split; [exact education_text_keys |].
  revert H.
  apply (preprocess_columnwise df df'
           (fun c s s' =>
              (c = "GenHlth" -> in_expected_range 1 5 s = false ->
               remapped genhlth_mapping s s') /\
              (c = "Education" -> in_expected_range 1 6 s = false ->
               remapped education_mapping s s'))).
  intros c s s' H; split; intros ->.
  - apply column_rule_GenHlth; exact H.
  - apply column_rule_Education; exact H.
Qed.

Lemma nth_error_fillna_null (m : cell) (s : Series) (i : nat) :
  nth_error s i = Some NaN -> nth_error (pd.fillna m s) i = Some m.
Proof.
  intros H; unfold pd.fillna; rewrite nth_error_map, H; reflexivity.
Qed.

Lemma nth_error_fillna_notnull (m v : cell) (s : Series) (i : nat) :
  nth_error s i = Some v -> isnull v = false ->
  nth_error (pd.fillna m s) i = Some v.
Proof.
  intros H Hv; unfold pd.fillna; rewrite nth_error_map, H; simpl.
  rewrite Hv; reflexivity.
Qed.

Lemma isnull_any_nth (s : Series) (i : nat) :
  nth_error s i = Some NaN -> pd.isnull_any s = true.
Proof.
  intros H; apply existsb_exists; exists NaN; split; [| reflexivity].
  eapply nth_error_In; exact H.
Qed.

(** C10 (all-or-nothing binning).  Whenever the engine returns: if the Age
    column that reaches step 6 is numeric and not entirely within [1,13],
    the whole column is bucketed as raw ages; a valid code 1-13 in it lies
    below the first edge 18, is missing after the bucketing, and comes out
    as the mode of the bucketed column, put there by the final pass.
    Likewise a numeric Income column not entirely within [1,8] is bucketed
    as a whole, and a valid code 1-8 in it falls into the first bin and
    comes out as 1. *)
Theorem binning_is_all_or_nothing (df df' : DataFrame) :
  preprocess_survey_data df = Ok df' ->
  exists df1,
    impute_and_deduplicate df = Ok df1 /\
    Forall2 (fun x y =>
      fst y = fst x /\
      (fst x = "Age" ->
       dtype_in_int64_float64 (snd x) = true ->
       pd.all (pd.between 1 13 (snd x)) = false ->
       exists binned m,
         bin age_bins age_labels (snd x) = Ok binned /\
         enforce_numeric "Age" binned = Ok (snd y) /\
         pd.first (pd.mode binned) = Ok m /\
         forall i q,
           nth_error (snd x) i = Some (Num q) -> 1 <= q -> q <= 13 ->
           nth_error binned i = Some NaN /\ nth_error (snd y) i = Some m) /\
      (fst x = "Income" ->
       dtype_in_int64_float64 (snd x) = true ->
       pd.all (pd.between 1 8 (snd x)) = false ->
       exists binned,
         bin income_bins income_labels (snd x) = Ok binned /\
         enforce_numeric "Income" binned = Ok (snd y) /\
         forall i q,
           nth_error (snd x) i = Some (Num q) -> 1 <= q -> q <= 8 ->
           nth_error binned i = Some (int 1) /\
           nth_error (snd y) i = Some (int 1)))
    df1 df'.
Proof.
  apply (preprocess_columnwise df df'
    (fun c s s' =>
      (c = "Age" ->
       dtype_in_int64_float64 s = true ->
       pd.all (pd.between 1 13 s) = false ->
       exists binned m,
         bin age_bins age_labels s = Ok binned /\
         enforce_numeric "Age" binned = Ok s' /\
         pd.first (pd.mode binned) = Ok m /\
         forall i q,
           nth_error s i = Some (Num q) -> 1 <= q -> q <= 13 ->
           nth_error binned i = Some NaN /\ nth_error s' i = Some m) /\
      (c = "Income" ->
       dtype_in_int64_float64 s = true ->
       pd.all (pd.between 1 8 s) = false ->
       exists binned,
         bin income_bins income_labels s = Ok binned /\
         enforce_numeric "Income" binned = Ok s' /\
         forall i q,
           nth_error s i = Some (Num q) -> 1 <= q -> q <= 8 ->
           nth_error binned i = Some (int 1) /\
           nth_error s' i = Some (int 1)))).
  intros c s s' H; split; intros -> Hd Hb.
  - assert (E : in_expected_range 1 13 s = false)
      by (unfold in_expected_range; rewrite Hb; apply andb_false_r).
    destruct (proj2 (column_rule_Age s s' H) E)
      as [fill [binned [Hbin [Hval [Henf Hcases]]]]].
    assert (Hcode : forall i q,
               nth_error s i = Some (Num q) -> 1 <= q -> q <= 13 ->
               nth_error binned i = Some NaN).
    { intros i q Hi H1 H13.
      rewrite Hval, nth_error_map, Hi; simpl.
      unfold binned_value; simpl.
      rewrite age_below_first_edge by lra; reflexivity. }
    destruct Hcases as [[Hnn ->] | [Hnull [m [Hm ->]]]].
    + (* no bucket is missing: then no valid code occurs, and the column,
         which is not empty, has a mode *)
      assert (Hne : existsb notnull binned = true).
      { destruct s as [| v s0].
        - discriminate Hb.
        - rewrite Hval in Hnn |- *; simpl in Hnn |- *.
          apply orb_false_elim in Hnn as [Hv _].
          unfold notnull; rewrite Hv; reflexivity. }
      destruct (first_mode_Ok binned Hne) as [m Hm].
      exists binned, m.
      split; [exact Hbin | split; [exact Henf | split; [exact Hm |]]].
      intros i q Hi H1 H13.
      pose proof (isnull_any_nth _ _ (Hcode i q Hi H1 H13)); congruence.
    + exists binned, m.
      split; [exact Hbin | split; [exact Henf | split; [exact Hm |]]].
      intros i q Hi H1 H13; split; [eauto |].
      apply nth_error_fillna_null; eauto.
  - assert (E : in_expected_range 1 8 s = false)
      by (unfold in_expected_range; rewrite Hb; apply andb_false_r).
    destruct (proj2 (column_rule_Income s s' H) E)
      as [fill [binned [Hbin [Hval [Henf Hcases]]]]].
    assert (Hcode : forall i q,
               nth_error s i = Some (Num q) -> 1 <= q -> q <= 8 ->
               nth_error binned i = Some (int 1)).
    { intros i q Hi H1 H8.
      rewrite Hval, nth_error_map, Hi; simpl.
      unfold binned_value; simpl.
      rewrite (income_bucket q 1 0 (Some 10000)); [reflexivity | |].
      - unfold income_intervals, bounded; simpl; tauto.
      - unfold in_interval; split; lra. }
    exists binned.
    split; [exact Hbin | split; [exact Henf |]].
    intros i q Hi H1 H8; split; [eauto |].
    destruct Hcases as [[_ ->] | [_ [m [_ ->]]]]; [eauto |].
    eapply nth_error_fillna_notnull; eauto.
Qed.

End Closure.

(** C3, witness: labels, codes, raw ages, raw incomes and day counts. *)
Lemma ranges_are_closed_witness :
  exists df1,
    @impute_and_deduplicate pandas2
      [("GenHlth", [Str "poor"; Str "Good"; int 7]);
       ("Education", [int 2; int 3; int 6]);
       ("Age", [int 42; int 81; int 5]);
       ("Income", [int 12000; int 3; int 80000]);
       ("MentHlth", [int 45; int (-2); Num (7 # 2)])] = Ok df1 /\
    Forall2 (fun x y => fst y = fst x /\ range_closure (fst x) (snd x) (snd y))
      df1
      [("GenHlth", [int 5; int 5; int 5]);
       ("Education", [int 2; int 3; int 6]);
       ("Age", [int 5; int 13; int 5]);
       ("Income", [int 2; int 1; int 8]);
       ("MentHlth", [int 30; int 0; int 3])].
Proof.
  apply (@ranges_are_closed pandas2).
  vm_compute; reflexivity.
Defined.

(** C5, witness: labels in several casings next to codes. *)
Lemma labels_map_by_exact_match_witness :
  (forall t k, pd.lookup genhlth_mapping (Str t) = Some k <-> In (t, k) genhlth_labels) /\
  (forall t k, pd.lookup education_mapping (Str t) = Some k <-> In (t, k) education_labels) /\
  exists df1,
    @impute_and_deduplicate pandas2
      [("GenHlth", [Str "Poor"; Str "good"; Str "poor"; Str "EXCELLENT";
                    Str "excellent"; Str "good"]);
       ("Education", [Str "elementary"; Str "Elementary"; Str "high school";
                      int 9; Str "elementary"; int 3])] = Ok df1 /\
    Forall2 (fun x y =>
               fst y = fst x /\
               (fst x = "GenHlth" -> in_expected_range 1 5 (snd x) = false ->
                remapped genhlth_mapping (snd x) (snd y)) /\
               (fst x = "Education" -> in_expected_range 1 6 (snd x) = false ->
                remapped education_mapping (snd x) (snd y)))
      df1
      [("GenHlth", [int 3; int 3; int 5; int 3; int 1; int 3]);
       ("Education", [int 2; int 2; int 4; int 2; int 2; int 3])].
Proof.
  apply (@labels_map_by_exact_match pandas2).
  vm_compute; reflexivity.
Defined.

(** C10, witness: one raw age among valid codes, one raw income among
    valid codes. *)
Lemma binning_is_all_or_nothing_witness :
  exists df1,
    @impute_and_deduplicate pandas2
      [("Age", [int 5; int 42; int 81; int 42]);
       ("Income", [int 3; int 12000; int 80000; int 7])] = Ok df1 /\
    Forall2 (fun x y =>
      fst y = fst x /\
      (fst x = "Age" ->
       dtype_in_int64_float64 (snd x) = true ->
       pd.all (pd.between 1 13 (snd x)) = false ->
       exists binned m,
         @bin pandas2 age_bins age_labels (snd x) = Ok binned /\
         @enforce_numeric pandas2 "Age" binned = Ok (snd y) /\
         pd.first (pd.mode binned) = Ok m /\
         forall i q,
           nth_error (snd x) i = Some (Num q) -> 1 <= q -> q <= 13 ->
           nth_error binned i = Some NaN /\ nth_error (snd y) i = Some m) /\
      (fst x = "Income" ->
       dtype_in_int64_float64 (snd x) = true ->
       pd.all (pd.between 1 8 (snd x)) = false ->
       exists binned,
         @bin pandas2 income_bins income_labels (snd x) = Ok binned /\
         @enforce_numeric pandas2 "Income" binned = Ok (snd y) /\
         forall i q,
           nth_error (snd x) i = Some (Num q) -> 1 <= q -> q <= 8 ->
           nth_error binned i = Some (int 1) /\
           nth_error (snd y) i = Some (int 1)))
    df1
    [("Age", [int 5; int 5; int 13; int 5]);
     ("Income", [int 1; int 2; int 8; int 1])].
Proof.
  apply (@binning_is_all_or_nothing pandas2).
  vm_compute; reflexivity.
Defined.

(** ** Deduplication *)

Lemma row_eqb_refl (r : pd.row) : pd.row_eqb r r = true.
Proof.
  induction r as [| a r IH]; simpl; [reflexivity |].
  rewrite cell_eqb_refl, IH; reflexivity.
Qed.

Lemma row_eqb_sym (r1 r2 : pd.row) : pd.row_eqb r1 r2 = pd.row_eqb r2 r1.
Proof.
  revert r2; induction r1 as [| a r1 IH]; intros [| b r2]; simpl; try reflexivity.
  rewrite cell_eqb_sym, IH; reflexivity.
Qed.

Lemma row_eqb_trans (r1 r2 r3 : pd.row) :
  pd.row_eqb r1 r2 = true -> pd.row_eqb r2 r3 = true -> pd.row_eqb r1 r3 = true.
Proof.
  revert r2 r3; induction r1 as [| a r1 IH]; intros [| b r2] [| c r3]; simpl;
    try discriminate; auto.
  rewrite !andb_true_iff; intros [H1 H2] [H3 H4]; split.
  - eapply cell_eqb_trans; eassumption.
  - eapply IH; eassumption.
Qed.

Lemma drop_length_le {A : Type} (marks : list bool) (l : list A) :
  (length (pd.drop marks l) <= length l)%nat.
Proof.
  revert l; induction marks as [| b m IH]; intros [| a l]; simpl; try lia.
  specialize (IH l); destruct b; simpl; lia.
Qed.

Lemma drop_map {A B : Type} (f : A -> B) (marks : list bool) (l : list A) :
  pd.drop marks (map f l) = map f (pd.drop marks l).
Proof.
  revert l; induction marks as [| b m IH]; intros [| a l]; simpl; try reflexivity.
  rewrite IH; destruct b; reflexivity.
Qed.

Lemma drop_Forall {A : Type} (Q : A -> Prop) (marks : list bool) (l : list A) :
  Forall Q l -> Forall Q (pd.drop marks l).
Proof.
  intros H; revert marks; induction H as [| a l Ha _ IH]; intros [| b m]; simpl;
    try constructor.
  destruct b; [apply IH | constructor; [exact Ha | apply IH]].
Qed.

Lemma filter_andb {A : Type} (p q : A -> bool) (l : list A) :
  filter (fun x => p x && q x) l = filter q (filter p l).
Proof.
  induction l as [| x l IH]; simpl; [reflexivity |].
  destruct (p x); simpl; [destruct (q x) |]; rewrite IH; reflexivity.
Qed.

Lemma filter_not_seen_cons (r : pd.row) (seen l : list pd.row) :
  filter (fun x => negb (existsb (pd.row_eqb x) (r :: seen))) l
  = filter (fun x => negb (existsb (pd.row_eqb x) seen))
      (filter (fun x => negb (pd.row_eqb x r)) l).
Proof.
  rewrite <- filter_andb.
  apply filter_ext; intros x; simpl; apply negb_orb.
Qed.

(** The marks, then the removal, are the specification's rule. *)
Lemma drop_duplicated_from (seen rs : list pd.row) :
  pd.drop (pd.duplicated_from seen rs) rs =
  filter (fun x => negb (existsb (pd.row_eqb x) seen)) (keep_first_occurrences rs).
Proof.
  revert seen; induction rs as [| r rs IH]; intros seen; [reflexivity |].
  cbn [pd.duplicated_from pd.drop keep_first_occurrences filter].
  rewrite IH, filter_not_seen_cons.
  destruct (existsb (pd.row_eqb r) seen); reflexivity.
Qed.

Lemma filter_true {A : Type} (l : list A) : filter (fun _ => true) l = l.
Proof. induction l as [| a l IH]; simpl; congruence. Qed.

Lemma dedup_rows_spec (rs : list pd.row) :
  pd.drop (pd.duplicated_from [] rs) rs = keep_first_occurrences rs.
Proof. rewrite drop_duplicated_from; simpl; apply filter_true. Qed.

Lemma duplicated_from_length (seen rs : list pd.row) :
  length (pd.duplicated_from seen rs) = length rs.
Proof.
  revert seen; induction rs as [| r rs IH]; intros seen; simpl; [reflexivity |].
  rewrite IH; reflexivity.
Qed.

(** *** Rows and columns *)

Lemma transpose_length (n : nat) (cols : list Series) :
  length (pd.transpose n cols) = n.
Proof.
  revert cols; induction n as [| n IH]; intros cols; simpl; [reflexivity |].
  rewrite IH; reflexivity.
Qed.

Lemma transpose_drop (marks : list bool) (cols : list Series) :
  Forall (fun s => length s = length marks) cols ->
  pd.transpose (length (filter negb marks)) (map (pd.drop marks) cols)
  = pd.drop marks (pd.transpose (length marks) cols).
Proof.
  revert cols; induction marks as [| b m IH]; intros cols Hc; simpl.
  - reflexivity.
  - assert (Ht : Forall (fun s => length s = length m) (map (@tl cell) cols)).
    { apply Forall_map; eapply Forall_impl; [| exact Hc].
      intros [| x s]; simpl; [discriminate | congruence]. }
    specialize (IH _ Ht).
    destruct b; simpl.
    + rewrite <- IH; f_equal.
      rewrite map_map; apply map_ext_Forall.
      eapply Forall_impl; [| exact Hc].
      intros [| x s]; simpl; [discriminate | reflexivity].
    + rewrite <- IH; apply (f_equal2 cons).
      * rewrite map_map; apply map_ext_Forall.
        eapply Forall_impl; [| exact Hc].
        intros [| x s]; simpl; [discriminate | reflexivity].
      * f_equal; rewrite !map_map; apply map_ext_Forall.
        eapply Forall_impl; [| exact Hc].
        intros [| x s]; simpl; [discriminate | reflexivity].
Qed.

Lemma drop_length_kept {A : Type} (marks : list bool) (l : list A) :
  length l = length marks ->
  length (pd.drop marks l) = length (filter negb marks).
Proof.
  revert l; induction marks as [| b m IH]; intros [| a l]; simpl;
    try discriminate; [reflexivity |].
  intros H; injection H as H; specialize (IH l H).
  destruct b; simpl; lia.
Qed.

Lemma rows_length (df : DataFrame) : length (pd.rows df) = pd.nrows df.
Proof. apply transpose_length. Qed.

Lemma duplicated_length (df : DataFrame) :
  length (pd.duplicated df) = pd.nrows df.
Proof.
  unfold pd.duplicated; rewrite duplicated_from_length; apply rows_length.
Qed.

Lemma rows_drop_duplicates (df : DataFrame) :
  rectangular df ->
  pd.rows (pd.drop_duplicates df) = keep_first_occurrences (pd.rows df).
Proof.
  intros Hr.
  rewrite <- dedup_rows_spec.
  fold (pd.duplicated df).
  assert (Hc : Forall (fun s => length s = length (pd.duplicated df))
                      (map snd df)).
  { apply Forall_map; eapply Forall_impl; [| exact Hr].
    intros [c s] Hs; simpl in *.
    rewrite duplicated_length; exact Hs. }
  unfold pd.rows.
  rewrite <- (duplicated_length df), <- (transpose_drop _ _ Hc).
  f_equal.
  - destruct df as [| [c s] df]; simpl; [reflexivity |].
    apply drop_length_kept.
    inversion Hc; assumption.
  - unfold pd.drop_duplicates; rewrite !map_map.
    apply map_ext; intros [c s]; reflexivity.
Qed.

(** *** Appended duplicates *)

Lemma drop_all_marked (seen ds : list pd.row) :
  (forall d, In d ds -> exists r, In r seen /\ pd.row_eqb d r = true) ->
  pd.drop (pd.duplicated_from seen ds) ds = [].
Proof.
  revert seen; induction ds as [| d ds IH]; intros seen H; simpl; [reflexivity |].
  assert (E : existsb (pd.row_eqb d) seen = true).
  { apply existsb_exists.
    destruct (H d (or_introl eq_refl)) as [r [Hr Hd]]; exists r; auto. }
  rewrite E; apply IH.
  intros x Hx; destruct (H x (or_intror Hx)) as [r [Hr Hd]].
  exists r; split; [right; exact Hr | exact Hd].
Qed.

Lemma drop_distinct_prefix (seen rs ds : list pd.row) :
  distinct_rows rs ->
  (forall x, In x rs -> existsb (pd.row_eqb x) seen = false) ->
  pd.drop (pd.duplicated_from seen (rs ++ ds)) (rs ++ ds)
  = rs ++ pd.drop (pd.duplicated_from (rev rs ++ seen) ds) ds.
Proof.
  revert seen; induction rs as [| r rs IH]; intros seen Hd Hs; [reflexivity |].
  destruct Hd as [Hr Hd].
  cbn [app pd.duplicated_from pd.drop].
  rewrite (Hs r (or_introl eq_refl)).
  rewrite IH; [| exact Hd |].
  - cbn [rev]; rewrite <- app_assoc; reflexivity.
  - intros x Hx; simpl.
    rewrite (Hr x Hx), (Hs x (or_intror Hx)); reflexivity.
Qed.

Lemma appended_duplicates_removed (rs ds : list pd.row) :
  distinct_rows rs ->
  (forall d, In d ds -> exists r, In r rs /\ pd.row_eqb d r = true) ->
  keep_first_occurrences (rs ++ ds) = rs.
Proof.
  intros Hd Hs.
  rewrite <- dedup_rows_spec, drop_distinct_prefix; [| exact Hd | reflexivity].
  rewrite drop_all_marked, app_nil_r; [reflexivity |].
  intros d Hin; destruct (Hs d Hin) as [r [Hr Heq]].
  exists r; split; [| exact Heq].
  apply in_or_app; left; rewrite <- in_rev; exact Hr.
Qed.

(** *** No other step removes rows *)

Section Lengths.

Context {P : Pandas}.

Lemma impute_column_length (c : string) (s s' : Series) :
  impute_column c s = Ok s' -> length s' = length s.
Proof.
  unfold impute_column.
  destruct (mem c continuous_cols); [| destruct (mem c coded_cols)]; intros H.
  - apply bind_Ok_inv in H as [m [_ H]]; injection H as <-; apply fillna_length.
  - apply bind_Ok_inv in H as [m [_ H]]; injection H as <-; apply fillna_length.
  - injection H as <-; reflexivity.
Qed.

Lemma enforce_numeric_length (c : string) (s s' : Series) :
  enforce_numeric c s = Ok s' -> length s' = length s.
Proof.
  unfold enforce_numeric.
  destruct (pd.isnull_any _); [destruct (_ || _) |]; intros H.
  - apply bind_Ok_inv in H as [m [_ H]]; injection H as <-.
    rewrite fillna_length; apply length_map.
  - apply bind_Ok_inv in H as [m [_ H]]; injection H as <-.
    rewrite fillna_length; apply length_map.
  - injection H as <-; apply length_map.
Qed.

Lemma remap_length (d : pd.dict) (s s' : Series) :
  remap d s = Ok s' -> length s' = length s.
Proof.
  intros H; apply remap_values in H as [m [k [_ [_ [_ ->]]]]]; apply length_map.
Qed.

Lemma handle_days_length (s s' : Series) :
  handle_days s = Ok s' -> length s' = length s.
Proof.
  unfold handle_days; intros H.
  apply bind_Ok_inv in H as [m [_ H]].
  apply mapM_length in H; rewrite H.
  unfold pd.clip, to_numeric_coerce; rewrite length_map, fillna_length.
  apply length_map.
Qed.

Lemma to_numeric_length (s s' : Series) :
  to_numeric s = Ok s' -> length s' = length s.
Proof. apply mapM_length. Qed.

Lemma bin_length bins labels (s s' : Series) :
  bin bins labels s = Ok s' -> length s' = length s.
Proof.
  destruct (bin_values bins labels s) as [fill ->].
  intros H; injection H as <-; apply length_map.
Qed.

Lemma column_handler_length (c : string) (s s' : Series) :
  column_handler c s = Ok s' -> length s' = length s.
Proof.
  unfold column_handler.
  destruct (mem c binary_cols).
  { rewrite to_binary_values; intros H; injection H as <-; apply length_map. }
  destruct (String.eqb c "GenHlth").
  { unfold handle_GenHlth; intros H.
    apply bind_Ok_inv in H as [s1 [H1 H]]; injection H as <-.
    unfold pd.clip; rewrite length_map.
    destruct (negb _); [eapply remap_length; eassumption | congruence]. }
  destruct (String.eqb c "Education").
  { unfold handle_Education; intros H.
    apply bind_Ok_inv in H as [s1 [H1 H]]; injection H as <-.
    unfold pd.clip; rewrite length_map.
    destruct (negb _); [eapply remap_length; eassumption | congruence]. }
  destruct (String.eqb c "Age").
  { unfold handle_Age; intros H.
    apply bind_Ok_inv in H as [s1 [H1 H]].
    apply to_numeric_length in H; rewrite H.
    destruct (negb _); [eapply bin_length; eassumption | congruence]. }
  destruct (String.eqb c "Income").
  { unfold handle_Income; intros H.
    apply bind_Ok_inv in H as [s1 [H1 H]].
    apply to_numeric_length in H; rewrite H.
    destruct (negb _); [eapply bin_length; eassumption | congruence]. }
  destruct (String.eqb c "MentHlth"); [apply handle_days_length |].
  destruct (String.eqb c "PhysHlth"); [apply handle_days_length |].
  congruence.
Qed.

Lemma column_rule_length (c : string) (s s' : Series) :
  column_rule c s = Ok s' -> length s' = length s.
Proof.
  unfold column_rule; intros H.
  apply bind_Ok_inv in H as [s1 [H1 H]].
  apply enforce_numeric_length in H; apply column_handler_length in H1.
  congruence.
Qed.

Lemma pass_same_length (f : string -> Series -> result Series)
    (df df' : DataFrame) :
  (forall c s s', f c s = Ok s' -> length s' = length s) ->
  for_each_column f df = Ok df' -> Forall2 same_length df df'.
Proof.
  intros Hf H; apply for_each_column_Ok in H.
  eapply Forall2_impl; [| exact H].
  intros x y [_ Hs]; apply Hf in Hs; exact Hs.
Qed.

Lemma same_length_nrows (df df' : DataFrame) :
  Forall2 same_length df df' -> pd.nrows df' = pd.nrows df.
Proof.
  intros H; destruct H as [| [c s] [c' s'] l l' Hx _]; [reflexivity | exact Hx].
Qed.

Lemma same_length_rectangular (df df' : DataFrame) :
  Forall2 same_length df df' -> rectangular df -> rectangular df'.
Proof.
  intros H Hr; unfold rectangular in *.
  rewrite (same_length_nrows _ _ H).
  revert Hr; generalize (pd.nrows df) as n; intros n.
  induction H as [| x y l l' Hxy _ IH]; intros Hr; [constructor |].
  inversion Hr as [| x0 l0 Hx Hl]; subst.
  constructor; [| apply IH; exact Hl].
  unfold same_length, Series in *; cbv beta in *; lia.
Qed.

Lemma rename_columns_same_length (df : DataFrame) :
  Forall2 same_length df (rename_columns df).
Proof.
  induction df as [| [c s] df IH]; constructor; [reflexivity | exact IH].
Qed.

Lemma drop_duplicates_shorter (df : DataFrame) :
  Forall2 (fun x y => (length (snd y) <= length (snd x))%nat)
          df (pd.drop_duplicates df).
Proof.
  unfold pd.drop_duplicates; generalize (pd.duplicated df) as marks; intros marks.
  induction df as [| [c s] df IH]; constructor; [apply drop_length_le | exact IH].
Qed.

Lemma Forall2_trans_rel {A : Type} (R1 R2 R3 : A -> A -> Prop)
    (l1 l2 l3 : list A) :
  (forall x y z, R1 x y -> R2 y z -> R3 x z) ->
  Forall2 R1 l1 l2 -> Forall2 R2 l2 l3 -> Forall2 R3 l1 l3.
Proof.
  intros HR H12; revert l3; induction H12 as [| x y l1 l2 Hxy _ IH];
    intros l3 H23; inversion H23; subst; constructor; eauto.
Qed.

(** The engine removes rows in the deduplication only. *)
Lemma preprocess_row_counts (df df' : DataFrame) :
  preprocess_survey_data df = Ok df' ->
  exists df0,
    for_each_column impute_column (rename_columns df) = Ok df0 /\
    Forall2 same_length df df0 /\
    Forall2 same_length (pd.drop_duplicates df0) df' /\
    Forall2 (fun x y => (length (snd y) <= length (snd x))%nat) df df' /\
    (pd.nrows df' <= pd.nrows df)%nat.
Proof.
  unfold preprocess_survey_data, impute_and_deduplicate; intros H.
  apply bind_Ok_inv in H as [df1 [H1 H2]].
  apply bind_Ok_inv in H1 as [df0 [H0 H1]]; injection H1 as <-.
  apply encode_and_enforce_columns in H2.
  pose proof (pass_same_length _ _ _ impute_column_length H0) as L0.
  pose proof (pass_same_length _ _ _ column_rule_length H2) as L2.
  assert (La : Forall2 same_length df df0).
  { eapply Forall2_trans_rel; [| apply rename_columns_same_length | exact L0].
    unfold same_length; intros; congruence. }
  assert (Lb : Forall2 (fun x y => (length (snd y) <= length (snd x))%nat) df df').
  { assert (Lc : Forall2 (fun x y => (length (snd y) <= length (snd x))%nat)
                         df0 df').
    { eapply Forall2_trans_rel; [| apply drop_duplicates_shorter | exact L2].
      intros x y z Hxy Hyz; unfold same_length, Series in *; cbv beta in *; lia. }
    eapply Forall2_trans_rel; [| exact La | exact Lc].
    intros x y z Hxy Hyz; unfold same_length, Series in *; cbv beta in *; lia. }
  exists df0; repeat split; auto.
  destruct Lb as [| [c s] [c' s'] l l' Hx _]; [apply Nat.le_refl | exact Hx].
Qed.

End Lengths.

Section Complete.

Context {P : Pandas}.

Lemma impute_column_no_null (c : string) (s s' : Series) :
  pd.isnull_any s = false -> impute_column c s = Ok s' -> s' = s.
Proof.
  intros Hn; unfold impute_column.
  destruct (mem c continuous_cols); [| destruct (mem c coded_cols)]; intros H.
  - apply bind_Ok_inv in H as [m [_ H]]; injection H as <-.
    apply fillna_no_null; exact Hn.
  - apply bind_Ok_inv in H as [m [_ H]]; injection H as <-.
    apply fillna_no_null; exact Hn.
  - injection H as <-; reflexivity.
Qed.

Lemma impute_no_null (df df0 : DataFrame) :
  Forall (fun p => pd.isnull_any (snd p) = false) df ->
  for_each_column impute_column df = Ok df0 -> df0 = df.
Proof.
  intros Hn H; apply for_each_column_Ok in H.
  induction H as [| [c s] [c' s'] l l' [Hc Hs] _ IH]; [reflexivity |].
  inversion Hn as [| x l0 Hx Hl]; subst; simpl in *.
  apply (impute_column_no_null c s s' Hx) in Hs; subst.
  rewrite (IH Hl); reflexivity.
Qed.

Lemma rename_columns_snd (df : DataFrame) :
  map snd (rename_columns df) = map snd df.
Proof.
  unfold rename_columns; rewrite map_map.
  apply map_ext; intros [c s]; reflexivity.
Qed.

Lemma rename_columns_nrows (df : DataFrame) :
  pd.nrows (rename_columns df) = pd.nrows df.
Proof. destruct df as [| [c s] df]; reflexivity. Qed.

Lemma rename_columns_rows (df : DataFrame) :
  pd.rows (rename_columns df) = pd.rows df.
Proof.
  unfold pd.rows; rewrite rename_columns_snd, rename_columns_nrows; reflexivity.
Qed.

Lemma rename_columns_rectangular (df : DataFrame) :
  rectangular df -> rectangular (rename_columns df).
Proof.
  unfold rectangular; rewrite rename_columns_nrows.
  intros H; unfold rename_columns; apply Forall_map.
  eapply Forall_impl; [| exact H]; intros [c s] Hs; exact Hs.
Qed.

Lemma rename_columns_no_null (df : DataFrame) :
  Forall (fun p => pd.isnull_any (snd p) = false) df ->
  Forall (fun p => pd.isnull_any (snd p) = false) (rename_columns df).
Proof.
  intros H; unfold rename_columns; apply Forall_map.
  eapply Forall_impl; [| exact H]; intros [c s] Hs; exact Hs.
Qed.

(** On a table without missing entries the engine drops exactly the
    appended duplicates. *)
Lemma preprocess_appended_duplicates (df df' : DataFrame) (rs ds : list pd.row) :
  preprocess_survey_data df = Ok df' ->
  rectangular df ->
  Forall (fun p => pd.isnull_any (snd p) = false) df ->
  pd.rows df = rs ++ ds ->
  distinct_rows rs ->
  (forall d, In d ds -> exists r, In r rs /\ pd.row_eqb d r = true) ->
  pd.nrows df' = length rs /\ pd.nrows df' = (pd.nrows df - length ds)%nat.
Proof.
  intros H Hr Hn Hrows Hd Hs.
  apply preprocess_row_counts in H as [df0 [H0 [_ [L _]]]].
  apply impute_no_null in H0; [| apply rename_columns_no_null; exact Hn].
  subst df0.
  apply same_length_nrows in L.
  assert (E : pd.nrows df' = length rs).
  { rewrite L, <- rows_length.
    rewrite rows_drop_duplicates by (apply rename_columns_rectangular; exact Hr).
    rewrite rename_columns_rows, Hrows.
    rewrite appended_duplicates_removed by assumption; reflexivity. }
  split; [exact E |].
  rewrite E, <- (rows_length df), Hrows, length_app; lia.
Qed.

(** On such a table, the table that leaves the deduplication holds the
    rows before the appended ones, once each. *)
Lemma preprocess_deduplicated_table (df df' : DataFrame) (rs ds : list pd.row) :
  preprocess_survey_data df = Ok df' ->
  rectangular df ->
  Forall (fun p => pd.isnull_any (snd p) = false) df ->
  pd.rows df = rs ++ ds ->
  distinct_rows rs ->
  (forall d, In d ds -> exists r, In r rs /\ pd.row_eqb d r = true) ->
  exists df1, impute_and_deduplicate df = Ok df1 /\ pd.rows df1 = rs.
Proof.
  intros H Hr Hn Hrows Hd Hs.
  apply preprocess_row_counts in H as [df0 [H0 _]].
  pose proof (impute_no_null _ _ (rename_columns_no_null df Hn) H0) as E.
  subst df0.
  exists (pd.drop_duplicates (rename_columns df)); split.
  - unfold impute_and_deduplicate; rewrite H0; reflexivity.
  - rewrite rows_drop_duplicates by (apply rename_columns_rectangular; exact Hr).
    rewrite rename_columns_rows, Hrows.
    apply appended_duplicates_removed; assumption.
Qed.

(** In any run, the output has one row for each first occurrence among
    the rows of the table as the first imputation leaves it. *)
Lemma preprocess_first_occurrences (df df' : DataFrame) :
  rectangular df ->
  preprocess_survey_data df = Ok df' ->
  exists df0,
    for_each_column impute_column (rename_columns df) = Ok df0 /\
    impute_and_deduplicate df = Ok (pd.drop_duplicates df0) /\
    pd.rows (pd.drop_duplicates df0) = keep_first_occurrences (pd.rows df0) /\
    pd.nrows df' = length (keep_first_occurrences (pd.rows df0)).
Proof.
  intros Hr H.
  apply preprocess_row_counts in H as [df0 [H0 [L0 [L1 _]]]].
  assert (Hr0 : rectangular df0)
    by (eapply same_length_rectangular; [exact L0 | exact Hr]).
  exists df0; split; [exact H0 |].
  split; [unfold impute_and_deduplicate; rewrite H0; reflexivity |].
  split; [apply rows_drop_duplicates, Hr0 |].
  rewrite (same_length_nrows _ _ L1), <- rows_length.
  rewrite (rows_drop_duplicates df0 Hr0); reflexivity.
Qed.

End Complete.

(** C8 (deduplication), as the code has it.  The deduplication acts on
    the table as the first imputation leaves it.  On a table with one
    entry per row in every column, [drop_duplicates] leaves, in their order
    and at consecutive positions, exactly the rows that are not exact
    duplicates of an earlier row: the rows of its result are the first
    occurrences.  When exact duplicates of rows of a duplicate-free table
    are appended to it, the result is that table, one copy of each row,
    and the row count drops by the number of appended rows.  In a run of
    the engine on such a table without missing entries, the table that
    leaves the deduplication is that table, and the row count of the
    output drops by the number of appended rows.  In any run the first
    imputation and every step after the deduplication keep the length of
    every column, so the output has at most as many rows as the input:
    exactly one for each first occurrence among the rows of the imputed
    table. *)
Theorem deduplication_keeps_first_occurrences :
  (forall df, rectangular df ->
     pd.rows (pd.drop_duplicates df) = keep_first_occurrences (pd.rows df)) /\
  (forall df rs ds,
     rectangular df -> pd.rows df = rs ++ ds -> distinct_rows rs ->
     (forall d, In d ds -> exists r, In r rs /\ pd.row_eqb d r = true) ->
     pd.rows (pd.drop_duplicates df) = rs /\
     pd.nrows (pd.drop_duplicates df) = (pd.nrows df - length ds)%nat) /\
  (forall (P : Pandas) df df' rs ds,
     preprocess_survey_data df = Ok df' ->
     rectangular df ->
     Forall (fun p => pd.isnull_any (snd p) = false) df ->
     pd.rows df = rs ++ ds -> distinct_rows rs ->
     (forall d, In d ds -> exists r, In r rs /\ pd.row_eqb d r = true) ->
     (exists df1, impute_and_deduplicate df = Ok df1 /\ pd.rows df1 = rs) /\
     pd.nrows df' = length rs /\
     pd.nrows df' = (pd.nrows df - length ds)%nat) /\
  (forall (P : Pandas) df df',
     preprocess_survey_data df = Ok df' ->
     exists df0,
       for_each_column impute_column (rename_columns df) = Ok df0 /\
       Forall2 same_length df df0 /\
       Forall2 same_length (pd.drop_duplicates df0) df' /\
       Forall2 (fun x y => (length (snd y) <= length (snd x))%nat) df df' /\
       (pd.nrows df' <= pd.nrows df)%nat) /\
  (forall (P : Pandas) df df',
     rectangular df ->
     preprocess_survey_data df = Ok df' ->
     exists df0,
       for_each_column impute_column (rename_columns df) = Ok df0 /\
       impute_and_deduplicate df = Ok (pd.drop_duplicates df0) /\
       pd.rows (pd.drop_duplicates df0) = keep_first_occurrences (pd.rows df0) /\
       pd.nrows df' = length (keep_first_occurrences (pd.rows df0))).
Proof.
  split; [exact rows_drop_duplicates |].
  split; [| split; [| split; [intros P; exact preprocess_row_counts
                             | intros P; exact preprocess_first_occurrences]]].
  - intros df rs ds Hr Hrows Hd Hs.
    assert (E : pd.rows (pd.drop_duplicates df) = rs).
    { rewrite (rows_drop_duplicates df Hr), Hrows.
      apply appended_duplicates_removed; assumption. }
    split; [exact E |].
    rewrite <- (rows_length (pd.drop_duplicates df)), E.
    rewrite <- (rows_length df), Hrows, length_app; lia.
  - intros P df df' rs ds H Hr Hn Hrows Hd Hs.
    split; [eapply preprocess_deduplicated_table; eassumption |].
    eapply preprocess_appended_duplicates; eassumption.
Qed.

(** C8, witness: a run of the engine on a two-row table with its first
    row appended again. *)
Lemma deduplication_keeps_first_occurrences_witness :
  (exists df1,
     @impute_and_deduplicate pandas2
       [("HighBP", [int 1; int 0; int 1]); ("BMI", [int 20; int 30; int 20])]
     = Ok df1 /\
     pd.rows df1 = [[int 1; int 20]; [int 0; int 30]]) /\
  pd.nrows [("HighBP", [int 1; int 0]); ("BMI", [int 20; int 30])]
  = length [[int 1; int 20]; [int 0; int 30]] /\
  pd.nrows [("HighBP", [int 1; int 0]); ("BMI", [int 20; int 30])]
  = (pd.nrows [("HighBP", [int 1; int 0; int 1]); ("BMI", [int 20; int 30; int 20])]
     - length [[int 1; int 20]])%nat.
Proof.
  apply (proj1 (proj2 (proj2 deduplication_keeps_first_occurrences)) pandas2
           [("HighBP", [int 1; int 0; int 1]); ("BMI", [int 20; int 30; int 20])]
           [("HighBP", [int 1; int 0]); ("BMI", [int 20; int 30])]
           [[int 1; int 20]; [int 0; int 30]]
           [[int 1; int 20]]).
  - vm_compute; reflexivity.
  - repeat constructor.
  - repeat constructor.
  - reflexivity.
  - simpl; split; [| split; [| exact I]].
    + intros x [<- | []]; reflexivity.
    + intros x [].
  - intros d [<- | []].
    exists [int 1; int 20]; split; [left; reflexivity | reflexivity].
Defined.

(** C8, counterexample to the claim as stated.  The first row of a
    duplicate-free table of three rows is appended again; the first
    imputation gives the missing BMI the median 20, which makes the second
    row equal to the first, and the output has two rows, not three.  And
    two rows that differ in Smoker only, 2 against 3, are both kept by the
    deduplication and come out equal. *)
Lemma imputed_rows_are_merged :
  pd.rows [("BMI", [int 20; NaN; int 10; int 20]);
           ("HighBP", [int 1; int 1; int 0; int 1])]
  = [[int 20; int 1]; [NaN; int 1]; [int 10; int 0]] ++ [[int 20; int 1]] /\
  distinct_rows [[int 20; int 1]; [NaN; int 1]; [int 10; int 0]] /\
  run [("BMI", [int 20; NaN; int 10; int 20]);
       ("HighBP", [int 1; int 1; int 0; int 1])]
  = Ok [("BMI", [int 20; int 10]); ("HighBP", [int 1; int 0])] /\
  pd.nrows [("BMI", [int 20; int 10]); ("HighBP", [int 1; int 0])]
  <> (pd.nrows [("BMI", [int 20; NaN; int 10; int 20]);
                ("HighBP", [int 1; int 1; int 0; int 1])]
      - length [[int 20; int 1]])%nat /\
  run [("Smoker", [int 2; int 3; int 2])] = Ok [("Smoker", [int 1; int 1])] /\
  ~ distinct_rows (pd.rows [("Smoker", [int 1; int 1])]).
Proof.
  split; [reflexivity |].
  split.
  { simpl; split; [| split; [| split; [| exact I]]].
    - intros x [<- | [<- | []]]; reflexivity.
    - intros x [<- | []]; reflexivity.
    - intros x []. }
  split; [vm_compute; reflexivity |].
  split; [simpl; lia |].
  split; [vm_compute; reflexivity |].
  simpl; intros [H _].
  specialize (H [int 1] (or_introl eq_refl)); discriminate H.
Qed.

(** ** Column labels *)

Lemma lstrip_head (s : string) :
  lstrip s = EmptyString \/
  exists a s', lstrip s = String a s' /\ is_space a = false.
Proof.
  induction s as [| a s IH]; simpl; [left; reflexivity |].
  destruct (is_space a) eqn:E; [exact IH |].
  right; exists a, s; split; [reflexivity | exact E].
Qed.

Lemma rstrip_head (a : ascii) (s : string) :
  is_space a = false -> exists s', rstrip (String a s) = String a s'.
Proof.
  intros E; simpl.
  destruct (rstrip s); [rewrite E |]; eexists; reflexivity.
Qed.

Lemma rstrip_idempotent (s : string) : rstrip (rstrip s) = rstrip s.
Proof.
  induction s as [| a s IH]; simpl; [reflexivity |].
  destruct (rstrip s) as [| b r] eqn:E.
  - destruct (is_space a) eqn:Ea; simpl; [reflexivity |].
    rewrite Ea; reflexivity.
  - simpl in IH |- *.
    destruct (match rstrip r with
              | EmptyString => if is_space b then EmptyString else String b EmptyString
              | String a0 s0 => String b (String a0 s0)
              end) eqn:E'; [discriminate IH |].
    rewrite IH; reflexivity.
Qed.

Lemma lstrip_fixed (a : ascii) (s : string) :
  is_space a = false -> lstrip (String a s) = String a s.
Proof. intros E; simpl; rewrite E; reflexivity. Qed.

Lemma strip_stripped (s : string) :
  lstrip (strip s) = strip s /\ rstrip (strip s) = strip s.
Proof.
  unfold strip; split; [| apply rstrip_idempotent].
  destruct (lstrip_head s) as [-> | [a [s' [-> Ea]]]]; [reflexivity |].
  destruct (rstrip_head a s' Ea) as [r ->].
  apply lstrip_fixed; exact Ea.
Qed.

Lemma space_is_space (a : ascii) : Ascii.eqb a " " = true -> is_space a = true.
Proof. intros H; apply Ascii.eqb_eq in H; subst a; reflexivity. Qed.

Lemma replace_space_kept (a : ascii) :
  is_space a = false -> (if Ascii.eqb a " " then "_"%char else a) = a.
Proof.
  intros H; destruct (Ascii.eqb a " ") eqn:E; [| reflexivity].
  apply space_is_space in E; congruence.
Qed.

Lemma replace_space_idempotent (s : string) :
  replace_space (replace_space s) = replace_space s.
Proof.
  induction s as [| a s IH]; simpl; [reflexivity |].
  rewrite IH; f_equal.
  destruct (Ascii.eqb a " ") eqn:E; [reflexivity | rewrite E; reflexivity].
Qed.

Lemma lstrip_replace_space (s : string) :
  lstrip s = s -> lstrip (replace_space s) = replace_space s.
Proof.
  destruct s as [| a s]; simpl; [reflexivity |].
  destruct (is_space a) eqn:E.
  - intros H.
    assert (L : forall t, (String.length (lstrip t) <= String.length t)%nat).
    { induction t as [| b t IHt]; simpl; [lia |].
      destruct (is_space b); simpl; lia. }
    specialize (L s); rewrite H in L; simpl in L; lia.
  - intros _; rewrite (replace_space_kept a E), E; reflexivity.
Qed.

Lemma rstrip_replace_space (s : string) :
  rstrip s = s -> rstrip (replace_space s) = replace_space s.
Proof.
  induction s as [| a s IH]; simpl; [reflexivity |].
  destruct (rstrip s) as [| b r] eqn:E.
  - destruct (is_space a) eqn:Ea; [discriminate |].
    intros H; injection H as <-; simpl.
    rewrite (replace_space_kept a Ea), Ea; reflexivity.
  - intros H; injection H as H.
    rewrite <- H in IH |- *; specialize (IH eq_refl).
    rewrite IH; simpl; reflexivity.
Qed.

Lemma canonical_label_idempotent (c : string) :
  canonical_label (canonical_label c) = canonical_label c.
Proof.
  unfold canonical_label.
  destruct (strip_stripped c) as [Hl Hr].
  assert (E : strip (replace_space (strip c)) = replace_space (strip c)).
  { unfold strip at 1.
    rewrite (lstrip_replace_space _ Hl).
    apply rstrip_replace_space; exact Hr. }
  rewrite E; apply replace_space_idempotent.
Qed.

Lemma rename_columns_idempotent (df : DataFrame) :
  rename_columns (rename_columns df) = rename_columns df.
Proof.
  unfold rename_columns; rewrite map_map.
  apply map_ext; intros [c s]; rewrite canonical_label_idempotent; reflexivity.
Qed.

(** ** Tables without duplicate rows *)

Lemma duplicated_from_distinct (seen rs : list pd.row) :
  distinct_rows rs ->
  (forall x, In x rs -> existsb (pd.row_eqb x) seen = false) ->
  pd.duplicated_from seen rs = repeat false (length rs).
Proof.
  revert seen; induction rs as [| r rs IH]; intros seen Hd Hs; [reflexivity |].
  destruct Hd as [Hr Hd]; simpl.
  rewrite (Hs r (or_introl eq_refl)); f_equal.
  apply IH; [exact Hd |].
  intros x Hx; simpl.
  rewrite (Hr x Hx), (Hs x (or_intror Hx)); reflexivity.
Qed.

Lemma drop_none {A : Type} (l : list A) :
  pd.drop (repeat false (length l)) l = l.
Proof. induction l as [| a l IH]; simpl; congruence. Qed.

Lemma drop_duplicates_distinct (df : DataFrame) :
  rectangular df -> distinct_rows (pd.rows df) -> pd.drop_duplicates df = df.
Proof.
  intros Hr Hd; unfold pd.drop_duplicates, pd.duplicated.
  rewrite (duplicated_from_distinct [] _ Hd) by reflexivity.
  rewrite rows_length.
  transitivity (map (fun x => x) df); [| apply map_id].
  apply map_ext_Forall.
  eapply Forall_impl; [| exact Hr].
  intros [c s] Hs; simpl in Hs; rewrite <- Hs, drop_none; reflexivity.
Qed.

Lemma row_eqb_Forall2 (r r' : pd.row) :
  Forall2 (fun a b => cell_eqb a b = true) r r' -> pd.row_eqb r r' = true.
Proof.
  induction 1 as [| a b r r' Hab _ IH]; simpl; [reflexivity |].
  rewrite Hab, IH; reflexivity.
Qed.

Lemma transpose_equiv (n : nat) (cols cols' : list Series) :
  Forall2 (Forall2 (fun a b => cell_eqb a b = true)) cols cols' ->
  Forall2 (fun r r' => pd.row_eqb r r' = true)
          (pd.transpose n cols) (pd.transpose n cols').
Proof.
  revert cols cols'; induction n as [| n IH]; intros cols cols' H; simpl;
    constructor.
  - apply row_eqb_Forall2.
    induction H as [| s s' l l' Hs _ IHl]; simpl; constructor; [| exact IHl].
    destruct Hs; simpl; [reflexivity | assumption].
  - apply IH.
    induction H as [| s s' l l' Hs _ IHl]; simpl; constructor; [| exact IHl].
    destruct Hs; simpl; [constructor | assumption].
Qed.

Lemma Forall2_In_r {A B : Type} (R : A -> B -> Prop) (l : list A) (l' : list B)
    (y : B) :
  Forall2 R l l' -> In y l' -> exists x, In x l /\ R x y.
Proof.
  induction 1 as [| a b l l' Hab _ IH]; simpl; [tauto |].
  intros [<- | Hy].
  - exists a; auto.
  - destruct (IH Hy) as [x [Hx Hxy]]; exists x; auto.
Qed.

Lemma distinct_rows_equiv (rs rs' : list pd.row) :
  Forall2 (fun r r' => pd.row_eqb r r' = true) rs rs' ->
  distinct_rows rs -> distinct_rows rs'.
Proof.
  induction 1 as [| r r' rs rs' Hr Hrs IH]; simpl; [tauto |].
  intros [Hx Hd]; split; [| apply IH; exact Hd].
  intros x' Hx'.
  destruct (Forall2_In_r _ _ _ _ Hrs Hx') as [x [Hin Hxx']].
  destruct (pd.row_eqb x' r') eqn:E; [| reflexivity].
  rewrite <- (Hx x Hin); symmetry.
  apply row_eqb_trans with (r2 := x'); [exact Hxx' |].
  apply row_eqb_trans with (r2 := r'); [exact E |].
  rewrite row_eqb_sym; exact Hr.
Qed.

(** ** Clean tables *)

Lemma Qtrunc_whole (q : Q) (z : Z) : q == inject_Z z -> pd.Qtrunc q = z.
Proof.
  destruct q as [n d]; unfold Qeq, pd.Qtrunc; simpl.
  rewrite Z.mul_1_r; intros ->.
  apply Z.quot_mul; discriminate.
Qed.

Lemma truncate_idempotent (v : cell) : pd.truncate (pd.truncate v) = pd.truncate v.
Proof.
  destruct v; simpl; try reflexivity.
  unfold int; rewrite Qtrunc_inject_Z; reflexivity.
Qed.

Lemma in_expected_range_intro (lo hi : Q) (s : Series) :
  Forall (in_range lo hi) s -> in_expected_range lo hi s = true.
Proof.
  intros H; unfold in_expected_range, dtype_in_int64_float64, dtype_of.
  rewrite (nums_no_text s (in_range_nums _ _ _ H)).
  apply andb_true_iff; split; [destruct (forallb is_integral s); reflexivity |].
  unfold pd.all, pd.between; apply forallb_Forall, Forall_map.
  eapply Forall_impl; [| exact H].
  intros v [q [-> [H1 H2]]].
  apply andb_true_iff; split; apply Qle_bool_iff; assumption.
Qed.

Section Clean.

Context {P : Pandas}.

Lemma Forall_and_l {A : Type} (Q1 Q2 : A -> Prop) (l : list A) :
  Forall (fun v => Q1 v /\ Q2 v) l -> Forall Q1 l.
Proof. apply Forall_impl; intros v [H _]; exact H. Qed.

Lemma handle_days_clean (s : Series) :
  Forall (in_range 0 30) s -> handle_days s = Ok (map pd.truncate s).
Proof.
  intros Hr; pose proof (in_range_nums _ _ _ Hr) as Hn.
  unfold handle_days.
  rewrite (median_no_text s (nums_no_text s Hn)); simpl.
  rewrite (to_numeric_coerce_id s (nums_no_text s Hn)).
  rewrite (fillna_no_null _ s (nums_no_null s Hn)).
  rewrite (clip_in_range _ _ _ Hr).
  apply astype_int_nums; exact Hn.
Qed.

Lemma truncate_nums (s : Series) :
  forallb pd.is_num s = true -> forallb pd.is_num (map pd.truncate s) = true.
Proof.
  rewrite !forallb_Forall; intros H; apply Forall_map.
  eapply Forall_impl; [| exact H].
  intros [| q | t]; simpl; auto.
Qed.

(** On a clean column the rule of the column is [settle]. *)
Lemma column_rule_clean (c : string) (s : Series) :
  clean_column c s -> column_rule c s = Ok (settle c s).
Proof.
  intros [Hn [Hb [Hg [He [Ha [Hi Hd]]]]]].
  destruct (mem c binary_cols) eqn:Eb.
  { rewrite (column_rule_binary c s Eb); unfold settle; rewrite Eb; reflexivity. }
  destruct (String.eqb_spec c "GenHlth") as [-> | Ng].
  { apply Forall_and_l in Hg; [| reflexivity].
    unfold column_rule.
    change (column_handler "GenHlth" s) with (handle_GenHlth s).
    change (settle "GenHlth" s) with s.
    unfold handle_GenHlth.
    rewrite (in_expected_range_intro _ _ _ Hg); simpl.
    rewrite (clip_in_range _ _ _ Hg).
    apply enforce_numeric_nums; exact Hn. }
  destruct (String.eqb_spec c "Education") as [-> | Ne].
  { apply Forall_and_l in He; [| reflexivity].
    unfold column_rule.
    change (column_handler "Education" s) with (handle_Education s).
    change (settle "Education" s) with s.
    unfold handle_Education.
    rewrite (in_expected_range_intro _ _ _ He); simpl.
    rewrite (clip_in_range _ _ _ He).
    apply enforce_numeric_nums; exact Hn. }
  destruct (String.eqb_spec c "Age") as [-> | Na].
  { apply Forall_and_l in Ha; [| reflexivity].
    unfold column_rule.
    change (column_handler "Age" s) with (handle_Age s).
    change (settle "Age" s) with s.
    unfold handle_Age.
    rewrite (in_expected_range_intro _ _ _ Ha); simpl.
    rewrite (to_numeric_id s (nums_no_text s Hn)); simpl.
    apply enforce_numeric_nums; exact Hn. }
  destruct (String.eqb_spec c "Income") as [-> | Ni].
  { apply Forall_and_l in Hi; [| reflexivity].
    unfold column_rule.
    change (column_handler "Income" s) with (handle_Income s).
    change (settle "Income" s) with s.
    unfold handle_Income.
    rewrite (in_expected_range_intro _ _ _ Hi); simpl.
    rewrite (to_numeric_id s (nums_no_text s Hn)); simpl.
    apply enforce_numeric_nums; exact Hn. }
  destruct (String.eqb_spec c "MentHlth") as [-> | Nm].
  { apply Forall_and_l in Hd; [| left; reflexivity].
    unfold column_rule.
    change (column_handler "MentHlth" s) with (handle_days s).
    change (settle "MentHlth" s) with (map pd.truncate s).
    rewrite (handle_days_clean s Hd); simpl.
    apply enforce_numeric_nums, truncate_nums; exact Hn. }
  destruct (String.eqb_spec c "PhysHlth") as [-> | Np].
  { apply Forall_and_l in Hd; [| right; reflexivity].
    unfold column_rule.
    change (column_handler "PhysHlth" s) with (handle_days s).
    change (settle "PhysHlth" s) with (map pd.truncate s).
    rewrite (handle_days_clean s Hd); simpl.
    apply enforce_numeric_nums, truncate_nums; exact Hn. }
  unfold column_rule, column_handler, settle; rewrite Eb.
  rewrite (proj2 (String.eqb_neq c "GenHlth") Ng),
          (proj2 (String.eqb_neq c "Education") Ne),
          (proj2 (String.eqb_neq c "Age") Na),
          (proj2 (String.eqb_neq c "Income") Ni),
          (proj2 (String.eqb_neq c "MentHlth") Nm),
          (proj2 (String.eqb_neq c "PhysHlth") Np); simpl.
  apply enforce_numeric_nums; exact Hn.
Qed.

Lemma binary_value_of_bit (v : cell) :
  bit v -> bit (binary_value v) /\ cell_eqb v (binary_value v) = true.
Proof.
  intros [q [-> Hq]]; unfold binary_value; simpl.
  destruct Hq as [Hq | Hq].
  - rewrite (Qle_bool_false 1 q) by (rewrite Hq; reflexivity).
    split; [exists 0; split; [reflexivity | left; reflexivity] |].
    simpl; apply Qeq_bool_iff; exact Hq.
  - rewrite (Qle_bool_true 1 q) by (rewrite Hq; apply Qle_refl).
    split; [exists 1; split; [reflexivity | right; reflexivity] |].
    simpl; apply Qeq_bool_iff; exact Hq.
Qed.

Lemma binary_value_idempotent (v : cell) :
  binary_value (binary_value v) = binary_value v.
Proof. destruct (binary_value_bit v) as [-> | ->]; reflexivity. Qed.

Lemma truncate_of_whole (lo hi : Q) (v : cell) :
  in_range lo hi v /\ whole v ->
  (in_range lo hi (pd.truncate v) /\ whole (pd.truncate v)) /\
  cell_eqb v (pd.truncate v) = true.
Proof.
  intros [[q [-> [H1 H2]]] [q' [z [E Hz]]]]; injection E as <-.
  simpl; rewrite (Qtrunc_whole q z Hz).
  repeat split.
  - exists (inject_Z z); split; [reflexivity | rewrite <- Hz; split; assumption].
  - exists (inject_Z z), z; split; reflexivity.
  - apply Qeq_bool_iff; exact Hz.
Qed.

Lemma not_binary (c : string) :
  mem c binary_cols = true ->
  c <> "GenHlth" /\ c <> "Education" /\ c <> "Age" /\ c <> "Income" /\
  c <> "MentHlth" /\ c <> "PhysHlth".
Proof.
  intros H; repeat split; intros ->; discriminate H.
Qed.

Lemma cells_equiv_refl (s : Series) :
  Forall2 (fun a b => cell_eqb a b = true) s s.
Proof. induction s; constructor; [apply cell_eqb_refl | assumption]. Qed.

Lemma Forall2_map_r {A B : Type} (R : A -> B -> Prop) (f : A -> B) (l : list A) :
  Forall (fun a => R a (f a)) l -> Forall2 R l (map f l).
Proof. induction 1; simpl; constructor; assumption. Qed.

(** [settle] keeps a clean column clean, changes no value, and settles. *)
Lemma settle_clean (c : string) (s : Series) :
  clean_column c s ->
  clean_column c (settle c s) /\
  Forall2 (fun a b => cell_eqb a b = true) s (settle c s) /\
  settle c (settle c s) = settle c s.
Proof.
  intros Hc; pose proof Hc as [Hn [Hb [Hg [He [Ha [Hi Hd]]]]]].
  unfold settle.
  destruct (mem c binary_cols) eqn:Eb.
  { destruct (not_binary c Eb) as [N1 [N2 [N3 [N4 [N5 N6]]]]].
    specialize (Hb eq_refl).
    split; [| split].
    - unfold clean_column; rewrite Eb.
      split; [apply binary_values_nums |].
      split; [intros _; apply Forall_map; eapply Forall_impl; [| exact Hb];
              intros v Hv; apply binary_value_of_bit; exact Hv |].
      repeat split; intros; tauto.
    - apply Forall2_map_r; eapply Forall_impl; [| exact Hb].
      intros v Hv; apply binary_value_of_bit; exact Hv.
    - rewrite map_map; apply map_ext; intros v; apply binary_value_idempotent. }
  destruct (String.eqb c "MentHlth" || String.eqb c "PhysHlth") eqn:Ed.
  { assert (Hc' : c = "MentHlth" \/ c = "PhysHlth").
    { apply orb_true_iff in Ed as [E | E]; apply String.eqb_eq in E; auto. }
    specialize (Hd Hc').
    assert (Hd' : Forall (fun v => in_range 0 30 (pd.truncate v) /\
                                   whole (pd.truncate v)) s).
    { eapply Forall_impl; [| exact Hd]; intros v Hv.
      apply (truncate_of_whole 0 30 v Hv). }
    split; [| split].
    - unfold clean_column; rewrite Eb.
      split; [apply truncate_nums; exact Hn |].
      split; [discriminate |].
      repeat split; try (intros ->; destruct Hc' as [E | E]; discriminate E).
      intros _; apply Forall_map; exact Hd'.
    - apply Forall2_map_r; eapply Forall_impl; [| exact Hd].
      intros v Hv; apply (truncate_of_whole 0 30 v Hv).
    - rewrite map_map; apply map_ext; intros v; apply truncate_idempotent. }
  split; [exact Hc | split; [apply cells_equiv_refl | reflexivity]].
Qed.

End Clean.

Section Idempotence.

Context {P : Pandas}.

Lemma continuous_not_coded (c : string) :
  mem c continuous_cols = true -> mem c coded_cols = false.
Proof.
  unfold continuous_cols; cbn [mem existsb]; intros H.
  repeat (apply orb_true_iff in H as [H | H];
          [apply String.eqb_eq in H; subst c; reflexivity |]).
  discriminate H.
Qed.

Lemma nums_nonempty_notnull (s : Series) :
  forallb pd.is_num s = true -> s <> [] -> existsb notnull s = true.
Proof.
  destruct s as [| v s]; [congruence |]; simpl; intros H _.
  apply andb_true_iff in H as [Hv _].
  destruct v; simpl in *; try discriminate; reflexivity.
Qed.

Lemma impute_column_clean (c : string) (s : Series) :
  forallb pd.is_num s = true ->
  (mem c coded_cols = true -> s <> []) ->
  impute_column c s = Ok s.
Proof.
  intros Hn Hne; unfold impute_column.
  destruct (mem c continuous_cols).
  { rewrite (median_no_text s (nums_no_text s Hn)); simpl.
    rewrite (fillna_no_null _ s (nums_no_null s Hn)); reflexivity. }
  destruct (mem c coded_cols); [| reflexivity].
  destruct (first_mode_Ok s (nums_nonempty_notnull s Hn (Hne eq_refl))) as [m ->].
  simpl; rewrite (fillna_no_null _ s (nums_no_null s Hn)); reflexivity.
Qed.

Lemma impute_column_coded_nonempty (c : string) (s s1 : Series) :
  impute_column c s = Ok s1 -> mem c coded_cols = true -> s <> [].
Proof.
  unfold impute_column; intros H Hc.
  destruct (mem c continuous_cols) eqn:E.
  { apply continuous_not_coded in E; congruence. }
  rewrite Hc in H.
  apply bind_Ok_inv in H as [m [Hm _]].
  apply first_mode_inv in Hm as [Hin _].
  intros ->; exact Hin.
Qed.

Lemma Forall2_diag {A : Type} (R : A -> A -> Prop) (l : list A) :
  Forall (fun x => R x x) l -> Forall2 R l l.
Proof. induction 1; constructor; assumption. Qed.

Lemma Forall2_Forall_l {A B : Type} (R : A -> B -> Prop) (Q : A -> Prop)
    (l : list A) (l' : list B) :
  (forall x y, R x y -> Q x) -> Forall2 R l l' -> Forall Q l.
Proof. intros HR; induction 1; constructor; eauto. Qed.

Lemma Forall_and {A : Type} (Q1 Q2 : A -> Prop) (l : list A) :
  Forall Q1 l -> Forall Q2 l -> Forall (fun x => Q1 x /\ Q2 x) l.
Proof. induction 1; intros H2; inversion H2; constructor; auto. Qed.

Lemma Forall2_map_both {A B C : Type} (R : B -> C -> Prop) (f : A -> B)
    (g : A -> C) (l : list A) :
  Forall (fun x => R (f x) (g x)) l -> Forall2 R (map f l) (map g l).
Proof. induction 1; simpl; constructor; assumption. Qed.

(** A clean table with canonical labels, whose coded columns are not
    empty, is returned settled. *)
Lemma preprocess_clean (T : DataFrame) :
  Forall (fun p => canonical_label (fst p) = fst p) T ->
  rectangular T ->
  Forall (fun p => clean_column (fst p) (snd p)) T ->
  distinct_rows (pd.rows T) ->
  Forall (fun p => mem (fst p) coded_cols = true -> snd p <> []) T ->
  preprocess_survey_data T = Ok (settle_table T).
Proof.
  intros Hl Hr Hc Hd Hne.
  unfold preprocess_survey_data, impute_and_deduplicate.
  assert (E1 : rename_columns T = T).
  { unfold rename_columns.
    transitivity (map (fun x => x) T); [| apply map_id].
    apply map_ext_Forall; eapply Forall_impl; [| exact Hl].
    intros [c s] H; simpl in H; rewrite H; reflexivity. }
  assert (E2 : for_each_column impute_column T = Ok T).
  { apply for_each_column_Ok, Forall2_diag.
    eapply Forall_impl; [| exact (Forall_and _ _ _ Hc Hne)].
    intros [c s] [[Hn _] Hs]; split; [reflexivity |]; simpl in *.
    apply impute_column_clean; assumption. }
  rewrite E1, E2; simpl.
  rewrite (drop_duplicates_distinct T Hr Hd).
  apply encode_and_enforce_columns, for_each_column_Ok.
  unfold settle_table; apply Forall2_map_r.
  eapply Forall_impl; [| exact Hc].
  intros [c s] H; split; [reflexivity |]; simpl in *.
  apply column_rule_clean; exact H.
Qed.

Lemma settle_length (c : string) (s : Series) :
  length (settle c s) = length s.
Proof.
  unfold settle; destruct (mem c binary_cols); [apply length_map |].
  destruct (_ || _); [apply length_map | reflexivity].
Qed.

Lemma settle_table_nrows (T : DataFrame) :
  pd.nrows (settle_table T) = pd.nrows T.
Proof. destruct T as [| [c s] T]; simpl; [reflexivity | apply settle_length]. Qed.

Lemma settle_table_clean (T : DataFrame) :
  Forall (fun p => canonical_label (fst p) = fst p) T ->
  rectangular T ->
  Forall (fun p => clean_column (fst p) (snd p)) T ->
  distinct_rows (pd.rows T) ->
  Forall (fun p => mem (fst p) coded_cols = true -> snd p <> []) T ->
  preprocess_survey_data (settle_table T) = Ok (settle_table T).
Proof.
  intros Hl Hr Hc Hd Hne.
  assert (Hs : Forall (fun p =>
                 clean_column (fst p) (settle (fst p) (snd p)) /\
                 Forall2 (fun a b => cell_eqb a b = true)
                         (snd p) (settle (fst p) (snd p)) /\
                 settle (fst p) (settle (fst p) (snd p)) = settle (fst p) (snd p)) T).
  { eapply Forall_impl; [| exact Hc]; intros [c s]; apply settle_clean. }
  assert (E : settle_table (settle_table T) = settle_table T).
  { unfold settle_table; rewrite map_map; apply map_ext_Forall.
    eapply Forall_impl; [| exact Hs].
    intros [c s] [_ [_ Hi]]; simpl in *; rewrite Hi; reflexivity. }
  rewrite <- E at 2.
  apply preprocess_clean.
  - unfold settle_table; apply Forall_map.
    eapply Forall_impl; [| exact Hl]; intros [c s] Hx; exact Hx.
  - unfold rectangular; rewrite settle_table_nrows.
    unfold settle_table; apply Forall_map.
    eapply Forall_impl; [| exact Hr].
    intros [c s] Hx; simpl in *; rewrite settle_length; exact Hx.
  - unfold settle_table; apply Forall_map.
    eapply Forall_impl; [| exact Hs]; intros [c s] [Hx _]; exact Hx.
  - eapply distinct_rows_equiv; [| exact Hd].
    unfold pd.rows; rewrite settle_table_nrows.
    apply transpose_equiv.
    unfold settle_table; rewrite map_map.
    apply Forall2_map_both.
    eapply Forall_impl; [| exact Hs]; intros [c s] [_ [Hx _]]; exact Hx.
  - unfold settle_table; apply Forall_map.
    eapply Forall_impl; [| exact Hne].
    intros [c s] Hx Hcoded; simpl in *.
    intros E0; apply (Hx Hcoded).
    apply length_zero_iff_nil; rewrite <- (settle_length c s), E0; reflexivity.
Qed.

Lemma preprocess_renamed (df : DataFrame) :
  preprocess_survey_data (rename_columns df) = preprocess_survey_data df.
Proof.
  unfold preprocess_survey_data, impute_and_deduplicate.
  rewrite rename_columns_idempotent; reflexivity.
Qed.

Lemma renamed_labels_canonical (df : DataFrame) :
  Forall (fun p => canonical_label (fst p) = fst p) (rename_columns df).
Proof.
  unfold rename_columns; apply Forall_map, Forall_forall.
  intros [c s] _; apply canonical_label_idempotent.
Qed.

(** C9 (idempotence on clean input).  Let a table satisfy the invariants
    of section 3: every column fully numeric, binary columns in {0,1},
    GenHlth, Education, Age and Income whole and within their ranges,
    MentHlth and PhysHlth whole and within [0,30], no duplicate rows, one
    entry per row in every column.  Then applying the engine twice gives
    what applying it once gives: the same table, or the same exception.
    The engine does return a table, and returns it again, as soon as the
    table has rows and its labels stay distinct under line 17. *)
Theorem idempotent_on_clean_tables (df : DataFrame) :
  clean df ->
  (df' <- preprocess_survey_data df ;; preprocess_survey_data df')
  = preprocess_survey_data df /\
  (NoDup (map fst (rename_columns df)) ->
   (0 < pd.nrows df)%nat ->
   exists df',
     preprocess_survey_data df = Ok df' /\
     preprocess_survey_data df' = Ok df').
Proof.
  intros [Hr [Hc Hd]].
  pose proof (renamed_labels_canonical df) as Hl.
  split.
  - destruct (preprocess_survey_data df) as [df' | e] eqn:H; [| reflexivity].
    cbn [bind].
    assert (Hne : Forall (fun p => mem (fst p) coded_cols = true -> snd p <> [])
                         (rename_columns df)).
    { unfold preprocess_survey_data, impute_and_deduplicate in H.
      apply bind_Ok_inv in H as [df1 [H _]].
      apply bind_Ok_inv in H as [df0 [H _]].
      apply for_each_column_Ok in H.
      eapply Forall2_Forall_l; [| exact H].
      intros [c s] [c' s'] [_ Hs]; simpl in *.
      eapply impute_column_coded_nonempty; exact Hs. }
    rewrite <- preprocess_renamed in H.
    rewrite (preprocess_clean _ Hl Hr Hc Hd Hne) in H; injection H as <-.
    apply settle_table_clean; assumption.
  - intros _ Hrows.
    assert (Hne : Forall (fun p => mem (fst p) coded_cols = true -> snd p <> [])
                         (rename_columns df)).
    { eapply Forall_impl; [| exact Hr].
      intros [c s] Hs _ E; simpl in Hs, E; subst s.
      rewrite rename_columns_nrows in Hs; simpl in Hs; lia. }
    exists (settle_table (rename_columns df)); split.
    + rewrite <- preprocess_renamed; apply preprocess_clean; assumption.
    + apply settle_table_clean; assumption.
Qed.

End Idempotence.

Lemma whole_int (z : Z) : whole (int z).
Proof. exists (inject_Z z), z; split; reflexivity. Qed.

Lemma bit_0 : bit (int 0).
Proof. exists 0; split; [reflexivity | left; reflexivity]. Qed.

Lemma bit_1 : bit (int 1).
Proof. exists 1; split; [reflexivity | right; reflexivity]. Qed.

(** C9, witness: a clean table with a padded label, a binary column, an
    ordinal column and a day count. *)
Lemma idempotent_on_clean_tables_witness :
  (df' <- @preprocess_survey_data pandas2
            [(" HighBP", [int 1; int 0]); ("GenHlth ", [int 3; int 5]);
             ("MentHlth", [int 30; int 0])] ;;
   @preprocess_survey_data pandas2 df')
  = @preprocess_survey_data pandas2
      [(" HighBP", [int 1; int 0]); ("GenHlth ", [int 3; int 5]);
       ("MentHlth", [int 30; int 0])].
Proof.
  refine (proj1 (@idempotent_on_clean_tables pandas2
                   [(" HighBP", [int 1; int 0]); ("GenHlth ", [int 3; int 5]);
                    ("MentHlth", [int 30; int 0])] _)).
  split; [repeat constructor | split].
  - apply Forall_cons; [| apply Forall_cons; [| apply Forall_cons; [| apply Forall_nil]]];
      unfold clean_column; cbn [fst snd];
      (split; [reflexivity |]);
      repeat split;
      try (intros H; discriminate H);
      try (intros [H | H]; discriminate H);
      intros _.
    + apply Forall_cons; [apply bit_1 | apply Forall_cons; [apply bit_0 | apply Forall_nil]].
    + apply Forall_cons; [| apply Forall_cons; [| apply Forall_nil]];
        (split; [| apply whole_int]).
      * apply (in_range_int 1 5 3); lia.
      * apply (in_range_int 1 5 5); lia.
    + apply Forall_cons; [| apply Forall_cons; [| apply Forall_nil]];
        (split; [| apply whole_int]).
      * apply (in_range_int 0 30 30); lia.
      * apply (in_range_int 0 30 0); lia.
  - simpl; split; [| split; [| exact I]].
    + intros x [<- | []]; reflexivity.
    + intros x [].
Defined.

(** ** When the engine returns *)

(** *** Every value survives the deduplication, up to equality *)

Lemma rows_survive (seen rs : list pd.row) (r : pd.row) :
  In r rs ->
  (exists x, In x seen /\ pd.row_eqb r x = true) \/
  (exists r', In r' (pd.drop (pd.duplicated_from seen rs) rs) /\
              pd.row_eqb r r' = true).
Proof.
  revert seen; induction rs as [| a rs IH]; intros seen; [intros []|].
  cbn [pd.duplicated_from pd.drop].
  intros [-> | Hin].
  - destruct (existsb (pd.row_eqb r) seen) eqn:E.
    + left; apply existsb_exists in E; exact E.
    + right; exists r; split; [left; reflexivity | apply row_eqb_refl].
  - destruct (IH (a :: seen) Hin) as [[x [[<- | Hx] Hrx]] | [r' [Hr' Hrr']]].
    + destruct (existsb (pd.row_eqb a) seen) eqn:E.
      * left; apply existsb_exists in E as [y [Hy Hay]].
        exists y; split; [exact Hy | eapply row_eqb_trans; eassumption].
      * right; exists a; split; [left; reflexivity | exact Hrx].
    + left; exists x; auto.
    + right; exists r'; split; [| exact Hrr'].
      destruct (existsb (pd.row_eqb a) seen); [exact Hr' | right; exact Hr'].
Qed.

Lemma row_eqb_nth (r r' : pd.row) (k : nat) :
  pd.row_eqb r r' = true -> cell_eqb (nth k r NaN) (nth k r' NaN) = true.
Proof.
  revert r' k; induction r as [| a r IH]; intros [| b r'] k; simpl;
    try discriminate.
  - intros _; destruct k; reflexivity.
  - intros H; apply andb_true_iff in H as [Hab Hr].
    destruct k as [| k]; [exact Hab | apply IH; exact Hr].
Qed.

Lemma transpose_column (n : nat) (cols : list Series) (k : nat) (s : Series) :
  Forall (fun s => length s = n) cols ->
  nth_error cols k = Some s ->
  s = map (fun r => nth k r NaN) (pd.transpose n cols).
Proof.
  revert cols s; induction n as [| n IH]; intros cols s Hc Hk.
  - rewrite Forall_forall in Hc.
    specialize (Hc s (nth_error_In _ _ Hk)).
    apply length_zero_iff_nil in Hc; subst; reflexivity.
  - assert (Hs : length s = S n).
    { rewrite Forall_forall in Hc; apply Hc; eapply nth_error_In; exact Hk. }
    destruct s as [| x s]; [discriminate Hs |].
    cbn [pd.transpose map]; f_equal.
    + change (nth k (map (hd NaN) cols) NaN)
        with (nth k (map (hd NaN) cols) (hd NaN (@nil cell))).
      rewrite (map_nth (hd NaN)).
      erewrite nth_error_nth by exact Hk; reflexivity.
    + apply IH.
      * apply Forall_map; eapply Forall_impl; [| exact Hc].
        intros [| y t]; simpl; [discriminate | congruence].
      * unfold Series in *; rewrite nth_error_map, Hk; reflexivity.
Qed.

Lemma value_survives (df : DataFrame) (c : string) (s : Series) (v : cell) :
  rectangular df -> In (c, s) df -> In v s ->
  exists v', In v' (pd.drop (pd.duplicated df) s) /\ cell_eqb v v' = true.
Proof.
  intros Hr Hin Hv.
  assert (Hs : In s (map snd df)) by (apply (in_map snd) in Hin; exact Hin).
  apply In_nth_error in Hs as [k Hk].
  assert (Hc : Forall (fun s => length s = pd.nrows df) (map snd df)).
  { apply Forall_map; exact Hr. }
  pose proof (transpose_column _ _ k s Hc Hk) as Es.
  fold (pd.rows df) in Es.
  rewrite Es in Hv; apply in_map_iff in Hv as [r [<- Hrin]].
  unfold pd.duplicated.
  destruct (rows_survive [] (pd.rows df) r Hrin) as [[x [[] _]] | [r' [Hr' Hrr']]].
  exists (nth k r' NaN); split; [| apply row_eqb_nth; exact Hrr'].
  rewrite Es, drop_map.
  apply (in_map (fun r0 : list cell => nth k r0 NaN)); exact Hr'.
Qed.

(** *** The first imputation *)

Lemma insert_length (q : Q) (l : list Q) :
  length (pd.insert q l) = S (length l).
Proof.
  induction l as [| x l IH]; simpl; [reflexivity |].
  destruct (Qle_bool q x); simpl; [reflexivity | rewrite IH; reflexivity].
Qed.

Lemma sort_length (l : list Q) : length (pd.sort l) = length l.
Proof.
  induction l as [| x l IH]; simpl; [reflexivity |].
  rewrite insert_length, IH; reflexivity.
Qed.

Lemma nanmedian_num (l : list Q) : l <> [] -> exists q, pd.nanmedian l = Num q.
Proof.
  intros Hl; unfold pd.nanmedian; rewrite sort_length.
  destruct l as [| x l]; [congruence |].
  cbn [length Nat.eqb].
  destruct (Nat.odd (S (length l))); eexists; reflexivity.
Qed.

Lemma numbers_nonempty (s : Series) :
  existsb pd.is_num s = true -> pd.numbers s <> [].
Proof.
  intros H; apply existsb_exists in H as [v [Hv Hn]].
  destruct v as [| q | t]; try discriminate Hn.
  intros E.
  assert (Hq : In q (pd.numbers s)).
  { unfold pd.numbers; apply in_flat_map; exists (Num q); split;
      [exact Hv | left; reflexivity]. }
  rewrite E in Hq; exact Hq.
Qed.

Lemma fillna_nums (m : cell) (s : Series) :
  pd.is_num m = true -> existsb is_text s = false ->
  forallb pd.is_num (pd.fillna m s) = true.
Proof.
  intros Hm Ht; apply existsb_false_Forall in Ht.
  apply forallb_Forall; unfold pd.fillna; apply Forall_map.
  eapply Forall_impl; [| exact Ht].
  intros [| q | t]; simpl; auto; discriminate.
Qed.

Lemma fillna_In (v m : cell) (s : Series) :
  In v s -> isnull v = false -> In v (pd.fillna m s).
Proof.
  intros Hv Hn; unfold pd.fillna; apply in_map_iff.
  exists v; rewrite Hn; auto.
Qed.

Lemma lookup_NaN_genhlth : pd.lookup genhlth_mapping NaN = None.
Proof. reflexivity. Qed.

Lemma lookup_NaN_education : pd.lookup education_mapping NaN = None.
Proof. reflexivity. Qed.

Section Accepts.

Context {P : Pandas}.

Lemma has_key_notnull (d : pd.dict) (s : Series) :
  pd.lookup d NaN = None -> has_key d s -> existsb notnull s = true.
Proof.
  intros Hd [v [k [Hv Hk]]]; apply existsb_exists; exists v; split; [exact Hv |].
  destruct v; [congruence | reflexivity | reflexivity].
Qed.

Lemma reaches_notnull (edge : Q) (s : Series) :
  reaches edge s -> existsb notnull s = true.
Proof.
  intros [v [q [Hv [Hq _]]]]; apply existsb_exists; exists v; split; [exact Hv |].
  destruct v; [discriminate Hq | reflexivity | reflexivity].
Qed.

Lemma within_filled (lo hi : Q) (m : cell) (s : Series) :
  In m s -> notnull m = true -> within lo hi s ->
  Forall (in_range lo hi) (pd.fillna m s).
Proof.
  intros Hm Hn [_ [_ Hw]].
  apply fillna_Forall; [| exact Hw].
  rewrite Forall_forall in Hw.
  destruct (Hw m Hm) as [-> | Hr]; [discriminate Hn | exact Hr].
Qed.

Lemma has_key_filled (d : pd.dict) (m : cell) (s : Series) :
  pd.lookup d NaN = None -> has_key d s -> has_key d (pd.fillna m s).
Proof.
  intros Hd [v [k [Hv Hk]]]; exists v, k; split; [| exact Hk].
  apply fillna_In; [exact Hv |].
  destruct v; [congruence | reflexivity | reflexivity].
Qed.

Lemma reaches_filled (edge : Q) (m : cell) (s : Series) :
  reaches edge s -> reaches edge (pd.fillna m s).
Proof.
  intros [v [q [Hv [Hq He]]]]; exists v, q; split; [| auto].
  apply fillna_In; [exact Hv |].
  destruct v; [discriminate Hq | reflexivity | reflexivity].
Qed.

Lemma mem_coded (c : string) :
  mem c coded_cols = mem c binary_cols || mem c ordinal_cols.
Proof. unfold mem, coded_cols; apply existsb_app. Qed.

Lemma mem_ordinal (c : string) :
  mem c ordinal_cols = true ->
  c = "GenHlth" \/ c = "Age" \/ c = "Education" \/ c = "Income".
Proof.
  unfold ordinal_cols; cbn [mem existsb]; intros H.
  repeat (apply orb_true_iff in H as [H | H];
          [apply String.eqb_eq in H; auto |]).
  discriminate H.
Qed.

(** The first imputation succeeds on a processable column and leaves it
    ready. *)
Lemma impute_processable (c : string) (s : Series) :
  processable c s -> exists s1, impute_column c s = Ok s1 /\ ready c s1.
Proof.
  intros [Ht [Hd [Hb [Hg [He [Ha Hi]]]]]]; unfold impute_column.
  destruct (mem c continuous_cols) eqn:Ec.
  { specialize (Ht eq_refl).
    rewrite (median_no_text s Ht); simpl.
    eexists; split; [reflexivity |].
    unfold ready; repeat split;
      try (intros ->; discriminate Ec).
    intros Hc; specialize (Hd Hc).
    destruct (nanmedian_num _ (numbers_nonempty s Hd)) as [q ->].
    apply fillna_nums; [reflexivity | exact Ht]. }
  destruct (mem c coded_cols) eqn:Ecoded.
  2:{ exists s; split; [reflexivity |].
      unfold ready; repeat split;
        try (intros ->; discriminate Ecoded).
      intros [-> | ->]; discriminate Ec. }
  assert (Hnn : existsb notnull s = true).
  { rewrite mem_coded in Ecoded; apply orb_true_iff in Ecoded as [E | E].
    - apply Hb; exact E.
    - apply mem_ordinal in E as [-> | [-> | [-> | ->]]].
      + destruct (Hg eq_refl) as [[_ [H _]] | H];
          [exact H | eapply has_key_notnull; [exact lookup_NaN_genhlth | exact H]].
      + destruct (Ha eq_refl) as [[_ [H _]] | H];
          [exact H | eapply reaches_notnull; exact H].
      + destruct (He eq_refl) as [[_ [H _]] | H];
          [exact H | eapply has_key_notnull; [exact lookup_NaN_education | exact H]].
      + destruct (Hi eq_refl) as [[_ [H _]] | H];
          [exact H | eapply reaches_notnull; exact H]. }
  destruct (first_mode_Ok s Hnn) as [m Hm]; rewrite Hm; simpl.
  destruct (first_mode_inv s m Hm) as [Hin Hmn].
  eexists; split; [reflexivity |].
  unfold ready; split; [intros [-> | ->]; discriminate Ec |].
  split; [| split; [| split]]; intros ->.
  - destruct (Hg eq_refl) as [H | H];
      [left; eapply within_filled; eassumption
      | right; apply has_key_filled; [reflexivity | exact H]].
  - destruct (He eq_refl) as [H | H];
      [left; eapply within_filled; eassumption
      | right; apply has_key_filled; [reflexivity | exact H]].
  - destruct (Ha eq_refl) as [H | H];
      [left; eapply within_filled; eassumption
      | right; apply reaches_filled; exact H].
  - destruct (Hi eq_refl) as [H | H];
      [left; eapply within_filled; eassumption
      | right; apply reaches_filled; exact H].
Qed.

End Accepts.

(** *** The deduplication and the column rules *)

Lemma clip_nums (lo hi : Q) (s : Series) :
  forallb pd.is_num s = true -> forallb pd.is_num (pd.clip lo hi s) = true.
Proof.
  rewrite !forallb_Forall; intros H; unfold pd.clip; apply Forall_map.
  eapply Forall_impl; [| exact H].
  intros [| q | t]; simpl; auto.
  destruct (Qltb q lo); [reflexivity |].
  destruct (Qltb hi q); reflexivity.
Qed.

(** A value at or above the first edge gets a label. *)
Lemma cut_value_above (e0 : Q) (es : list pd.edge) (labels : list Z) (x : Q) :
  length labels = S (length es) -> e0 <= x ->
  exists l, pd.cut_value (pd.Fin e0 :: es ++ [pd.Inf]) labels x = int l.
Proof.
  intros Hl He; unfold pd.cut_value, pd.searchsorted_right.
  cbn [filter pd.edge_leb pd.edge_eqb].
  rewrite (Qle_bool_true e0 x He).
  rewrite filter_app; cbn [filter pd.edge_leb length].
  rewrite length_app, Nat.add_0_r.
  set (k := length (filter (fun e => pd.edge_leb e x) es)).
  assert (Hk : (k <= length es)%nat) by apply filter_length_le.
  set (ids := if Qeq_bool e0 x then 1%nat else S k).
  assert (Hids : (1 <= ids <= S (length es))%nat).
  { unfold ids; destruct (Qeq_bool e0 x); lia. }
  rewrite length_app; cbn [length].
  destruct (ids =? S (length es + 1))%nat eqn:E1;
    [apply Nat.eqb_eq in E1; lia |].
  destruct (ids =? 0)%nat eqn:E2; [apply Nat.eqb_eq in E2; lia |].
  cbn [orb].
  destruct (nth_error labels (ids - 1)) as [l |] eqn:E3.
  - exists l; reflexivity.
  - apply nth_error_None in E3; lia.
Qed.

Section Stages.

Context {P : Pandas}.

Lemma coerce_congr (v v' : cell) (q : Q) :
  cell_eqb v v' = true -> coerce v = Num q ->
  exists q', coerce v' = Num q' /\ q == q'.
Proof.
  destruct v as [| p | t], v' as [| p' | t']; simpl; try discriminate.
  - intros H E; injection E as <-.
    exists p'; split; [reflexivity | apply Qeq_bool_iff; exact H].
  - intros H E; apply String.eqb_eq in H; subst t'.
    exists q; split; [exact E | reflexivity].
Qed.

Lemma has_key_survives (df : DataFrame) (c : string) (s : Series) (d : pd.dict) :
  rectangular df -> In (c, s) df -> has_key d s ->
  has_key d (pd.drop (pd.duplicated df) s).
Proof.
  intros Hr Hin [v [k [Hv Hk]]].
  destruct (value_survives df c s v Hr Hin Hv) as [v' [Hv' E]].
  exists v', k; split; [exact Hv' |].
  rewrite <- (lookup_congr d v v' E); exact Hk.
Qed.

Lemma reaches_survives (df : DataFrame) (c : string) (s : Series) (edge : Q) :
  rectangular df -> In (c, s) df -> reaches edge s ->
  reaches edge (pd.drop (pd.duplicated df) s).
Proof.
  intros Hr Hin [v [q [Hv [Hq He]]]].
  destruct (value_survives df c s v Hr Hin Hv) as [v' [Hv' E]].
  destruct (coerce_congr v v' q E Hq) as [q' [Hq' Hqq]].
  exists v', q'; split; [exact Hv' | split; [exact Hq' |]].
  rewrite <- Hqq; exact He.
Qed.

Lemma ready_survives (df : DataFrame) (c : string) (s : Series) :
  rectangular df -> In (c, s) df -> ready c s ->
  ready c (pd.drop (pd.duplicated df) s).
Proof.
  intros Hr Hin [Hd [Hg [He [Ha Hi]]]].
  unfold ready; split; [| split; [| split; [| split]]].
  - intros Hc; specialize (Hd Hc).
    apply forallb_Forall, drop_Forall, forallb_Forall; exact Hd.
  - intros Hc; destruct (Hg Hc) as [H | H];
      [left; apply drop_Forall; exact H
      | right; eapply has_key_survives; eassumption].
  - intros Hc; destruct (He Hc) as [H | H];
      [left; apply drop_Forall; exact H
      | right; eapply has_key_survives; eassumption].
  - intros Hc; destruct (Ha Hc) as [H | H];
      [left; apply drop_Forall; exact H
      | right; eapply reaches_survives; eassumption].
  - intros Hc; destruct (Hi Hc) as [H | H];
      [left; apply drop_Forall; exact H
      | right; eapply reaches_survives; eassumption].
Qed.

(** The final pass never raises on a column that is not coded. *)
Lemma enforce_numeric_other (c : string) (s : Series) :
  mem c binary_cols || mem c ["GenHlth"; "Age"; "Education"; "Income"] = false ->
  exists s', enforce_numeric c s = Ok s'.
Proof.
  intros Hc; unfold enforce_numeric; rewrite Hc.
  rewrite (median_no_text _ (to_numeric_coerce_no_text s)); simpl.
  destruct (pd.isnull_any _); eexists; reflexivity.
Qed.

(** The final pass on a coded column that holds no text and a value. *)
Lemma enforce_numeric_coded (c : string) (s : Series) :
  existsb is_text s = false -> existsb notnull s = true ->
  exists s', enforce_numeric c s = Ok s'.
Proof.
  intros Ht Hn; unfold enforce_numeric.
  rewrite (to_numeric_coerce_id s Ht).
  rewrite (median_no_text s Ht).
  destruct (first_mode_Ok s Hn) as [m ->]; simpl.
  destruct (pd.isnull_any s); [destruct (_ || _) |]; eexists; reflexivity.
Qed.

Lemma coded_ready (d : pd.dict) (lo hi : Q) (c : string) (s : Series) :
  Forall (in_range lo hi) s \/ has_key d s ->
  exists s',
    (s1 <- (s0 <- (if negb (in_expected_range lo hi s) then remap d s else Ok s) ;;
            Ok (pd.clip lo hi s0)) ;;
     enforce_numeric c s1) = Ok s'.
Proof.
  intros H.
  assert (Hpass : Forall (in_range lo hi) s ->
            exists s',
              (s1 <- (s0 <- Ok s ;; Ok (pd.clip lo hi s0)) ;;
               enforce_numeric c s1) = Ok s').
  { intros Hr; simpl; rewrite (clip_in_range _ _ _ Hr).
    exists s; apply enforce_numeric_nums; eapply in_range_nums; exact Hr. }
  destruct (in_expected_range lo hi s) eqn:E; cbn [negb].
  { apply Hpass, in_expected_range_inv; exact E. }
  destruct H as [Hr | [v [k [Hv Hk]]]].
  { rewrite (in_expected_range_intro _ _ _ Hr) in E; discriminate E. }
  unfold remap.
  assert (Hn : existsb notnull (pd.map_dict d s) = true).
  { apply existsb_exists; exists (int k); split; [| reflexivity].
    unfold pd.map_dict; apply in_map_iff; exists v; rewrite Hk; auto. }
  destruct (first_mode_Ok _ Hn) as [m Hm]; rewrite Hm; cbn [bind].
  destruct (first_mode_inv _ _ Hm) as [Hin Hmn].
  rewrite (to_numeric_coerce_id _ (map_dict_no_text d s)).
  assert (Hnum : forallb pd.is_num (pd.fillna m (pd.map_dict d s)) = true).
  { apply fillna_nums; [| apply map_dict_no_text].
    unfold pd.map_dict in Hin; apply in_map_iff in Hin as [w [<- _]].
    destruct (pd.lookup d w); [reflexivity | discriminate Hmn]. }
  rewrite (astype_int_nums _ Hnum); cbn [bind].
  eexists; apply enforce_numeric_nums, clip_nums, truncate_nums; exact Hnum.
Qed.

End Stages.

Section Returns.

Context {P : Pandas}.

Lemma binned_ready (e0 : Q) (es : list pd.edge) (labels : list Z) (lo hi : Q)
    (c : string) (s : Series) :
  length labels = S (length es) ->
  Forall (in_range lo hi) s \/ reaches e0 s ->
  exists s',
    (s1 <- (s0 <- (if negb (in_expected_range lo hi s)
                   then bin (pd.Fin e0 :: es ++ [pd.Inf]) labels s else Ok s) ;;
            to_numeric s0) ;;
     enforce_numeric c s1) = Ok s'.
Proof.
  intros Hl H.
  assert (Hpass : Forall (in_range lo hi) s ->
            exists s',
              (s1 <- (s0 <- Ok s ;; to_numeric s0) ;; enforce_numeric c s1) = Ok s').
  { intros Hr; pose proof (in_range_nums _ _ _ Hr) as Hn; simpl.
    rewrite (to_numeric_id s (nums_no_text s Hn)); simpl.
    exists s; apply enforce_numeric_nums; exact Hn. }
  destruct (in_expected_range lo hi s) eqn:E; cbn [negb].
  { apply Hpass, in_expected_range_inv; exact E. }
  destruct H as [Hr | [v [q [Hv [Hq He]]]]].
  { rewrite (in_expected_range_intro _ _ _ Hr) in E; discriminate E. }
  destruct (bin_values (pd.Fin e0 :: es ++ [pd.Inf]) labels s) as [fill ->].
  cbn [bind].
  set (binned := map (binned_value (pd.Fin e0 :: es ++ [pd.Inf]) labels fill) s).
  assert (Ht : existsb is_text binned = false).
  { apply existsb_false_Forall, Forall_map, Forall_forall; intros w _.
    destruct (binned_value_label (pd.Fin e0 :: es ++ [pd.Inf]) labels fill w)
      as [-> | [l [_ ->]]]; reflexivity. }
  rewrite (to_numeric_id binned Ht); cbn [bind].
  apply enforce_numeric_coded; [exact Ht |].
  apply existsb_exists.
  destruct (cut_value_above e0 es labels q Hl He) as [l Hcut].
  exists (int l); split; [| reflexivity].
  unfold binned; apply in_map_iff; exists v; split; [| exact Hv].
  unfold binned_value; rewrite Hq; simpl; exact Hcut.
Qed.

Lemma days_ready (c : string) (s : Series) :
  forallb pd.is_num s = true ->
  exists s', (s1 <- handle_days s ;; enforce_numeric c s1) = Ok s'.
Proof.
  intros Hn; unfold handle_days.
  rewrite (median_no_text s (nums_no_text s Hn)); cbn [bind].
  rewrite (to_numeric_coerce_id s (nums_no_text s Hn)).
  rewrite (fillna_no_null _ s (nums_no_null s Hn)).
  rewrite (astype_int_nums _ (clip_nums 0 30 s Hn)); cbn [bind].
  eexists; apply enforce_numeric_nums, truncate_nums, clip_nums; exact Hn.
Qed.

(** No rule raises on a ready column. *)
Lemma column_rule_ready (c : string) (s : Series) :
  ready c s -> exists s', column_rule c s = Ok s'.
Proof.
  intros [Hd [Hg [He [Ha Hi]]]].
  destruct (mem c binary_cols) eqn:Eb.
  { eexists; apply column_rule_binary; exact Eb. }
  destruct (String.eqb_spec c "GenHlth") as [-> | Ng].
  { exact (coded_ready genhlth_mapping 1 5 "GenHlth" s (Hg eq_refl)). }
  destruct (String.eqb_spec c "Education") as [-> | Ne].
  { exact (coded_ready education_mapping 1 6 "Education" s (He eq_refl)). }
  destruct (String.eqb_spec c "Age") as [-> | Na].
  { exact (binned_ready 18
             (map pd.Fin [25; 30; 35; 40; 45; 50; 55; 60; 65; 70; 75; 80])
             age_labels 1 13 "Age" s eq_refl (Ha eq_refl)). }
  destruct (String.eqb_spec c "Income") as [-> | Ni].
  { exact (binned_ready 0
             (map pd.Fin [10000; 15000; 20000; 25000; 35000; 50000; 75000])
             income_labels 1 8 "Income" s eq_refl (Hi eq_refl)). }
  destruct (String.eqb_spec c "MentHlth") as [-> | Nm].
  { exact (days_ready "MentHlth" s (Hd (or_introl eq_refl))). }
  destruct (String.eqb_spec c "PhysHlth") as [-> | Np].
  { exact (days_ready "PhysHlth" s (Hd (or_intror eq_refl))). }
  unfold column_rule, column_handler; rewrite Eb.
  rewrite (proj2 (String.eqb_neq c "GenHlth") Ng),
          (proj2 (String.eqb_neq c "Education") Ne),
          (proj2 (String.eqb_neq c "Age") Na),
          (proj2 (String.eqb_neq c "Income") Ni),
          (proj2 (String.eqb_neq c "MentHlth") Nm),
          (proj2 (String.eqb_neq c "PhysHlth") Np); cbn [bind].
  apply enforce_numeric_other.
  rewrite Eb; cbn [mem existsb orb].
  rewrite (proj2 (String.eqb_neq c "GenHlth") Ng),
          (proj2 (String.eqb_neq c "Education") Ne),
          (proj2 (String.eqb_neq c "Age") Na),
          (proj2 (String.eqb_neq c "Income") Ni); reflexivity.
Qed.

Lemma for_each_column_total (f : string -> Series -> result Series)
    (Q : string -> Series -> Prop) (df : DataFrame) :
  Forall (fun p => exists s', f (fst p) (snd p) = Ok s' /\ Q (fst p) s') df ->
  exists df',
    for_each_column f df = Ok df' /\
    Forall (fun p => Q (fst p) (snd p)) df'.
Proof.
  induction 1 as [| [c s] df [s' [Hs Hq]] _ [df' [IH1 IH2]]].
  - exists []; split; [reflexivity | constructor].
  - exists ((c, s') :: df'); split.
    + unfold for_each_column in *; simpl in *.
      rewrite Hs; simpl; rewrite IH1; reflexivity.
    + constructor; assumption.
Qed.

(** Tables on which the engine returns.  The table has rows, one entry
    per row in every column, labels that stay distinct under line 17, and
    no text that pandas reads as an infinity; no continuous column holds
    text, MentHlth and PhysHlth hold a number, every binary column holds a
    value, GenHlth and Education hold a key of their dict, Age holds a
    value that coerces to at least 18 and Income one that coerces to at
    least 0 (or the ordinal column is numeric, not entirely missing and
    within its range).  On such a table every other anomaly is absorbed by
    imputation, coercion to zero or clipping. *)
Theorem engine_returns_on_processable_tables (df : DataFrame) :
  (0 < pd.nrows df)%nat ->
  rectangular df ->
  NoDup (map fst (rename_columns df)) ->
  Forall (fun p => Forall finite_reading (snd p)) df ->
  Forall (fun p => processable (fst p) (snd p)) (rename_columns df) ->
  exists df', preprocess_survey_data df = Ok df'.
Proof.
  intros _ Hr _ _ Hp.
  unfold preprocess_survey_data, impute_and_deduplicate.
  destruct (for_each_column_total impute_column ready (rename_columns df))
    as [df1 [H1 Hready]].
  { eapply Forall_impl; [| exact Hp].
    intros [c s]; apply impute_processable. }
  rewrite H1; cbn [bind].
  assert (Hr1 : rectangular df1).
  { eapply same_length_rectangular;
      [eapply pass_same_length; [exact impute_column_length | exact H1] |].
    apply rename_columns_rectangular; exact Hr. }
  destruct (for_each_column_total column_rule (fun _ _ => True)
              (pd.drop_duplicates df1)) as [df' [H2 _]].
  { unfold pd.drop_duplicates; apply Forall_map.
    rewrite Forall_forall in Hready |- *.
    intros [c s] Hin; cbn [fst snd].
    destruct (column_rule_ready c (pd.drop (pd.duplicated df1) s)) as [s' Hs'].
    - apply ready_survives; [exact Hr1 | exact Hin | exact (Hready _ Hin)].
    - exists s'; split; [exact Hs' | exact I]. }
  exists df'; apply encode_and_enforce_columns; exact H2.
Qed.

End Returns.

(** Witness: missing entries, text in coded columns, a raw age, an
    unknown column of text. *)
Lemma engine_returns_on_processable_tables_witness :
  exists df',
    @preprocess_survey_data pandas2
      [("BMI", [int 20; NaN; Num (61 # 2)]);
       ("HighBP", [Str "yes"; NaN; int 1]);
       ("GenHlth", [Str "Poor"; Str "good"; NaN]);
       ("Age", [Str "42"; Str "x"; int 5]);
       ("MentHlth", [NaN; int 45; NaN]);
       ("Notes", [Str "a"; NaN; Str "b"])] = Ok df'.
Proof.
  apply (@engine_returns_on_processable_tables pandas2).
  - simpl; lia.
  - repeat constructor.
  - vm_compute.
    repeat (apply NoDup_cons; [simpl; intuition discriminate |]).
    apply NoDup_nil.
  - repeat (apply Forall_cons || apply Forall_nil); exact I || reflexivity.
  - change (rename_columns
              [("BMI", [int 20; NaN; Num (61 # 2)]);
               ("HighBP", [Str "yes"; NaN; int 1]);
               ("GenHlth", [Str "Poor"; Str "good"; NaN]);
               ("Age", [Str "42"; Str "x"; int 5]);
               ("MentHlth", [NaN; int 45; NaN]);
               ("Notes", [Str "a"; NaN; Str "b"])])
      with [("BMI", [int 20; NaN; Num (61 # 2)]);
            ("HighBP", [Str "yes"; NaN; int 1]);
            ("GenHlth", [Str "Poor"; Str "good"; NaN]);
            ("Age", [Str "42"; Str "x"; int 5]);
            ("MentHlth", [NaN; int 45; NaN]);
            ("Notes", [Str "a"; NaN; Str "b"])].
    repeat (apply Forall_cons || apply Forall_nil);
      unfold processable; cbn [fst snd];
      repeat split;
      try (intros H; discriminate H);
      try (intros [H | H]; discriminate H);
      intros _; try reflexivity.
    + right; exists (Str "good"), 3%Z; split; [simpl; tauto | reflexivity].
    + right; exists (Str "42"), 42; split; [simpl; tauto |].
      split; [reflexivity | unfold Qle; simpl; lia].
Defined.

(** * Further properties of the engine *)

(** ** Labels and shape *)

Lemma replace_space_no_space (s : string) (i : nat) :
  String.get i (replace_space s) <> Some " "%char.
Proof.
  revert i; induction s as [| a s IH]; intros i; simpl; [discriminate |].
  destruct i as [| i]; [| apply IH].
  destruct (Ascii.eqb a " ") eqn:E; [discriminate |].
  intros H; injection H as ->; discriminate E.
Qed.

Lemma strip_canonical_label (c : string) :
  strip (canonical_label c) = canonical_label c.
Proof.
  unfold canonical_label.
  destruct (strip_stripped c) as [Hl Hr].
  unfold strip at 1.
  rewrite (lstrip_replace_space _ Hl).
  apply rstrip_replace_space; exact Hr.
Qed.

(** The no-break space and the next-line control are white space for
    [str.strip], like the space itself. *)
Lemma padded_labels_are_stripped :
  canonical_label (String (ascii_of_nat 160) "High BP ") = "High_BP" /\
  canonical_label (String (ascii_of_nat 133) " HighBP") = "HighBP".
Proof. split; reflexivity. Qed.

Section Shape.

Context {P : Pandas}.

Lemma pass_labels (f : string -> Series -> result Series) (df df' : DataFrame) :
  for_each_column f df = Ok df' -> map fst df' = map fst df.
Proof.
  intros H; apply for_each_column_Ok in H.
  induction H as [| x y l l' [Hc _] _ IH]; simpl; congruence.
Qed.

Lemma drop_duplicates_labels (df : DataFrame) :
  map fst (pd.drop_duplicates df) = map fst df.
Proof.
  unfold pd.drop_duplicates; rewrite map_map.
  apply map_ext; intros [c s]; reflexivity.
Qed.

Lemma rename_columns_labels (df : DataFrame) :
  map fst (rename_columns df) = map canonical_label (map fst df).
Proof.
  unfold rename_columns; rewrite !map_map.
  apply map_ext; intros [c s]; reflexivity.
Qed.

Lemma drop_duplicates_rectangular (df : DataFrame) :
  rectangular df -> rectangular (pd.drop_duplicates df).
Proof.
  intros Hr.
  assert (Hk : Forall (fun p => length (snd p)
                                = length (filter negb (pd.duplicated df)))
                      (pd.drop_duplicates df)).
  { unfold pd.drop_duplicates; apply Forall_map.
    eapply Forall_impl; [| exact Hr].
    intros [c s] Hs; simpl in *.
    apply drop_length_kept; rewrite duplicated_length; exact Hs. }
  unfold rectangular.
  destruct (pd.drop_duplicates df) as [| [c s] d] eqn:E; [constructor |].
  inversion Hk as [| x l Hx Hl]; subst; simpl in Hx |- *.
  rewrite Hx; exact Hk.
Qed.

(** The labels of the output are the labels of the input as line 17
    rewrites them, in the same order, whatever rows are dropped. *)
Theorem output_labels_are_the_canonical_labels (df df' : DataFrame) :
  preprocess_survey_data df = Ok df' ->
  map fst df' = map canonical_label (map fst df).
Proof.
  unfold preprocess_survey_data, impute_and_deduplicate; intros H.
  apply bind_Ok_inv in H as [df1 [H1 H2]].
  apply bind_Ok_inv in H1 as [df0 [H0 H1]]; injection H1 as <-.
  apply encode_and_enforce_columns, pass_labels in H2.
  apply pass_labels in H0.
  rewrite H2, drop_duplicates_labels, H0; apply rename_columns_labels.
Qed.

(** A table with one entry per row in every column comes out with one
    entry per row in every column. *)
Theorem output_is_rectangular (df df' : DataFrame) :
  rectangular df ->
  preprocess_survey_data df = Ok df' ->
  rectangular df'.
Proof.
  intros Hr H.
  apply preprocess_row_counts in H as [df0 [_ [L0 [L1 _]]]].
  eapply same_length_rectangular; [exact L1 |].
  apply drop_duplicates_rectangular.
  eapply same_length_rectangular; [exact L0 | exact Hr].
Qed.

(** The rewriting of a label settles at once: the result holds no space,
    has no white space at either end, and is rewritten to itself; so the
    engine reads a table and the same table with rewritten labels alike. *)
Theorem canonical_labels_are_settled :
  (forall c i, String.get i (canonical_label c) <> Some " "%char) /\
  (forall c, strip (canonical_label c) = canonical_label c) /\
  (forall c, canonical_label (canonical_label c) = canonical_label c) /\
  (forall df, preprocess_survey_data (rename_columns df)
              = preprocess_survey_data df).
Proof.
  split; [intros c i; apply replace_space_no_space |].
  split; [exact strip_canonical_label |].
  split; [exact canonical_label_idempotent | exact preprocess_renamed].
Qed.

End Shape.

(** Witness: a padded label and a label with an inner space. *)
Lemma output_labels_are_the_canonical_labels_witness :
  map fst [("Phys_Hlth", [int 1; int 40]); ("HighBP", [int 1; int 1])]
  = map canonical_label (map fst [(" Phys Hlth ", [int 1; int 40]);
                                  ("HighBP  ", [int 1; int 3])]).
Proof.
  apply (@output_labels_are_the_canonical_labels pandas2
           [(" Phys Hlth ", [int 1; int 40]); ("HighBP  ", [int 1; int 3])]
           [("Phys_Hlth", [int 1; int 40]); ("HighBP", [int 1; int 1])]).
  vm_compute; reflexivity.
Defined.

Lemma output_is_rectangular_witness :
  rectangular [("Age", [int 5; int 13]); ("BMI", [int 20; int 20])].
Proof.
  apply (@output_is_rectangular pandas2
           [("Age", [int 42; int 81; int 42]); ("BMI", [int 20; NaN; int 20])]).
  - repeat constructor.
  - vm_compute; reflexivity.
Defined.

(** ** The first imputation *)

Lemma count_among_present (v : cell) (s : Series) :
  notnull v = true -> pd.count v (filter notnull s) = pd.count v s.
Proof.
  intros Hv; unfold pd.count; f_equal.
  induction s as [| c s IH]; simpl; [reflexivity |].
  destruct (notnull c) eqn:Ec; simpl; [rewrite IH; reflexivity |].
  destruct (cell_eqb v c) eqn:E; [| exact IH].
  rewrite (cell_eqb_sym v c) in E.
  destruct c, v; simpl in *; discriminate.
Qed.

Lemma le_fold_max {A : Type} (f : A -> nat) (l : list A) (x : A) :
  In x l -> (f x <= fold_right Nat.max 0%nat (map f l))%nat.
Proof.
  induction l as [| a l IH]; simpl; [tauto |].
  intros [-> | H]; [lia | specialize (IH H); lia].
Qed.

Lemma first_mode_in_modes (s : Series) (m : cell) :
  pd.first (pd.mode s) = Ok m -> In m (pd.modes s).
Proof.
  unfold pd.mode; intros H.
  destruct (_ || _).
  - apply sort_cells_In.
    destruct (fold_right pd.insert_cell [] (pd.modes s)); [discriminate |].
    injection H as ->; left; reflexivity.
  - destruct (pd.modes s); [discriminate |].
    injection H as ->; left; reflexivity.
Qed.

(** The mode is a most frequent value. *)
Lemma mode_most_frequent (s : Series) (m v : cell) :
  pd.first (pd.mode s) = Ok m -> In v s -> notnull v = true ->
  (pd.count v s <= pd.count m s)%nat.
Proof.
  intros Hm Hv Hn.
  destruct (first_mode_inv s m Hm) as [_ Hmn].
  apply first_mode_in_modes in Hm.
  unfold pd.modes in Hm; apply filter_In in Hm as [_ Hm].
  apply Nat.eqb_eq in Hm.
  rewrite <- (count_among_present v s Hn), <- (count_among_present m s Hmn), Hm.
  unfold pd.max_count.
  apply (le_fold_max (fun c => pd.count c (filter notnull s))).
  apply filter_In; auto.
Qed.

Lemma cell_leb_num_refl (a : cell) : pd.is_num a = true -> pd.cell_leb a a = true.
Proof.
  destruct a; simpl; try discriminate; intros _; apply Qle_bool_iff, Qle_refl.
Qed.

Lemma cell_leb_num_trans (a b c : cell) :
  pd.cell_leb a b = true -> pd.cell_leb b c = true ->
  pd.is_num a = true -> pd.is_num b = true -> pd.is_num c = true ->
  pd.cell_leb a c = true.
Proof.
  destruct a, b, c; simpl; try discriminate.
  rewrite !Qle_bool_iff; intros; eapply Qle_trans; eassumption.
Qed.

Lemma cell_leb_num_total (a b : cell) :
  pd.is_num a = true -> pd.is_num b = true ->
  pd.cell_leb a b = false -> pd.cell_leb b a = true.
Proof.
  destruct a as [| p |], b as [| q |]; simpl; try discriminate.
  intros _ _ H; apply Qle_bool_iff.
  destruct (Qlt_le_dec q p) as [Hlt | Hle]; [apply Qlt_le_weak; exact Hlt |].
  apply Qle_bool_iff in Hle; congruence.
Qed.

(** The head of the sorted modes is the smallest, on numbers. *)
Lemma sorted_head_least (l : list cell) (m : cell) (rest : list cell) :
  Forall (fun c => pd.is_num c = true) l ->
  fold_right pd.insert_cell [] l = m :: rest ->
  forall x, In x l -> pd.cell_leb m x = true.
Proof.
  intros Hl; revert m rest.
  induction Hl as [| a l Ha Hl IH]; intros m rest E x Hx; [destruct Hx |].
  simpl in E.
  assert (Hnum : forall y, In y l -> pd.is_num y = true).
  { rewrite Forall_forall in Hl; exact Hl. }
  destruct (fold_right pd.insert_cell [] l) as [| h t] eqn:Es.
  - assert (l = []) as ->.
    { destruct l as [| y l']; [reflexivity |].
      assert (Hy : In y (fold_right pd.insert_cell [] (y :: l')))
        by (apply sort_cells_In; left; reflexivity).
      rewrite Es in Hy; destruct Hy. }
    simpl in E; injection E as <- _.
    destruct Hx as [<- | []]; apply cell_leb_num_refl; exact Ha.
  - assert (Hh : pd.is_num h = true).
    { apply Hnum, sort_cells_In; rewrite Es; left; reflexivity. }
    specialize (IH h t eq_refl).
    simpl in E; destruct (pd.cell_leb a h) eqn:Eah; injection E as <- _.
    + destruct Hx as [<- | Hx]; [apply cell_leb_num_refl; exact Ha |].
      apply cell_leb_num_trans with (b := h); auto.
    + destruct Hx as [<- | Hx]; [| apply IH; exact Hx].
      apply cell_leb_num_total; auto.
Qed.

Lemma cell_leb_congr_r (m u v : cell) :
  cell_eqb u v = true -> pd.cell_leb m u = true -> pd.cell_leb m v = true.
Proof.
  destruct m, u, v; simpl; try discriminate.
  - rewrite Qeq_bool_iff, !Qle_bool_iff; intros E H; rewrite <- E; exact H.
  - rewrite String.eqb_eq; intros ->; auto.
Qed.

(** On a column without text, ties between most frequent values go to the
    smallest. *)
Lemma mode_ties_to_the_least (s : Series) (m v : cell) :
  existsb is_text s = false ->
  pd.first (pd.mode s) = Ok m -> In v s -> notnull v = true ->
  pd.count v s = pd.count m s ->
  pd.cell_leb m v = true.
Proof.
  intros Ht Hm Hv Hn Hc.
  assert (Hnums : Forall (fun c => pd.is_num c = true) (pd.modes s)).
  { apply Forall_forall; intros c Hc'.
    apply modes_In in Hc' as [Hin Hcn].
    apply existsb_false_Forall in Ht; rewrite Forall_forall in Ht.
    specialize (Ht c Hin); unfold notnull in Hcn;
    destruct c; simpl in *; congruence. }
  assert (Hin : In v (filter notnull s)) by (apply filter_In; auto).
  destruct (unique_covers _ v Hin) as [u [Hu Huv]].
  assert (Hum : In u (pd.modes s)).
  { pose proof (first_mode_in_modes s m Hm) as Hmm.
    destruct (first_mode_inv s m Hm) as [_ Hmn].
    unfold pd.modes in Hmm |- *.
    apply filter_In in Hmm as [_ Hmm]; apply filter_In; split; [exact Hu |].
    rewrite (count_congr u v _ Huv).
    rewrite (count_among_present v s Hn), Hc.
    rewrite <- (count_among_present m s Hmn); exact Hmm. }
  apply cell_leb_congr_r with (u := u); [exact Huv |].
  unfold pd.mode in Hm.
  rewrite (proj2 (forallb_Forall pd.is_num (pd.modes s)) Hnums) in Hm.
  cbn [orb] in Hm.
  destruct (fold_right pd.insert_cell [] (pd.modes s)) as [| h t] eqn:Es;
    [discriminate |].
  injection Hm as ->.
  eapply sorted_head_least; eassumption.
Qed.

Lemma fillna_present_no_null (m : cell) (s : Series) :
  notnull m = true -> pd.isnull_any (pd.fillna m s) = false.
Proof.
  intros Hm; unfold pd.isnull_any, pd.fillna.
  apply existsb_false_Forall, Forall_map, Forall_forall; intros c _.
  unfold notnull in Hm.
  destruct c; simpl; try reflexivity.
  destruct m; simpl in *; congruence.
Qed.

Section FirstImputation.

Context {P : Pandas}.

(** Lines 24-28.  When the first imputation of a coded column succeeds,
    the value it fills in occurs in the column, no value of the column
    occurs more often, and on a column without text no equally frequent
    value is smaller; every missing entry takes that value, every other
    entry stays, and no entry of the result is missing. *)
Theorem coded_columns_are_filled_with_the_mode (c : string) (s s1 : Series) :
  mem c coded_cols = true ->
  impute_column c s = Ok s1 ->
  exists m,
    In m s /\ notnull m = true /\
    (forall v, In v s -> notnull v = true ->
               (pd.count v s <= pd.count m s)%nat) /\
    (existsb is_text s = false ->
     forall v, In v s -> notnull v = true ->
               pd.count v s = pd.count m s -> pd.cell_leb m v = true) /\
    (forall i v, nth_error s i = Some v ->
                 nth_error s1 i = Some (if isnull v then m else v)) /\
    pd.isnull_any s1 = false.
Proof.
  intros Hc H; unfold impute_column in H.
  destruct (mem c continuous_cols) eqn:Ec.
  { apply continuous_not_coded in Ec; congruence. }
  rewrite Hc in H.
  apply bind_Ok_inv in H as [m [Hm H]]; injection H as <-.
  destruct (first_mode_inv s m Hm) as [Hin Hmn].
  exists m; split; [exact Hin | split; [exact Hmn |]].
  split; [intros v; apply mode_most_frequent; exact Hm |].
  split; [intros Ht v; apply mode_ties_to_the_least; assumption |].
  split; [| apply fillna_present_no_null; exact Hmn].
  intros i v Hi; unfold pd.fillna; rewrite nth_error_map, Hi; reflexivity.
Qed.

End FirstImputation.

(** Witness: 2 and 1 both occur twice, 3 once; the missing entry takes 1. *)
Lemma coded_columns_are_filled_with_the_mode_witness :
  exists m,
    In m [int 2; int 1; NaN; int 3; int 1; int 2] /\ notnull m = true /\
    (forall v, In v [int 2; int 1; NaN; int 3; int 1; int 2] ->
               notnull v = true ->
               (pd.count v [int 2; int 1; NaN; int 3; int 1; int 2]
                <= pd.count m [int 2; int 1; NaN; int 3; int 1; int 2])%nat) /\
    (existsb is_text [int 2; int 1; NaN; int 3; int 1; int 2] = false ->
     forall v, In v [int 2; int 1; NaN; int 3; int 1; int 2] ->
               notnull v = true ->
               pd.count v [int 2; int 1; NaN; int 3; int 1; int 2]
               = pd.count m [int 2; int 1; NaN; int 3; int 1; int 2] ->
               pd.cell_leb m v = true) /\
    (forall i v, nth_error [int 2; int 1; NaN; int 3; int 1; int 2] i = Some v ->
                 nth_error [int 2; int 1; int 1; int 3; int 1; int 2] i
                 = Some (if isnull v then m else v)) /\
    pd.isnull_any [int 2; int 1; int 1; int 3; int 1; int 2] = false.
Proof.
  apply (@coded_columns_are_filled_with_the_mode pandas2 "GenHlth"
           [int 2; int 1; NaN; int 3; int 1; int 2]
           [int 2; int 1; int 1; int 3; int 1; int 2]).
  - reflexivity.
  - vm_compute; reflexivity.
Defined.

(** *** The median *)

Lemma insert_perm (q : Q) (l : list Q) : Permutation (pd.insert q l) (q :: l).
Proof.
  induction l as [| x l IH]; simpl; [apply Permutation_refl |].
  destruct (Qle_bool q x); [apply Permutation_refl |].
  eapply perm_trans; [apply perm_skip, IH | apply perm_swap].
Qed.

Lemma sort_perm (l : list Q) : Permutation (pd.sort l) l.
Proof.
  induction l as [| x l IH]; simpl; [apply perm_nil |].
  eapply perm_trans; [apply insert_perm | apply perm_skip, IH].
Qed.

Lemma filter_length_perm {A : Type} (f : A -> bool) (l l' : list A) :
  Permutation l l' -> length (filter f l) = length (filter f l').
Proof.
  induction 1 as [| x l l' _ IH | x y l | l l' l'' _ IH1 _ IH2]; simpl.
  - reflexivity.
  - destruct (f x); simpl; congruence.
  - destruct (f x), (f y); reflexivity.
  - congruence.
Qed.

Lemma insert_Forall (P : Q -> Prop) (q : Q) (l : list Q) :
  P q -> Forall P l -> Forall P (pd.insert q l).
Proof.
  intros Hq Hl; induction Hl as [| x l Hx Hl IH]; simpl.
  - constructor; [exact Hq | constructor].
  - destruct (Qle_bool q x); repeat constructor; assumption.
Qed.

Lemma insert_sorted (q : Q) (l : list Q) :
  StronglySorted Qle l -> StronglySorted Qle (pd.insert q l).
Proof.
  induction 1 as [| x l Hs IH Hx]; simpl.
  - constructor; constructor.
  - destruct (Qle_bool q x) eqn:E.
    + apply Qle_bool_iff in E.
      constructor; [constructor; assumption |].
      constructor; [exact E |].
      eapply Forall_impl; [| exact Hx].
      intros a Ha; eapply Qle_trans; eassumption.
    + constructor; [exact IH |].
      apply insert_Forall; [| exact Hx].
      destruct (Qlt_le_dec x q) as [Hlt | Hle]; [apply Qlt_le_weak; exact Hlt |].
      apply Qle_bool_iff in Hle; congruence.
Qed.

Lemma sort_sorted (l : list Q) : StronglySorted Qle (pd.sort l).
Proof.
  induction l as [| x l IH]; simpl; [constructor | apply insert_sorted, IH].
Qed.

Lemma sorted_nth_le (v : list Q) (i j : nat) :
  StronglySorted Qle v -> (i <= j)%nat -> (j < length v)%nat ->
  nth i v 0 <= nth j v 0.
Proof.
  intros Hs; revert i j; induction Hs as [| x v Hs IH Hx]; intros i j Hij Hj.
  - simpl in Hj; lia.
  - destruct j as [| j].
    + assert (i = 0%nat) as -> by lia; apply Qle_refl.
    + simpl in Hj; destruct i as [| i].
      * simpl; rewrite Forall_forall in Hx; apply Hx, nth_In; lia.
      * simpl; apply IH; lia.
Qed.

Lemma count_prefix (f : Q -> bool) (v : list Q) (k : nat) :
  (forall i, (i < k)%nat -> f (nth i v 0) = true) ->
  (k <= length v)%nat -> (k <= length (filter f v))%nat.
Proof.
  revert k; induction v as [| a v IH]; intros k H Hk; simpl in Hk; [lia |].
  destruct k as [| k]; [lia |].
  pose proof (H 0%nat ltac:(lia)) as H0; simpl in H0.
  simpl; rewrite H0; simpl.
  apply le_n_S, IH; [| lia].
  intros i Hi; apply (H (S i)); lia.
Qed.

Lemma count_suffix (f : Q -> bool) (v : list Q) (k : nat) :
  (forall i, (k <= i)%nat -> (i < length v)%nat -> f (nth i v 0) = true) ->
  (length v - k <= length (filter f v))%nat.
Proof.
  revert k; induction v as [| a v IH]; intros k H; simpl; [lia |].
  destruct k as [| k].
  - pose proof (H 0%nat ltac:(lia) ltac:(simpl; lia)) as H0; simpl in H0.
    rewrite H0; simpl.
    specialize (IH 0%nat); rewrite Nat.sub_0_r in IH.
    apply le_n_S, IH.
    intros i _ Hi; apply (H (S i)); simpl; lia.
  - specialize (IH k).
    assert (length v - k <= length (filter f v))%nat.
    { apply IH; intros i Hki Hi; apply (H (S i)); simpl; lia. }
    destruct (f a); simpl; lia.
Qed.

(** The median has at least half of the numbers on either side. *)
Lemma nanmedian_halves (l : list Q) (q : Q) :
  pd.nanmedian l = Num q ->
  (length l <= 2 * at_or_below q l)%nat /\
  (length l <= 2 * at_or_above q l)%nat.
Proof.
  unfold pd.nanmedian, at_or_below, at_or_above.
  rewrite (filter_length_perm (fun x => Qle_bool x q) _ _
             (Permutation_sym (sort_perm l))).
  rewrite (filter_length_perm (fun x => Qle_bool q x) _ _
             (Permutation_sym (sort_perm l))).
  pose proof (sort_sorted l) as Hs.
  rewrite <- (sort_length l).
  set (v := pd.sort l) in *; set (n := length v).
  destruct (n =? 0)%nat eqn:E0; [discriminate |].
  apply Nat.eqb_neq in E0.
  destruct (Nat.odd n) eqn:Eo; intros H;
    apply (f_equal (fun c => match c with Num x => x | _ => 0 end)) in H;
    cbv beta iota in H; subst q.
  - assert (Hn : (n = 2 * (n / 2) + 1)%nat).
    { apply Nat.odd_spec in Eo as [m Hm].
      pose proof (Nat.div_mod_eq n 2).
      pose proof (Nat.mod_upper_bound n 2); lia. }
    split.
    + assert (n / 2 + 1 <= length (filter (fun x => Qle_bool x (nth (n / 2) v 0%Q)) v))%nat;
        [| lia].
      apply count_prefix; [| fold n; lia].
      intros i Hi; apply Qle_bool_iff, sorted_nth_le; [exact Hs | lia | fold n; lia].
    + assert (n - n / 2 <= length (filter (fun x => Qle_bool (nth (n / 2) v 0%Q) x) v))%nat;
        [| lia].
      apply count_suffix.
      intros i Hi Hi'; apply Qle_bool_iff, sorted_nth_le; [exact Hs | lia | exact Hi'].
  - assert (Hn : (n = 2 * (n / 2))%nat).
    { assert (Ee : Nat.even n = true) by (rewrite <- Nat.negb_odd, Eo; reflexivity).
      apply Nat.even_spec in Ee as [m Hm].
      pose proof (Nat.div_mod_eq n 2).
      pose proof (Nat.mod_upper_bound n 2); lia. }
    set (a := nth (n / 2 - 1) v 0); set (b := nth (n / 2) v 0).
    assert (Hab : a <= b) by (apply sorted_nth_le; [exact Hs | lia | fold n; lia]).
    pose proof (Qred_correct ((a + b) / 2)) as Hq.
    assert (Hdiv : (a + b) / 2 == (a + b) * (1 # 2)) by reflexivity.
    split.
    + assert (n / 2 <= length (filter (fun x => Qle_bool x (Qred ((a + b) / 2))) v))%nat;
        [| lia].
      apply count_prefix; [| fold n; lia].
      intros i Hi; apply Qle_bool_iff.
      assert (nth i v 0 <= a) by (apply sorted_nth_le; [exact Hs | lia | fold n; lia]).
      rewrite Hq, Hdiv; lra.
    + assert (n - n / 2 <= length (filter (fun x => Qle_bool (Qred ((a + b) / 2)) x) v))%nat;
        [| lia].
      apply count_suffix.
      intros i Hi Hi'; apply Qle_bool_iff.
      assert (b <= nth i v 0) by (apply sorted_nth_le; [exact Hs | lia | exact Hi']).
      rewrite Hq, Hdiv; lra.
Qed.

Section MedianImputation.

Context {P : Pandas}.

(** Lines 22-23.  On a continuous column without text that holds a
    number, the first imputation fills every missing entry with one
    number: at least half of the column's numbers are at most it, and at
    least half are at least it.  Entries that are present stay, and no
    entry of the result is missing. *)
Theorem continuous_columns_are_filled_with_the_median (c : string) (s : Series) :
  mem c continuous_cols = true ->
  existsb is_text s = false ->
  existsb pd.is_num s = true ->
  exists q,
    impute_column c s = Ok (map (fun v => if isnull v then Num q else v) s) /\
    (length (pd.numbers s) <= 2 * at_or_below q (pd.numbers s))%nat /\
    (length (pd.numbers s) <= 2 * at_or_above q (pd.numbers s))%nat /\
    pd.isnull_any (map (fun v => if isnull v then Num q else v) s) = false.
Proof.
  intros Hc Ht Hn.
  destruct (nanmedian_num _ (numbers_nonempty s Hn)) as [q Hq].
  exists q; split; [| split; [| split]].
  - unfold impute_column; rewrite Hc, (median_no_text s Ht), Hq; reflexivity.
  - apply nanmedian_halves, Hq.
  - apply nanmedian_halves, Hq.
  - apply (fillna_present_no_null (Num q) s); reflexivity.
Qed.

End MedianImputation.

(** Witness: the numbers 31, 22, 27 and 40; the median is 29. *)
Lemma continuous_columns_are_filled_with_the_median_witness :
  exists q,
    @impute_column pandas2 "BMI" [int 31; NaN; int 22; int 27; int 40]
    = Ok (map (fun v => if isnull v then Num q else v)
              [int 31; NaN; int 22; int 27; int 40]) /\
    (length (pd.numbers [int 31; NaN; int 22; int 27; int 40])
     <= 2 * at_or_below q (pd.numbers [int 31; NaN; int 22; int 27; int 40]))%nat /\
    (length (pd.numbers [int 31; NaN; int 22; int 27; int 40])
     <= 2 * at_or_above q (pd.numbers [int 31; NaN; int 22; int 27; int 40]))%nat /\
    pd.isnull_any (map (fun v => if isnull v then Num q else v)
                       [int 31; NaN; int 22; int 27; int 40]) = false.
Proof.
  apply (@continuous_columns_are_filled_with_the_median pandas2 "BMI"
           [int 31; NaN; int 22; int 27; int 40]); reflexivity.
Defined.

(** ** Where the engine raises *)

Lemma raises_bind {A B : Type} (r : result A) (k : A -> result B) :
  raises r -> raises (bind r k).
Proof. intros [e ->]; exists e; reflexivity. Qed.

Lemma not_Ok_raises {A : Type} (r : result A) :
  (forall a, r <> Ok a) -> raises r.
Proof.
  destruct r as [a | e]; intros H; [destruct (H a eq_refl) | exists e; reflexivity].
Qed.

Lemma raises_not_Ok {A : Type} (r : result A) (a : A) : raises r -> r <> Ok a.
Proof. intros [e ->]; discriminate. Qed.

Lemma Forall2_In_l {A B : Type} (R : A -> B -> Prop) (l : list A) (l' : list B)
    (x : A) :
  Forall2 R l l' -> In x l -> exists y, In y l' /\ R x y.
Proof.
  induction 1 as [| a b l l' Hab _ IH]; simpl; [tauto |].
  intros [<- | Hx].
  - exists b; auto.
  - destruct (IH Hx) as [y [Hy HR]]; exists y; auto.
Qed.

Lemma mapM_raises {A B : Type} (f : A -> result B) (l : list A) (a : A) :
  In a l -> raises (f a) -> raises (mapM f l).
Proof.
  intros Hin Hr; apply not_Ok_raises; intros bs E.
  apply mapM_Ok_iff in E.
  destruct (Forall2_In_l _ _ _ a E Hin) as [b [_ Hb]].
  exact (raises_not_Ok _ _ Hr Hb).
Qed.

Lemma all_missing_no_mode (s : Series) :
  existsb notnull s = false -> pd.first (pd.mode s) = Raise KeyError.
Proof.
  intros H.
  assert (E : filter notnull s = []).
  { apply existsb_false_Forall in H.
    induction H as [| c s Hc _ IH]; simpl; [reflexivity |].
    rewrite Hc; exact IH. }
  unfold pd.mode, pd.modes; rewrite E; reflexivity.
Qed.

Section Raising.

Context {P : Pandas}.

Lemma for_each_column_raises (f : string -> Series -> result Series)
    (df : DataFrame) (c : string) (s : Series) :
  In (c, s) df -> raises (f c s) -> raises (for_each_column f df).
Proof.
  intros Hin Hr; unfold for_each_column.
  apply (mapM_raises _ df (c, s) Hin); cbv beta iota.
  apply raises_bind, Hr.
Qed.

Lemma impute_column_no_value (c : string) (s : Series) :
  mem c coded_cols = true -> existsb notnull s = false ->
  impute_column c s = Raise KeyError.
Proof.
  intros Hc Hs; unfold impute_column.
  destruct (mem c continuous_cols) eqn:Ec.
  { apply continuous_not_coded in Ec; congruence. }
  rewrite Hc, (all_missing_no_mode s Hs); reflexivity.
Qed.

(** Lines 24-28.  A coded column that holds no value, because every
    entry is missing or because the table has no rows, has no mode, and
    [mode()[0]] raises: the engine ends in an exception, whatever the
    other columns hold. *)
Theorem coded_column_without_a_value_raises (df : DataFrame)
    (c : string) (s : Series) :
  In (c, s) df ->
  mem (canonical_label c) coded_cols = true ->
  existsb notnull s = false ->
  raises (preprocess_survey_data df).
Proof.
  intros Hin Hc Hs.
  unfold preprocess_survey_data, impute_and_deduplicate.
  apply raises_bind, raises_bind.
  apply (for_each_column_raises impute_column _ (canonical_label c) s).
  - unfold rename_columns.
    apply (in_map (fun '(c, s) => (canonical_label c, s)) df (c, s) Hin).
  - exists KeyError; apply impute_column_no_value; assumption.
Qed.

End Raising.

(** Witness: a table without rows. *)
Lemma coded_column_without_a_value_raises_witness :
  raises (@preprocess_survey_data pandas2 [("BMI", []); (" Income", [])]).
Proof.
  apply (@coded_column_without_a_value_raises pandas2
           [("BMI", []); (" Income", [])] " Income" []).
  - right; left; reflexivity.
  - reflexivity.
  - reflexivity.
Defined.

(** ** Steps that leave the column as it is *)

Section Idle.

Context {P : Pandas}.

Lemma binned_no_text (bins : list pd.edge) (labels : list Z) (fill : cell)
    (s : Series) :
  existsb is_text (map (binned_value bins labels fill) s) = false.
Proof.
  apply existsb_false_Forall, Forall_map, Forall_forall; intros c _.
  destruct (binned_value_label bins labels fill c) as [-> | [l [_ ->]]];
    reflexivity.
Qed.

Lemma coded_clip_idle (d : pd.dict) (lo hi : Z) (s : Series) :
  (forall k, In k (map snd d) -> (lo <= k <= hi)%Z) ->
  (s1 <- (if negb (in_expected_range (inject_Z lo) (inject_Z hi) s)
          then remap d s else Ok s) ;;
   Ok (pd.clip (inject_Z lo) (inject_Z hi) s1))
  = (if in_expected_range (inject_Z lo) (inject_Z hi) s
     then Ok s else remap d s).
Proof.
  intros Hd.
  destruct (in_expected_range (inject_Z lo) (inject_Z hi) s) eqn:E; simpl.
  - rewrite (clip_in_range _ _ s (in_expected_range_inv _ _ s E)); reflexivity.
  - destruct (remap d s) as [s1 | e] eqn:Er; simpl; [| reflexivity].
    destruct (remapped_codes d lo hi s s1 Hd Er) as [_ [Hr _]].
    rewrite (clip_in_range _ _ s1 Hr); reflexivity.
Qed.

Lemma binned_to_numeric_idle (bins : list pd.edge) (labels : list Z)
    (lo hi : Q) (s : Series) :
  (s1 <- (if negb (in_expected_range lo hi s) then bin bins labels s else Ok s) ;;
   to_numeric s1)
  = (if in_expected_range lo hi s then Ok s else bin bins labels s).
Proof.
  destruct (in_expected_range lo hi s) eqn:E; simpl.
  - apply to_numeric_id, nums_no_text, in_range_nums with (lo := lo) (hi := hi).
    apply in_expected_range_inv, E.
  - destruct (bin_values bins labels s) as [fill ->]; simpl.
    apply to_numeric_id, binned_no_text.
Qed.

Lemma handle_GenHlth_idle (s : Series) :
  handle_GenHlth s
  = (if in_expected_range 1 5 s then Ok s else remap genhlth_mapping s).
Proof. apply (coded_clip_idle genhlth_mapping 1 5 s genhlth_codes). Qed.

Lemma handle_Education_idle (s : Series) :
  handle_Education s
  = (if in_expected_range 1 6 s then Ok s else remap education_mapping s).
Proof. apply (coded_clip_idle education_mapping 1 6 s education_codes). Qed.

Lemma handle_Age_idle (s : Series) :
  handle_Age s
  = (if in_expected_range 1 13 s then Ok s else bin age_bins age_labels s).
Proof. apply binned_to_numeric_idle. Qed.

Lemma handle_Income_idle (s : Series) :
  handle_Income s
  = (if in_expected_range 1 8 s then Ok s else bin income_bins income_labels s).
Proof. apply binned_to_numeric_idle. Qed.

(** Lines 79, 97, 114 and 127.  The clip that closes the GenHlth and the
    Education step and the conversion that closes the Age and the Income
    step never change a value and never raise: each of the four steps
    returns the column as it is when it is numeric and within range, and
    what the remapping or the bucketing made of it otherwise. *)
Theorem closing_clips_and_conversions_are_idle (s : Series) :
  handle_GenHlth s
  = (if in_expected_range 1 5 s then Ok s else remap genhlth_mapping s) /\
  handle_Education s
  = (if in_expected_range 1 6 s then Ok s else remap education_mapping s) /\
  handle_Age s
  = (if in_expected_range 1 13 s then Ok s else bin age_bins age_labels s) /\
  handle_Income s
  = (if in_expected_range 1 8 s then Ok s else bin income_bins income_labels s).
Proof.
  split; [| split; [| split]].
  - apply handle_GenHlth_idle.
  - apply handle_Education_idle.
  - apply handle_Age_idle.
  - apply handle_Income_idle.
Qed.

Lemma handled_nums (c : string) (s s1 : Series) :
  mem c binary_cols = true \/ c = "GenHlth" \/ c = "Education" \/
  c = "MentHlth" \/ c = "PhysHlth" ->
  column_handler c s = Ok s1 ->
  forallb pd.is_num s1 = true.
Proof.
  intros [Hc | [-> | [-> | Hc]]] H.
  - unfold column_handler in H; rewrite Hc, to_binary_values in H.
    injection H as <-; apply binary_values_nums.
  - change (column_handler "GenHlth" s) with (handle_GenHlth s) in H.
    rewrite handle_GenHlth_idle in H.
    destruct (in_expected_range 1 5 s) eqn:E.
    + injection H as <-.
      eapply in_range_nums, in_expected_range_inv, E.
    + destruct (remapped_codes _ 1 5 s s1 genhlth_codes H) as [_ [Hr _]].
      eapply in_range_nums, Hr.
  - change (column_handler "Education" s) with (handle_Education s) in H.
    rewrite handle_Education_idle in H.
    destruct (in_expected_range 1 6 s) eqn:E.
    + injection H as <-.
      eapply in_range_nums, in_expected_range_inv, E.
    + destruct (remapped_codes _ 1 6 s s1 education_codes H) as [_ [Hr _]].
      eapply in_range_nums, Hr.
  - assert (Hd : handle_days s = Ok s1) by (destruct Hc; subst c; exact H).
    apply handle_days_closes in Hd as [Hr _].
    eapply in_range_nums, Hr.
Qed.

(** Lines 141-148.  On the binary columns, GenHlth, Education, MentHlth
    and PhysHlth the final pass finds nothing to do: whatever the step of
    the column returned is a column of numbers, and the final pass returns
    it unchanged. *)
Theorem final_pass_keeps_handled_columns (c : string) (s s1 : Series) :
  mem c binary_cols = true \/ c = "GenHlth" \/ c = "Education" \/
  c = "MentHlth" \/ c = "PhysHlth" ->
  column_handler c s = Ok s1 ->
  forallb pd.is_num s1 = true /\ enforce_numeric c s1 = Ok s1.
Proof.
  intros Hc H.
  pose proof (handled_nums c s s1 Hc H) as Hn.
  split; [exact Hn | apply enforce_numeric_nums, Hn].
Qed.

End Idle.

(** Witness: a GenHlth column of labels. *)
Lemma final_pass_keeps_handled_columns_witness :
  forallb pd.is_num [int 5; int 1; int 5] = true /\
  @enforce_numeric pandas2 "GenHlth" [int 5; int 1; int 5]
  = Ok [int 5; int 1; int 5].
Proof.
  apply (@final_pass_keeps_handled_columns pandas2 "GenHlth"
           [Str "poor"; Str "excellent"; Str "poor"] [int 5; int 1; int 5]).
  - right; left; reflexivity.
  - vm_compute; reflexivity.
Defined.

(** ** What the output holds *)

Lemma no_text_no_null_nums (s : Series) :
  existsb is_text s = false -> pd.isnull_any s = false ->
  forallb pd.is_num s = true.
Proof.
  unfold pd.isnull_any; rewrite !existsb_false_Forall, forallb_Forall.
  intros Ht Hn; rewrite Forall_forall in *; intros c Hc.
  specialize (Ht c Hc); specialize (Hn c Hc).
  destruct c; simpl in *; congruence.
Qed.

Lemma no_text_no_num_missing (s : Series) :
  existsb is_text s = false -> existsb pd.is_num s = false ->
  Forall (fun v => v = NaN) s.
Proof.
  rewrite !existsb_false_Forall.
  intros Ht Hn; rewrite Forall_forall in *; intros c Hc.
  specialize (Ht c Hc); specialize (Hn c Hc).
  destruct c; simpl in *; congruence.
Qed.

Lemma no_num_no_numbers (s : Series) :
  existsb pd.is_num s = false -> pd.numbers s = [].
Proof.
  rewrite existsb_false_Forall.
  induction 1 as [| c s Hc _ IH]; [reflexivity |].
  destruct c; simpl in *; try discriminate; exact IH.
Qed.

Lemma Forall2_Forall_r {A B : Type} (R : A -> B -> Prop) (Q : B -> Prop)
    (l : list A) (l' : list B) :
  (forall x y, R x y -> Q y) -> Forall2 R l l' -> Forall Q l'.
Proof. intros HR; induction 1; constructor; eauto. Qed.

Section Output.

Context {P : Pandas}.

(** The step of a column, by the class of its label. *)
Lemma column_handler_cases (c : string) (s : Series) :
  (mem c binary_cols = true \/ c = "GenHlth" \/ c = "Education" \/
   c = "MentHlth" \/ c = "PhysHlth") \/
  (c = "Age" \/ c = "Income") \/
  (mem c coded_cols = false /\ c <> "MentHlth" /\ c <> "PhysHlth" /\
   column_handler c s = Ok s).
Proof.
  destruct (mem c binary_cols) eqn:Eb; [left; left; reflexivity |].
  destruct (String.eqb_spec c "GenHlth") as [-> | H1]; [left; auto |].
  destruct (String.eqb_spec c "Education") as [-> | H2]; [left; auto |].
  destruct (String.eqb_spec c "Age") as [-> | H3]; [right; left; auto |].
  destruct (String.eqb_spec c "Income") as [-> | H4]; [right; left; auto |].
  destruct (String.eqb_spec c "MentHlth") as [-> | H5]; [left; auto 6 |].
  destruct (String.eqb_spec c "PhysHlth") as [-> | H6]; [left; auto 6 |].
  right; right; split; [| split; [exact H5 | split; [exact H6 |]]].
  - rewrite mem_coded, Eb.
    destruct (mem c ordinal_cols) eqn:Eo; [| reflexivity].
    apply mem_ordinal in Eo; intuition congruence.
  - unfold column_handler; rewrite Eb.
    apply String.eqb_neq in H1, H2, H3, H4, H5, H6.
    rewrite H1, H2, H3, H4, H5, H6; reflexivity.
Qed.

(** The final pass on a column outside the coded ones. *)
Lemma enforce_numeric_median (c : string) (s s' : Series) :
  mem c coded_cols = false ->
  enforce_numeric c s = Ok s' ->
  forallb pd.is_num s' = true \/
  s' <> [] /\ Forall (fun v => v = NaN) s'.
Proof.
  intros Hc; unfold enforce_numeric.
  assert (Hc' : mem c binary_cols
                || mem c ["GenHlth"; "Age"; "Education"; "Income"] = false).
  { rewrite mem_coded in Hc; exact Hc. }
  rewrite Hc'.
  pose proof (to_numeric_coerce_no_text s) as Ht.
  set (s1 := to_numeric_coerce s) in *.
  destruct (pd.isnull_any s1) eqn:En.
  - rewrite (median_no_text s1 Ht); simpl.
    destruct (existsb pd.is_num s1) eqn:Ex.
    + destruct (nanmedian_num _ (numbers_nonempty s1 Ex)) as [q ->].
      intros H; injection H as <-; left.
      apply fillna_nums; [reflexivity | exact Ht].
    + rewrite (no_num_no_numbers s1 Ex).
      intros H; injection H as <-; right.
      pose proof (no_text_no_num_missing s1 Ht Ex) as Hm.
      assert (E : pd.fillna NaN s1 = s1).
      { unfold pd.fillna; transitivity (map (fun x => x) s1); [| apply map_id].
        apply map_ext; intros []; reflexivity. }
      change (pd.nanmedian []) with NaN; rewrite E.
      split; [| exact Hm].
      intros ->; discriminate En.
  - intros H; injection H as <-; left.
    apply no_text_no_null_nums; assumption.
Qed.

Lemma column_rule_output (c : string) (s s' : Series) :
  column_rule c s = Ok s' ->
  forallb pd.is_num s' = true \/
  s' <> [] /\ Forall (fun v => v = NaN) s' /\
  mem c coded_cols = false /\ c <> "MentHlth" /\ c <> "PhysHlth".
Proof.
  intros H.
  destruct (column_handler_cases c s) as [Hc | [[-> | ->] | [Hc [H5 [H6 Hh]]]]].
  - unfold column_rule in H; apply bind_Ok_inv in H as [s1 [H1 H]].
    pose proof (handled_nums c s s1 Hc H1) as Hn.
    rewrite (enforce_numeric_nums c s1 Hn) in H; injection H as <-.
    left; exact Hn.
  - apply column_rule_Age in H as [[Hr _] _].
    left; eapply in_range_nums, Hr.
  - apply column_rule_Income in H as [[Hr _] _].
    left; eapply in_range_nums, Hr.
  - unfold column_rule in H; rewrite Hh in H; simpl in H.
    destruct (enforce_numeric_median c s s' Hc H) as [Hn | [Hne Hm]];
      [left; exact Hn | right; auto].
Qed.


End Output.


(** ** The day counts, value by value *)

Lemma Qtrunc_negative (q : Q) : q < 0 -> (pd.Qtrunc q <= 0)%Z.
Proof.
  destruct q as [n d]; unfold pd.Qtrunc, Qlt; simpl.
  rewrite Z.mul_1_r; intros H.
  rewrite <- (Z.quot_0_l (Z.pos d)) by lia.
  apply Z.quot_le_mono; lia.
Qed.

Lemma Qtrunc_above (q : Q) (lo : Z) :
  inject_Z lo <= q -> (lo <= pd.Qtrunc q)%Z.
Proof.
  destruct q as [n d]; unfold pd.Qtrunc, Qle; simpl.
  rewrite Z.mul_1_r; intros H.
  rewrite <- (Z.quot_mul lo (Z.pos d)) by lia.
  apply Z.quot_le_mono; lia.
Qed.

(** Clipping to [0, 30] and then taking the integer part is taking the
    integer part and then clamping it. *)
Lemma truncate_clipped (q : Q) :
  pd.truncate (if Qltb q 0 then Num 0
               else if Qltb 30 q then Num 30 else Num q)
  = day_value (Num q).
Proof.
  unfold day_value, pd.truncate.
  destruct (Qltb q 0) eqn:E0.
  - apply Qltb_lt, Qtrunc_negative in E0.
    change 0%Q with (inject_Z 0); rewrite Qtrunc_inject_Z.
    f_equal; lia.
  - destruct (Qltb 30 q) eqn:E30.
    + apply Qltb_lt, Qlt_le_weak in E30.
      apply (Qtrunc_above q 30) in E30.
      change 30%Q with (inject_Z 30); rewrite Qtrunc_inject_Z.
      f_equal; lia.
    + assert (H0 : 0 <= q).
      { destruct (Qlt_le_dec q 0) as [Hlt | Hle]; [| exact Hle].
        apply Qltb_lt in Hlt; congruence. }
      assert (H30 : q <= 30).
      { destruct (Qlt_le_dec 30 q) as [Hlt | Hle]; [| exact Hle].
        apply Qltb_lt in Hlt; congruence. }
      pose proof (Qtrunc_bounds q 30 H0 H30).
      f_equal; lia.
Qed.

Section DayCounts.

Context {P : Pandas}.

(** Lines 130-136.  When the step of MentHlth or PhysHlth returns, the
    column had a median, taken before the coercion, and every entry comes
    out as follows: the entry coerced to a number, or the median when the
    coercion leaves it missing, then its integer part (rounding towards
    zero), raised to 0 and lowered to 30. *)
Theorem day_counts_value_by_value (s s1 : Series) :
  handle_days s = Ok s1 ->
  exists m,
    median s = Ok m /\
    s1 = map (fun v => day_value (if isnull (coerce v) then m else coerce v)) s /\
    Forall (fun v => exists z, (0 <= z <= 30)%Z /\ v = int z) s1.
Proof.
  unfold handle_days; intros H.
  apply bind_Ok_inv in H as [m [Hm H]].
  apply astype_int_inv in H as [Hn ->].
  apply clip_nums_inv in Hn.
  exists m; split; [exact Hm |].
  assert (Hx : forall v, In v s ->
                 exists q, (if isnull (coerce v) then m else coerce v) = Num q).
  { intros v Hv.
    apply forallb_Forall in Hn; rewrite Forall_forall in Hn.
    specialize (Hn (if isnull (coerce v) then m else coerce v)).
    destruct (if isnull (coerce v) then m else coerce v) as [| q |] eqn:E;
      [| exists q; reflexivity |].
    - discriminate Hn.
      unfold pd.fillna, to_numeric_coerce; rewrite map_map.
      apply in_map_iff; exists v; split; [exact E | exact Hv].
    - discriminate Hn.
      unfold pd.fillna, to_numeric_coerce; rewrite map_map.
      apply in_map_iff; exists v; split; [exact E | exact Hv]. }
  assert (E : map (fun c => match c with
                            | Num q => int (pd.Qtrunc q)
                            | _ => c
                            end)
                  (pd.clip 0 30 (pd.fillna m (to_numeric_coerce s)))
              = map (fun v => day_value (if isnull (coerce v) then m else coerce v)) s).
  { unfold pd.clip, pd.fillna, to_numeric_coerce; rewrite !map_map.
    apply map_ext_in; intros v Hv.
    destruct (Hx v Hv) as [q ->].
    apply (truncate_clipped q). }
  split; [exact E |].
  rewrite E; apply Forall_map, Forall_forall; intros v Hv.
  destruct (Hx v Hv) as [q ->].
  exists (Z.max 0 (Z.min 30 (pd.Qtrunc q))); split; [lia | reflexivity].
Qed.

End DayCounts.

(** Witness: a fraction, a negative and a large count, and a missing
    entry that takes the median 20.75 and comes out as 20. *)
Lemma day_counts_value_by_value_witness :
  exists m,
    @median pandas2 [Num (59 # 2); int (-3); int 45; NaN; int 12] = Ok m /\
    [int 29; int 0; int 30; int 20; int 12]
    = map (fun v => day_value (if isnull (@coerce pandas2 v) then m
                               else @coerce pandas2 v))
          [Num (59 # 2); int (-3); int 45; NaN; int 12] /\
    Forall (fun v => exists z, (0 <= z <= 30)%Z /\ v = int z)
           [int 29; int 0; int 30; int 20; int 12].
Proof.
  apply (@day_counts_value_by_value pandas2
           [Num (59 # 2); int (-3); int 45; NaN; int 12]
           [int 29; int 0; int 30; int 20; int 12]).
  vm_compute; reflexivity.
Defined.

(** ** The deduplication, once more *)

Lemma distinct_rows_filter (p : pd.row -> bool) (rs : list pd.row) :
  distinct_rows rs -> distinct_rows (filter p rs).
Proof.
  induction rs as [| r rs IH]; simpl; [auto |].
  intros [Hr Hd]; destruct (p r); simpl; [| apply IH, Hd].
  split; [| apply IH, Hd].
  intros x Hx; apply filter_In in Hx as [Hx _]; apply Hr, Hx.
Qed.

Lemma first_occurrences_distinct (rs : list pd.row) :
  distinct_rows (keep_first_occurrences rs).
Proof.
  induction rs as [| r rs IH]; simpl; [exact I |].
  split; [| apply distinct_rows_filter, IH].
  intros x Hx; apply filter_In in Hx as [_ Hx].
  apply negb_true_iff in Hx; exact Hx.
Qed.

Lemma first_occurrences_cover (rs : list pd.row) (r : pd.row) :
  In r rs ->
  exists r', In r' (keep_first_occurrences rs) /\ pd.row_eqb r r' = true.
Proof.
  induction rs as [| a rs IH]; simpl; [tauto |].
  intros [<- | Hr].
  - exists a; split; [left; reflexivity | apply row_eqb_refl].
  - destruct (IH Hr) as [r' [Hin He]].
    destruct (pd.row_eqb r' a) eqn:Ea.
    + exists a; split; [left; reflexivity |].
      eapply row_eqb_trans; eassumption.
    + exists r'; split; [| exact He].
      right; apply filter_In; split; [exact Hin | rewrite Ea; reflexivity].
Qed.

Lemma first_occurrences_sublist (rs : list pd.row) (r : pd.row) :
  In r (keep_first_occurrences rs) -> In r rs.
Proof.
  induction rs as [| a rs IH]; simpl; [tauto |].
  intros [<- | Hr]; [left; reflexivity |].
  apply filter_In in Hr as [Hr _]; right; apply IH, Hr.
Qed.

(** Lines 32-35.  On a table with one entry per row in every column:
    after [drop_duplicates] no two rows are equal; every row of the table
    is equal to a row that was kept, and every row kept is a row of the
    table; deduplicating once more changes nothing. *)
Theorem deduplication_leaves_distinct_rows (df : DataFrame) :
  rectangular df ->
  distinct_rows (pd.rows (pd.drop_duplicates df)) /\
  (forall r, In r (pd.rows df) ->
             exists r', In r' (pd.rows (pd.drop_duplicates df)) /\
                        pd.row_eqb r r' = true) /\
  (forall r, In r (pd.rows (pd.drop_duplicates df)) -> In r (pd.rows df)) /\
  pd.drop_duplicates (pd.drop_duplicates df) = pd.drop_duplicates df.
Proof.
  intros Hr.
  pose proof (rows_drop_duplicates df Hr) as E.
  assert (Hd : distinct_rows (pd.rows (pd.drop_duplicates df))).
  { rewrite E; apply first_occurrences_distinct. }
  split; [exact Hd |].
  split; [rewrite E; apply first_occurrences_cover |].
  split; [rewrite E; apply first_occurrences_sublist |].
  apply drop_duplicates_distinct; [| exact Hd].
  apply drop_duplicates_rectangular, Hr.
Qed.

(** Witness: the first row comes back as the third, with 1 written 1.0. *)
Lemma deduplication_leaves_distinct_rows_witness :
  distinct_rows (pd.rows (pd.drop_duplicates
    [("HighBP", [int 1; int 0; Num (2 # 2)]); ("BMI", [int 20; int 30; int 20])])) /\
  (forall r, In r (pd.rows
    [("HighBP", [int 1; int 0; Num (2 # 2)]); ("BMI", [int 20; int 30; int 20])]) ->
     exists r', In r' (pd.rows (pd.drop_duplicates
       [("HighBP", [int 1; int 0; Num (2 # 2)]); ("BMI", [int 20; int 30; int 20])])) /\
                pd.row_eqb r r' = true) /\
  (forall r, In r (pd.rows (pd.drop_duplicates
    [("HighBP", [int 1; int 0; Num (2 # 2)]); ("BMI", [int 20; int 30; int 20])])) ->
     In r (pd.rows
       [("HighBP", [int 1; int 0; Num (2 # 2)]); ("BMI", [int 20; int 30; int 20])])) /\
  pd.drop_duplicates (pd.drop_duplicates
    [("HighBP", [int 1; int 0; Num (2 # 2)]); ("BMI", [int 20; int 30; int 20])])
  = pd.drop_duplicates
    [("HighBP", [int 1; int 0; Num (2 # 2)]); ("BMI", [int 20; int 30; int 20])].
Proof.
  apply (deduplication_leaves_distinct_rows
    [("HighBP", [int 1; int 0; Num (2 # 2)]); ("BMI", [int 20; int 30; int 20])]).
  repeat constructor.
Defined.

(** ** Running the engine on its own output *)

Lemma fillna_missing_idle (s : Series) : pd.fillna NaN s = s.
Proof.
  unfold pd.fillna; transitivity (map (fun x => x) s); [| apply map_id].
  apply map_ext; intros []; reflexivity.
Qed.

Lemma all_missing_no_text (s : Series) :
  Forall (fun v => v = NaN) s -> existsb is_text s = false.
Proof.
  intros H; apply existsb_false_Forall.
  eapply Forall_impl; [| exact H]; intros v ->; reflexivity.
Qed.

Lemma all_missing_no_numbers (s : Series) :
  Forall (fun v => v = NaN) s -> pd.numbers s = [].
Proof.
  induction 1 as [| v s -> _ IH]; [reflexivity | exact IH].
Qed.

Lemma Forall2_map_left {A B C : Type} (R : B -> C -> Prop) (f : A -> B)
    (l : list A) (l' : list C) :
  Forall2 R (map f l) l' -> Forall2 (fun x y => R (f x) y) l l'.
Proof.
  revert l'; induction l as [| a l IH]; intros l' H; inversion H; subst;
    constructor; auto.
Qed.

Section SecondRun.

Context {P : Pandas}.

Lemma median_all_missing (s : Series) :
  Forall (fun v => v = NaN) s -> median s = Ok NaN.
Proof.
  intros H.
  rewrite (median_no_text s (all_missing_no_text s H)).
  rewrite (all_missing_no_numbers s H); reflexivity.
Qed.

Lemma column_rule_settled (c : string) (s s' : Series) :
  column_rule c s = Ok s' -> settled c s'.
Proof.
  intros H.
  pose proof (column_rule_range_closure c s s' H) as [HG [HE [HA [HI HD]]]].
  unfold settled.
  split; [| split; [| split; [| split; [| split; [| split]]]]].
  - destruct (column_rule_output c s s' H) as [Hn | [_ Hm]]; [left | right]; tauto.
  - intros Hb; rewrite (column_rule_binary c s Hb) in H; injection H as <-.
    apply Forall_map, Forall_forall; intros v _; apply binary_value_bit.
  - intros Hc; apply (HG Hc).
  - intros Hc; apply (HE Hc).
  - intros Hc; apply (HA Hc).
  - intros Hc; apply (HI Hc).
  - intros Hc; destruct (HD Hc) as [Hr Hi]; apply Forall_and; assumption.
Qed.

Lemma settled_drop (c : string) (s : Series) (marks : list bool) :
  settled c s -> settled c (pd.drop marks s).
Proof.
  unfold settled; intros [H0 [HB [HG [HE [HA [HI HD]]]]]].
  split; [| split; [| split; [| split; [| split; [| split]]]]];
    try (intros Hc; apply drop_Forall; auto).
  destruct H0 as [Hn | [Hc [H5 [H6 Hm]]]]; [left | right].
  - apply forallb_Forall, drop_Forall, forallb_Forall, Hn.
  - repeat split; try assumption; apply drop_Forall, Hm.
Qed.

Lemma settled_impute (c : string) (s : Series) :
  settled c s -> (mem c coded_cols = true -> s <> []) ->
  impute_column c s = Ok s.
Proof.
  intros [[Hn | [Hc [_ [_ Hm]]]] _] Hne; [apply impute_column_clean; assumption |].
  unfold impute_column; rewrite Hc.
  destruct (mem c continuous_cols); [| reflexivity].
  rewrite (median_all_missing s Hm); simpl.
  rewrite fillna_missing_idle; reflexivity.
Qed.

Lemma bits_are_fixed (s : Series) :
  Forall (fun v => v = int 0 \/ v = int 1) s -> map binary_value s = s.
Proof.
  intros H; transitivity (map (fun x => x) s); [| apply map_id].
  apply map_ext_Forall; eapply Forall_impl; [| exact H].
  intros v [-> | ->]; reflexivity.
Qed.

Lemma integers_are_fixed (lo hi : Q) (s : Series) :
  Forall (fun v => in_range lo hi v /\ is_integer v) s -> map pd.truncate s = s.
Proof.
  intros H; transitivity (map (fun x => x) s); [| apply map_id].
  apply map_ext_Forall; eapply Forall_impl; [| exact H].
  intros v [_ [z ->]]; unfold pd.truncate, int.
  rewrite Qtrunc_inject_Z; reflexivity.
Qed.

Lemma settled_rule (c : string) (s : Series) :
  settled c s -> column_rule c s = Ok s.
Proof.
  intros [H0 [HB [HG [HE [HA [HI HD]]]]]].
  destruct (mem c binary_cols) eqn:Eb.
  { rewrite (column_rule_binary c s Eb), (bits_are_fixed s (HB eq_refl)).
    reflexivity. }
  destruct (column_handler_cases c s)
    as [[Hb | [-> | [-> | Hd]]] | [[-> | ->] | [Hc [H5 [H6 Hh]]]]].
  - congruence.
  - unfold column_rule.
    change (column_handler "GenHlth" s) with (handle_GenHlth s).
    rewrite handle_GenHlth_idle, (in_expected_range_intro 1 5 s (HG eq_refl)).
    apply enforce_numeric_nums, in_range_nums with (lo := 1) (hi := 5), HG.
    reflexivity.
  - unfold column_rule.
    change (column_handler "Education" s) with (handle_Education s).
    rewrite handle_Education_idle, (in_expected_range_intro 1 6 s (HE eq_refl)).
    apply enforce_numeric_nums, in_range_nums with (lo := 1) (hi := 6), HE.
    reflexivity.
  - pose proof (HD Hd) as Hs.
    assert (Hr : Forall (in_range 0 30) s).
    { eapply Forall_impl; [| exact Hs]; intros v [Hv _]; exact Hv. }
    unfold column_rule.
    assert (Eh : column_handler c s = handle_days s)
      by (destruct Hd; subst c; reflexivity).
    rewrite Eh, (handle_days_clean s Hr), (integers_are_fixed 0 30 s Hs).
    apply enforce_numeric_nums, in_range_nums with (lo := 0) (hi := 30), Hr.
  - unfold column_rule.
    change (column_handler "Age" s) with (handle_Age s).
    rewrite handle_Age_idle, (in_expected_range_intro 1 13 s (HA eq_refl)).
    apply enforce_numeric_nums, in_range_nums with (lo := 1) (hi := 13), HA.
    reflexivity.
  - unfold column_rule.
    change (column_handler "Income" s) with (handle_Income s).
    rewrite handle_Income_idle, (in_expected_range_intro 1 8 s (HI eq_refl)).
    apply enforce_numeric_nums, in_range_nums with (lo := 1) (hi := 8), HI.
    reflexivity.
  - unfold column_rule; rewrite Hh; cbn [bind].
    destruct H0 as [Hn | [_ [_ [_ Hm]]]]; [apply enforce_numeric_nums, Hn |].
    unfold enforce_numeric.
    rewrite (to_numeric_coerce_id s (all_missing_no_text s Hm)).
    assert (Hc' : mem c binary_cols
                  || mem c ["GenHlth"; "Age"; "Education"; "Income"] = false).
    { rewrite mem_coded in Hc; exact Hc. }
    rewrite Hc'.
    destruct (pd.isnull_any s); [| reflexivity].
    rewrite (median_all_missing s Hm); cbn [bind].
    rewrite fillna_missing_idle; reflexivity.
Qed.

Lemma preprocess_rectangular (df df' : DataFrame) :
  rectangular df -> preprocess_survey_data df = Ok df' -> rectangular df'.
Proof.
  intros Hr H.
  apply preprocess_row_counts in H as [df0 [_ [L0 [L1 _]]]].
  eapply same_length_rectangular; [exact L1 |].
  apply drop_duplicates_rectangular.
  eapply same_length_rectangular; [exact L0 | exact Hr].
Qed.

Lemma preprocess_canonical (df df' : DataFrame) :
  preprocess_survey_data df = Ok df' ->
  Forall (fun p => canonical_label (fst p) = fst p) df'.
Proof.
  unfold preprocess_survey_data, impute_and_deduplicate; intros H.
  apply bind_Ok_inv in H as [df1 [H1 H2]].
  apply bind_Ok_inv in H1 as [df0 [H0 H1]]; injection H1 as <-.
  apply encode_and_enforce_columns, pass_labels in H2.
  apply pass_labels in H0.
  rewrite drop_duplicates_labels, H0, rename_columns_labels in H2.
  assert (Hl : Forall (fun c => canonical_label c = c) (map fst df')).
  { rewrite H2; apply Forall_map, Forall_forall; intros c _.
    apply canonical_label_idempotent. }
  apply Forall_map in Hl; exact Hl.
Qed.

(** The coded columns of the output of a run on a table with one entry
    per row in every column are not empty. *)
Lemma preprocess_coded_nonempty (df df' : DataFrame) :
  rectangular df -> preprocess_survey_data df = Ok df' ->
  Forall (fun p => mem (fst p) coded_cols = true -> snd p <> []) df'.
Proof.
  intros Hr H.
  unfold preprocess_survey_data, impute_and_deduplicate in H.
  apply bind_Ok_inv in H as [df1 [H1 H2]].
  apply bind_Ok_inv in H1 as [df0 [H0 H1]]; injection H1 as <-.
  assert (Hr0 : rectangular df0).
  { eapply same_length_rectangular;
      [| exact (rename_columns_rectangular df Hr)].
    eapply pass_same_length; [| exact H0].
    exact impute_column_length. }
  assert (Hne : Forall (fun p => mem (fst p) coded_cols = true -> snd p <> []) df0).
  { apply for_each_column_Ok in H0.
    eapply Forall2_Forall_r; [| exact H0].
    intros [c s] [c' s'] [Ec Hs] Hc; simpl in *; subst c'.
    pose proof (impute_column_coded_nonempty c s s' Hs Hc) as Hn.
    apply impute_column_length in Hs.
    intros ->; destruct s; [congruence | discriminate Hs]. }
  apply encode_and_enforce_columns, for_each_column_Ok in H2.
  unfold pd.drop_duplicates in H2; apply Forall2_map_left in H2.
  apply Forall_forall; intros [c' s'] Hin Hc; simpl in *.
  destruct (Forall2_In_r _ _ _ _ H2 Hin) as [[c s] [Hx [Ec Hs]]]; simpl in *.
  subst c'.
  rewrite Forall_forall in Hne; specialize (Hne (c, s) Hx Hc); simpl in Hne.
  destruct s as [| v s]; [congruence |].
  destruct (value_survives df0 c (v :: s) v Hr0 Hx ltac:(left; reflexivity))
    as [v' [Hv' _]].
  apply column_rule_length in Hs.
  intros ->; destruct (pd.drop (pd.duplicated df0) (v :: s));
    [destruct Hv' | discriminate Hs].
Qed.

(** Lines 17-148, run twice.  On a table with one entry per row in every
    column, whenever the engine returns, it returns again on its own
    output, and all the second run does is to drop the rows that the
    first run made equal to an earlier row: no label and no remaining
    value changes.  An output without such rows is returned as it is. *)
Theorem second_run_only_drops_duplicates (df df' : DataFrame) :
  rectangular df ->
  preprocess_survey_data df = Ok df' ->
  preprocess_survey_data df' = Ok (pd.drop_duplicates df') /\
  (distinct_rows (pd.rows df') -> preprocess_survey_data df' = Ok df').
Proof.
  intros Hr H.
  pose proof (preprocess_canonical df df' H) as Hl.
  pose proof (preprocess_coded_nonempty df df' Hr H) as Hne.
  pose proof (preprocess_rectangular df df' Hr H) as Hr'.
  assert (Hs : Forall (fun p => settled (fst p) (snd p)) df').
  { destruct (preprocess_inv df df' H) as [df1 [_ HF]].
    eapply Forall2_Forall_r; [| exact HF].
    intros [c s] [c' s'] [Ec Hcs]; simpl in *; subst c'.
    eapply column_rule_settled; exact Hcs. }
  assert (E : preprocess_survey_data df' = Ok (pd.drop_duplicates df')).
  { unfold preprocess_survey_data, impute_and_deduplicate.
    assert (E1 : rename_columns df' = df').
    { unfold rename_columns.
      transitivity (map (fun x => x) df'); [| apply map_id].
      apply map_ext_Forall; eapply Forall_impl; [| exact Hl].
      intros [c s] Hc; simpl in Hc; rewrite Hc; reflexivity. }
    assert (E2 : for_each_column impute_column df' = Ok df').
    { apply for_each_column_Ok, Forall2_diag.
      eapply Forall_impl; [| exact (Forall_and _ _ _ Hs Hne)].
      intros [c s] [Hc Hn]; split; [reflexivity |]; simpl in *.
      apply settled_impute; assumption. }
    rewrite E1, E2; cbn [bind].
    apply encode_and_enforce_columns, for_each_column_Ok, Forall2_diag.
    unfold pd.drop_duplicates; apply Forall_map.
    eapply Forall_impl; [| exact Hs].
    intros [c s] Hc; split; [reflexivity |]; simpl in *.
    apply settled_rule, settled_drop, Hc. }
  split; [exact E |].
  intros Hd; rewrite E, (drop_duplicates_distinct df' Hr' Hd); reflexivity.
Qed.

End SecondRun.

(** Witness: two rows that differ in Smoker only, 2 against 3, come out
    equal, and the second run drops the second of them. *)
Lemma second_run_only_drops_duplicates_witness :
  @preprocess_survey_data pandas2
    [("Smoker", [int 1; int 1; int 0]); ("Age", [int 5; int 5; int 13])]
  = Ok (pd.drop_duplicates
          [("Smoker", [int 1; int 1; int 0]); ("Age", [int 5; int 5; int 13])]) /\
  (distinct_rows
     (pd.rows [("Smoker", [int 1; int 1; int 0]); ("Age", [int 5; int 5; int 13])]) ->
   @preprocess_survey_data pandas2
     [("Smoker", [int 1; int 1; int 0]); ("Age", [int 5; int 5; int 13])]
   = Ok [("Smoker", [int 1; int 1; int 0]); ("Age", [int 5; int 5; int 13])]).
Proof.
  apply (@second_run_only_drops_duplicates pandas2
           [("Smoker", [int 2; int 3; int 0]); ("Age", [int 42; int 42; int 81])]).
  - repeat constructor.
  - vm_compute; reflexivity.
Defined.

(** ** The buckets cover the range and keep the order *)

Lemma income_below_first_edge (q : Q) :
  q < 0 -> pd.cut_value income_bins income_labels q = NaN.
Proof.
  intros H.
  unfold pd.cut_value, pd.searchsorted_right, pd.edge_eqb, pd.edge_leb;
  cbn [income_bins map app filter].
  decide_edges q; cbn [filter length].
  destruct (Qeq_bool 0 q) eqn:E; [| reflexivity].
  apply Qeq_bool_iff in E; lra.
Qed.

Ltac locate q l lo e :=
  destruct (Qlt_le_dec q e);
  [exists l, lo, (Some e); split;
   [unfold age_intervals, income_intervals, bounded, unbounded; cbn [In];
    auto 20
   | unfold in_interval; split; assumption] |].

Lemma age_interval_of (q : Q) :
  18 <= q ->
  exists l lo hi, In (l, lo, hi) age_intervals /\ in_interval lo hi q.
Proof.
  intros H.
  locate q 1%Z 18 25. locate q 2%Z 25 30. locate q 3%Z 30 35.
  locate q 4%Z 35 40. locate q 5%Z 40 45. locate q 6%Z 45 50.
  locate q 7%Z 50 55. locate q 8%Z 55 60. locate q 9%Z 60 65.
  locate q 10%Z 65 70. locate q 11%Z 70 75. locate q 12%Z 75 80.
  exists 13%Z, 80, None; split; [| split; [assumption | exact I]].
  unfold age_intervals, bounded, unbounded; cbn [In]; auto 20.
Qed.

Lemma income_interval_of (q : Q) :
  0 <= q ->
  exists l lo hi, In (l, lo, hi) income_intervals /\ in_interval lo hi q.
Proof.
  intros H.
  locate q 1%Z 0 10000. locate q 2%Z 10000 15000. locate q 3%Z 15000 20000.
  locate q 4%Z 20000 25000. locate q 5%Z 25000 35000.
  locate q 6%Z 35000 50000. locate q 7%Z 50000 75000.
  exists 8%Z, 75000, None; split; [| split; [assumption | exact I]].
  unfold income_intervals, bounded, unbounded; cbn [In]; auto 20.
Qed.

Lemma age_interval_label (l : Z) (lo : Q) (hi : option Q) :
  In (l, lo, hi) age_intervals -> (1 <= l <= 13)%Z.
Proof.
  unfold age_intervals, bounded, unbounded; cbn [In]; intros H.
  repeat (destruct H as [H | H]; [injection H as <- <- <-; lia |]).
  contradiction.
Qed.

Lemma income_interval_label (l : Z) (lo : Q) (hi : option Q) :
  In (l, lo, hi) income_intervals -> (1 <= l <= 8)%Z.
Proof.
  unfold income_intervals, bounded, unbounded; cbn [In]; intros H.
  repeat (destruct H as [H | H]; [injection H as <- <- <-; lia |]).
  contradiction.
Qed.

Ltac compare_labels :=
  first [ lia | exfalso; lra ].

Lemma age_intervals_ordered (x y : Q) (l l' : Z) (lo lo' : Q) (hi hi' : option Q) :
  In (l, lo, hi) age_intervals -> In (l', lo', hi') age_intervals ->
  in_interval lo hi x -> in_interval lo' hi' y -> x <= y -> (l <= l')%Z.
Proof.
  unfold age_intervals, in_interval, bounded, unbounded; cbn [In].
  intros H H' [Hlo Hhi] [Hlo' Hhi'] Hxy.
  repeat (destruct H as [H | H]; [injection H as <- <- <- |]);
    try contradiction;
    repeat (destruct H' as [H' | H']; [injection H' as <- <- <- |]);
    try contradiction; compare_labels.
Qed.

Lemma income_intervals_ordered (x y : Q) (l l' : Z) (lo lo' : Q)
    (hi hi' : option Q) :
  In (l, lo, hi) income_intervals -> In (l', lo', hi') income_intervals ->
  in_interval lo hi x -> in_interval lo' hi' y -> x <= y -> (l <= l')%Z.
Proof.
  unfold income_intervals, in_interval, bounded, unbounded; cbn [In].
  intros H H' [Hlo Hhi] [Hlo' Hhi'] Hxy.
  repeat (destruct H as [H | H]; [injection H as <- <- <- |]);
    try contradiction;
    repeat (destruct H' as [H' | H']; [injection H' as <- <- <- |]);
    try contradiction; compare_labels.
Qed.

Lemma int_injective (a b : Z) : int a = int b -> a = b.
Proof. intros H; injection H as H; exact H. Qed.

(** Lines 107-113 and 122-126.  The bucketing of Age leaves a number
    missing exactly when it is below the first edge 18, gives every other
    number a label from 1 to 13, and keeps the order: of two ages the
    larger never gets the smaller label.  Likewise for Income, with the
    first edge 0 and the labels 1 to 8. *)
Theorem buckets_cover_and_keep_the_order :
  (forall q, q < 18 -> pd.cut_value age_bins age_labels q = NaN) /\
  (forall q, 18 <= q ->
     exists l, (1 <= l <= 13)%Z /\ pd.cut_value age_bins age_labels q = int l) /\
  (forall x y l l',
     x <= y ->
     pd.cut_value age_bins age_labels x = int l ->
     pd.cut_value age_bins age_labels y = int l' -> (l <= l')%Z) /\
  (forall q, q < 0 -> pd.cut_value income_bins income_labels q = NaN) /\
  (forall q, 0 <= q ->
     exists l, (1 <= l <= 8)%Z /\ pd.cut_value income_bins income_labels q = int l) /\
  (forall x y l l',
     x <= y ->
     pd.cut_value income_bins income_labels x = int l ->
     pd.cut_value income_bins income_labels y = int l' -> (l <= l')%Z).
Proof.
  split; [exact age_below_first_edge |].
  split.
  { intros q Hq; destruct (age_interval_of q Hq) as [l [lo [hi [Hin Hq']]]].
    exists l; split; [eapply age_interval_label, Hin | eapply age_bucket; eassumption]. }
  split.
  { intros x y l l' Hxy Hx Hy.
    destruct (Qlt_le_dec x 18) as [Hlt | Hx18].
    { rewrite (age_below_first_edge x Hlt) in Hx; discriminate Hx. }
    assert (Hy18 : 18 <= y) by lra.
    destruct (age_interval_of x Hx18) as [a [lo [hi [Hin Hq]]]].
    destruct (age_interval_of y Hy18) as [a' [lo' [hi' [Hin' Hq']]]].
    rewrite (age_bucket x a lo hi Hin Hq) in Hx; apply int_injective in Hx.
    rewrite (age_bucket y a' lo' hi' Hin' Hq') in Hy; apply int_injective in Hy.
    subst l l'; eapply age_intervals_ordered with (x := x) (y := y); eassumption. }
  split; [exact income_below_first_edge |].
  split.
  { intros q Hq; destruct (income_interval_of q Hq) as [l [lo [hi [Hin Hq']]]].
    exists l; split;
      [eapply income_interval_label, Hin | eapply income_bucket; eassumption]. }
  intros x y l l' Hxy Hx Hy.
  destruct (Qlt_le_dec x 0) as [Hlt | Hx0].
  { rewrite (income_below_first_edge x Hlt) in Hx; discriminate Hx. }
  assert (Hy0 : 0 <= y) by lra.
  destruct (income_interval_of x Hx0) as [a [lo [hi [Hin Hq]]]].
  destruct (income_interval_of y Hy0) as [a' [lo' [hi' [Hin' Hq']]]].
  rewrite (income_bucket x a lo hi Hin Hq) in Hx; apply int_injective in Hx.
  rewrite (income_bucket y a' lo' hi' Hin' Hq') in Hy; apply int_injective in Hy.
  subst l l'; eapply income_intervals_ordered with (x := x) (y := y); eassumption.
Qed.

(** Witness: an age of 24.5 and an age of 25. *)
Lemma buckets_cover_and_keep_the_order_witness : (1 <= 2)%Z.
Proof.
  apply (proj1 (proj2 (proj2 buckets_cover_and_keep_the_order))
           (49 # 2) 25 1%Z 2%Z).
  - unfold Qle; simpl; lia.
  - vm_compute; reflexivity.
  - vm_compute; reflexivity.
Defined.

(** ** Columns on which the engine raises *)

Lemma outside_congr (lo hi : Q) (v v' : cell) :
  cell_eqb v v' = true -> outside lo hi v -> outside lo hi v'.
Proof.
  destruct v as [| q |], v' as [| q' |]; simpl; try discriminate; auto.
  rewrite Qeq_bool_iff; intros E [H | H]; [left | right]; rewrite <- E; exact H.
Qed.

Lemma outside_not_expected (lo hi : Q) (s : Series) (v : cell) :
  In v s -> outside lo hi v -> in_expected_range lo hi s = false.
Proof.
  intros Hv Ho.
  destruct (in_expected_range lo hi s) eqn:E; [| reflexivity].
  apply in_expected_range_inv in E; rewrite Forall_forall in E.
  destruct (E v Hv) as [q [-> [H1 H2]]]; simpl in Ho.
  destruct Ho as [Ho | Ho]; exfalso; [eapply Qlt_not_le | eapply Qlt_not_le];
    eassumption.
Qed.

Section RaisingColumns.

Context {P : Pandas}.

(** A column of the raw table on which the rule of its label raises
    whatever the deduplication keeps of it makes the engine raise. *)
Lemma engine_raises_through (df : DataFrame) (c : string) (s : Series)
    (G B : cell -> Prop) :
  rectangular df -> In (c, s) df ->
  (forall v v', cell_eqb v v' = true -> B v -> B v') ->
  (forall s0, impute_column (canonical_label c) s = Ok s0 ->
              Forall G s0 /\ exists v, In v s0 /\ B v) ->
  (forall s1, Forall G s1 -> (exists v, In v s1 /\ B v) ->
              raises (column_rule (canonical_label c) s1)) ->
  raises (preprocess_survey_data df).
Proof.
  intros Hr Hin HB Himp Hrule.
  unfold preprocess_survey_data.
  destruct (impute_and_deduplicate df) as [df1 | e] eqn:E;
    [| exists e; reflexivity].
  cbn [bind].
  unfold impute_and_deduplicate in E.
  apply bind_Ok_inv in E as [df0 [H0 E]]; injection E as <-.
  assert (Hr0 : rectangular df0).
  { eapply same_length_rectangular;
      [| exact (rename_columns_rectangular df Hr)].
    eapply pass_same_length; [| exact H0].
    exact impute_column_length. }
  apply for_each_column_Ok in H0.
  assert (Hin' : In (canonical_label c, s) (rename_columns df)).
  { unfold rename_columns.
    apply (in_map (fun '(c, s) => (canonical_label c, s)) df (c, s) Hin). }
  destruct (Forall2_In_l _ _ _ _ H0 Hin') as [[c0 s0] [Hin0 [Ec Hs0]]].
  simpl in Ec, Hs0; subst c0.
  destruct (Himp s0 Hs0) as [HG [v [Hv Hb]]].
  destruct (value_survives df0 _ s0 v Hr0 Hin0 Hv) as [v' [Hv' Evv]].
  apply not_Ok_raises; intros df' H'.
  apply encode_and_enforce_columns in H'.
  revert H'; apply raises_not_Ok.
  apply (for_each_column_raises column_rule _ (canonical_label c)
           (pd.drop (pd.duplicated df0) s0)).
  - unfold pd.drop_duplicates.
    apply (in_map (fun '(c, s) => (c, pd.drop (pd.duplicated df0) s))
             df0 (canonical_label c, s0) Hin0).
  - apply Hrule; [apply drop_Forall, HG |].
    exists v'; split; [exact Hv' | exact (HB v v' Evv Hb)].
Qed.

(** What the first imputation makes of a coded column holds only values
    of the column, and every value that was present. *)
Lemma impute_coded_values (c : string) (s s0 : Series) (G B : cell -> Prop) :
  mem c coded_cols = true ->
  (forall v, In v s -> G v) ->
  (exists v, In v s /\ B v) ->
  (forall v, B v -> isnull v = false) ->
  impute_column c s = Ok s0 ->
  Forall G s0 /\ exists v, In v s0 /\ B v.
Proof.
  intros Hc HG [v [Hv Hb]] Hn H; unfold impute_column in H.
  destruct (mem c continuous_cols) eqn:Ec.
  { apply continuous_not_coded in Ec; congruence. }
  rewrite Hc in H.
  apply bind_Ok_inv in H as [m [Hm H]]; injection H as <-.
  apply first_mode_inv in Hm as [Hm _].
  split.
  - unfold pd.fillna; apply Forall_map, Forall_forall; intros x Hx.
    destruct (isnull x); auto.
  - exists v; split; [| exact Hb].
    apply fillna_In; [exact Hv | apply Hn, Hb].
Qed.

Lemma outside_present (lo hi : Q) (v : cell) : outside lo hi v -> isnull v = false.
Proof. destruct v; simpl; tauto || reflexivity. Qed.

Lemma remap_without_keys (d : pd.dict) (s : Series) :
  Forall (fun v => pd.lookup d v = None) s -> remap d s = Raise KeyError.
Proof.
  intros H; unfold remap.
  assert (E : existsb notnull (pd.map_dict d s) = false).
  { apply existsb_false_Forall; unfold pd.map_dict; apply Forall_map.
    eapply Forall_impl; [| exact H].
    intros v Hv; cbv beta; rewrite Hv; reflexivity. }
  rewrite (all_missing_no_mode _ E); reflexivity.
Qed.

Lemma ordinal_rule_raises (s : Series) :
  (Forall (fun v => pd.lookup genhlth_mapping v = None) s ->
   (exists v, In v s /\ outside 1 5 v) ->
   raises (column_rule "GenHlth" s)) /\
  (Forall (fun v => pd.lookup education_mapping v = None) s ->
   (exists v, In v s /\ outside 1 6 v) ->
   raises (column_rule "Education" s)).
Proof.
  split; intros Hk [v [Hv Ho]]; unfold column_rule; apply raises_bind.
  - change (column_handler "GenHlth" s) with (handle_GenHlth s).
    rewrite handle_GenHlth_idle, (outside_not_expected 1 5 s v Hv Ho).
    exists KeyError; apply remap_without_keys, Hk.
  - change (column_handler "Education" s) with (handle_Education s).
    rewrite handle_Education_idle, (outside_not_expected 1 6 s v Hv Ho).
    exists KeyError; apply remap_without_keys, Hk.
Qed.

(** Lines 74-78 and 92-96.  A GenHlth column in which some value is text
    or a number outside [1, 5], so that it is remapped, and in which no
    value is a key of the dict, is mapped to a column without a value:
    [mode()[0]] raises and the engine ends in an exception, on any table
    with one entry per row in every column.  This is what happens to a
    column of capitalised labels.  Likewise for Education and [1, 6]. *)
Theorem ordinal_column_without_a_key_raises (df : DataFrame)
    (c : string) (s : Series) :
  rectangular df -> In (c, s) df ->
  (canonical_label c = "GenHlth" /\
   (exists v, In v s /\ outside 1 5 v) /\
   (forall v, In v s -> pd.lookup genhlth_mapping v = None)) \/
  (canonical_label c = "Education" /\
   (exists v, In v s /\ outside 1 6 v) /\
   (forall v, In v s -> pd.lookup education_mapping v = None)) ->
  raises (preprocess_survey_data df).
Proof.
  intros Hr Hin [[Ec [Ho Hk]] | [Ec [Ho Hk]]].
  - apply (engine_raises_through df c s
             (fun v => pd.lookup genhlth_mapping v = None) (outside 1 5) Hr Hin).
    + apply outside_congr.
    + rewrite Ec; intros s0; apply impute_coded_values;
        [reflexivity | exact Hk | exact Ho | apply outside_present].
    + rewrite Ec; intros s1; apply (proj1 (ordinal_rule_raises s1)).
  - apply (engine_raises_through df c s
             (fun v => pd.lookup education_mapping v = None) (outside 1 6) Hr Hin).
    + apply outside_congr.
    + rewrite Ec; intros s0; apply impute_coded_values;
        [reflexivity | exact Hk | exact Ho | apply outside_present].
    + rewrite Ec; intros s1; apply (proj2 (ordinal_rule_raises s1)).
Qed.

End RaisingColumns.

(** Witness: capitalised labels. *)
Lemma ordinal_column_without_a_key_raises_witness :
  raises (@preprocess_survey_data pandas2
            [("BMI", [int 20; int 30]); ("GenHlth", [Str "Good"; Str "Poor"])]).
Proof.
  apply (@ordinal_column_without_a_key_raises pandas2
           [("BMI", [int 20; int 30]); ("GenHlth", [Str "Good"; Str "Poor"])]
           "GenHlth" [Str "Good"; Str "Poor"]).
  - repeat constructor.
  - right; left; reflexivity.
  - left; split; [reflexivity | split].
    + exists (Str "Good"); split; [left; reflexivity | exact I].
    + intros v [<- | [<- | []]]; reflexivity.
Defined.

Lemma numbers_In (s : Series) (x : Q) : In x (pd.numbers s) <-> In (Num x) s.
Proof.
  unfold pd.numbers; rewrite in_flat_map; split.
  - intros [c [Hc Hx]]; destruct c as [| q |]; simpl in Hx; try tauto.
    destruct Hx as [<- | []]; exact Hc.
  - intros H; exists (Num x); split; [exact H | left; reflexivity].
Qed.

(** The median is at most one of the numbers. *)
Lemma nanmedian_below_one (l : list Q) (q : Q) :
  pd.nanmedian l = Num q -> exists x, In x l /\ q <= x.
Proof.
  intros H.
  assert (Hl : l <> []) by (intros ->; discriminate H).
  destruct (nanmedian_halves l q H) as [_ Ha].
  unfold at_or_above in Ha.
  destruct (filter (fun x => Qle_bool q x) l) as [| x r] eqn:E.
  - destruct l; [congruence | simpl in Ha; lia].
  - assert (Hx : In x (filter (fun x => Qle_bool q x) l))
      by (rewrite E; left; reflexivity).
    apply filter_In in Hx as [Hx Hq]; apply Qle_bool_iff in Hq.
    exists x; split; assumption.
Qed.

Section RaisingBuckets.

Context {P : Pandas}.

(** When no value coerces to a number of at least 18, the bucketing of
    Age leaves every entry missing. *)
Lemma bin_age_all_missing (s : Series) :
  Forall (fun v => forall q, coerce v = Num q -> q < 18) s ->
  bin age_bins age_labels s = Ok (map (fun _ => NaN) s).
Proof.
  intros HG; unfold bin, impute_for_binning.
  pose proof (to_numeric_coerce_no_text s) as Ht.
  assert (Hfill : exists f,
             (if negb (pd.isnull_all (to_numeric_coerce s))
              then median (to_numeric_coerce s)
              else Ok (middle_label age_labels)) = Ok (Num f) /\ f < 18).
  { destruct (pd.isnull_all (to_numeric_coerce s)) eqn:En; cbn [negb].
    - exists 6; split; [reflexivity | reflexivity].
    - rewrite (median_no_text _ Ht).
      assert (Hx : existsb pd.is_num (to_numeric_coerce s) = true).
      { destruct (existsb pd.is_num (to_numeric_coerce s)) eqn:Ex; [reflexivity |].
        pose proof (no_text_no_num_missing _ Ht Ex) as Hm.
        assert (pd.isnull_all (to_numeric_coerce s) = true); [| congruence].
        apply forallb_Forall; eapply Forall_impl; [| exact Hm].
        intros v ->; reflexivity. }
      destruct (nanmedian_num _ (numbers_nonempty _ Hx)) as [f Hf].
      exists f; split; [rewrite Hf; reflexivity |].
      destruct (nanmedian_below_one _ f Hf) as [x [Hin Hfx]].
      apply numbers_In in Hin.
      unfold to_numeric_coerce in Hin; apply in_map_iff in Hin as [v [Hv Hvs]].
      rewrite Forall_forall in HG.
      eapply Qle_lt_trans; [exact Hfx | exact (HG v Hvs x Hv)]. }
  destruct Hfill as [f [-> Hf]]; cbn [bind].
  f_equal; unfold pd.cut, pd.fillna, to_numeric_coerce; rewrite !map_map.
  apply map_ext_Forall; eapply Forall_impl; [| exact HG].
  intros v Hv; cbv beta.
  destruct (coerce v) as [| x |] eqn:Ev; cbn [isnull].
  - apply age_below_first_edge, Hf.
  - apply age_below_first_edge, (Hv x Ev).
  - reflexivity.
Qed.

Lemma age_rule_raises (s : Series) :
  Forall (fun v => forall q, coerce v = Num q -> q < 18) s ->
  (exists v, In v s /\ outside 1 13 v) ->
  column_rule "Age" s = Raise KeyError.
Proof.
  intros HG [v [Hv Ho]]; unfold column_rule.
  change (column_handler "Age" s) with (handle_Age s).
  rewrite handle_Age_idle, (outside_not_expected 1 13 s v Hv Ho).
  rewrite (bin_age_all_missing s HG); cbn [bind].
  assert (Hm : Forall (fun v => v = NaN) (map (fun _ : cell => NaN) s)).
  { apply Forall_map, Forall_forall; intros; reflexivity. }
  unfold enforce_numeric.
  rewrite (to_numeric_coerce_id _ (all_missing_no_text _ Hm)).
  assert (En : pd.isnull_any (map (fun _ : cell => NaN) s) = true).
  { destruct s as [| a s]; [destruct Hv | reflexivity]. }
  rewrite En.
  change (mem "Age" binary_cols
          || mem "Age" ["GenHlth"; "Age"; "Education"; "Income"]) with true.
  cbv iota.
  rewrite all_missing_no_mode; [reflexivity |].
  apply existsb_false_Forall; eapply Forall_impl; [| exact Hm].
  intros x ->; reflexivity.
Qed.

(** Lines 103-113 and 141-146.  An Age column that gets bucketed, because
    some value of it is text or a number outside [1, 13], and in which no
    value coerces to a number of at least 18: the value imputed before
    the bucketing, the median or the fallback 6, is below the first edge
    as well, the bucketing leaves every entry missing, the final pass
    finds no mode, and the engine ends in an exception, on any table
    with one entry per row in every column. *)
Theorem age_column_below_the_first_edge_raises (df : DataFrame)
    (c : string) (s : Series) :
  rectangular df -> In (c, s) df ->
  canonical_label c = "Age" ->
  (exists v, In v s /\ outside 1 13 v) ->
  (forall v q, In v s -> coerce v = Num q -> q < 18) ->
  raises (preprocess_survey_data df).
Proof.
  intros Hr Hin Ec Ho Hq.
  apply (engine_raises_through df c s
           (fun v => forall q, coerce v = Num q -> q < 18) (outside 1 13) Hr Hin).
  - apply outside_congr.
  - rewrite Ec; intros s0; apply impute_coded_values;
      [reflexivity | | exact Ho | apply outside_present].
    intros v Hv q; apply Hq, Hv.
  - rewrite Ec; intros s1 HG HB.
    exists KeyError; apply age_rule_raises; assumption.
Qed.

Lemma days_rule_raises (s : Series) :
  Forall (fun v => v = NaN) s -> s <> [] -> handle_days s = Raise ValueError.
Proof.
  intros Hm Hne; unfold handle_days.
  rewrite (median_all_missing s Hm); cbn [bind].
  rewrite (to_numeric_coerce_id s (all_missing_no_text s Hm)), fillna_missing_idle.
  destruct Hm as [| v s Hv _]; [congruence |].
  subst v; reflexivity.
Qed.

(** Lines 130-136.  A MentHlth or PhysHlth column that has rows and is
    entirely missing has no median, stays missing through the filling and
    the clip, and the cast to integers raises: the engine ends in an
    exception, on any table with one entry per row in every column. *)
Theorem missing_day_counts_raise (df : DataFrame) (c : string) (s : Series) :
  rectangular df -> In (c, s) df ->
  canonical_label c = "MentHlth" \/ canonical_label c = "PhysHlth" ->
  s <> [] -> Forall (fun v => v = NaN) s ->
  raises (preprocess_survey_data df).
Proof.
  intros Hr Hin Ec Hne Hm.
  apply (engine_raises_through df c s (fun v => v = NaN) (fun v => v = NaN) Hr Hin).
  - intros v v' E ->; destruct v'; simpl in E; congruence.
  - intros s0 H0.
    assert (E : impute_column (canonical_label c) s = Ok s).
    { unfold impute_column.
      assert (Hc : mem (canonical_label c) continuous_cols = true)
        by (destruct Ec as [-> | ->]; reflexivity).
      rewrite Hc, (median_all_missing s Hm); cbn [bind].
      rewrite fillna_missing_idle; reflexivity. }
    rewrite E in H0; injection H0 as <-.
    split; [exact Hm |].
    destruct Hm as [| v s Hv _]; [congruence |].
    exists v; split; [left; reflexivity | exact Hv].
  - intros s1 HG [v [Hv _]].
    unfold column_rule; apply raises_bind.
    assert (Eh : column_handler (canonical_label c) s1 = handle_days s1)
      by (destruct Ec as [-> | ->]; reflexivity).
    rewrite Eh; exists ValueError; apply days_rule_raises; [exact HG |].
    intros ->; destruct Hv.
Qed.

End RaisingBuckets.

(** Witness: a table of minors. *)
Lemma age_column_below_the_first_edge_raises_witness :
  raises (@preprocess_survey_data pandas2
            [("Age", [int 15; int 17; int 16]); ("Sex", [int 0; int 1; int 1])]).
Proof.
  apply (@age_column_below_the_first_edge_raises pandas2
           [("Age", [int 15; int 17; int 16]); ("Sex", [int 0; int 1; int 1])]
           "Age" [int 15; int 17; int 16]).
  - repeat constructor.
  - left; reflexivity.
  - reflexivity.
  - exists (int 15); split; [left; reflexivity |].
    right; unfold Qlt; simpl; lia.
  - intros v q [<- | [<- | [<- | []]]] E; injection E as <-;
      unfold Qlt; simpl; lia.
Defined.

(** Witness: nobody answered the PhysHlth question. *)
Lemma missing_day_counts_raise_witness :
  raises (@preprocess_survey_data pandas2
            [("BMI", [int 20; int 30]); ("PhysHlth", [NaN; NaN])]).
Proof.
  apply (@missing_day_counts_raise pandas2
           [("BMI", [int 20; int 30]); ("PhysHlth", [NaN; NaN])]
           "PhysHlth" [NaN; NaN]).
  - repeat constructor.
  - right; left; reflexivity.
  - right; reflexivity.
  - discriminate.
  - repeat constructor.
Defined.

(** ** An Income column without numbers *)

Section IncomeFallback.

Context {P : Pandas}.


End IncomeFallback.


(** ** The final pass on the other columns *)

Section FinalMedian.

Context {P : Pandas}.


End FinalMedian.

